(** * StepFlow AI processor: task queue, dispatch and status tracking

    A shallow embedding of
      - [src/services/redis_service.py]  (class [RedisService]),
      - [src/services/queue_service.py]  (class [QueueService]) and
      - the routes of [src/api/routes.py] that submit tasks and report
        on the queues,
    together with the parts of [json], of the Redis sorted-set, hash and
    string commands and of [asyncio] that these files rely on.

    Layout: the embedding first (JSON, Redis, the effect monad, the two
    services, the routes, the cache), then the lemmas and the theorems
    about it.

    Conventions of the model.
      - Time is one logical clock counted in whole units: it stands for
        [time.time()] and for the clock of the event loop alike.
      - A Redis command is one step on the store. Commands of concurrent
        coroutines or processes interleave, they do not overlap.
      - A command can fail with a connection error; the world carries the
        fate of the commands to come.
      - Scores of sorted sets are kept as integers, where Redis keeps
        doubles: exact for the scores of absolute value up to 2^53.
      - Payloads are JSON values over integers and strings of code points
        below 256; floating point numbers are left out. *)

From Stdlib Require Import ZArith Ascii String List Permutation Lia.
From Stdlib Require Import DecimalString DecimalZ DecimalPos DecimalFacts.
From stdpp Require Import gmap strings list.

Open Scope string_scope.
Open Scope list_scope.
Open Scope Z_scope.

(* ===================================================================== *)
(** * Part I. The embedding                                               *)
(* ===================================================================== *)

(** ** 1. Python values that travel through the queue

    The payloads ([Dict[str, Any]]) are JSON documents: they come from
    request bodies and are pushed through [json.dumps]/[json.loads].
    A Python [dict] keeps its insertion order, which [json.dumps] follows,
    so a dict is an association list; its keys are pairwise distinct.
    Strings are sequences of code points below 256 and numbers are
    integers: floating point numbers are left out of the model. *)

#[local] Unset Elimination Schemes.
Inductive json : Type :=
| JNull
| JBool (b : bool)
| JInt (z : Z)
| JStr (s : string)
| JList (l : list json)
| JDict (d : list (string * json)).
#[local] Set Elimination Schemes.

Abbreviation pydict := (list (string * json)).

(** [d.get(k)]: the value stored under [k], [None] when absent. *)
Fixpoint dict_get (k : string) (d : pydict) : option json :=
  match d with
  | [] => None
  | (k', v) :: d' => if String.eqb k k' then Some v else dict_get k d'
  end.

(** [d[k] = v]: an existing key keeps its position and takes the new
    value, a new key is appended. *)
Fixpoint dict_set (k : string) (v : json) (d : pydict) : pydict :=
  match d with
  | [] => [(k, v)]
  | (k', v') :: d' =>
      if String.eqb k k' then (k', v) :: d' else (k', v') :: dict_set k v d'
  end.

(** Python truthiness, as used by [if not task_data], [if result] and
    [if not task_type or not task_id]. *)
Definition truthy (v : json) : bool :=
  match v with
  | JNull => false
  | JBool b => b
  | JInt z => negb (z =? 0)
  | JStr s => negb (String.eqb s "")
  | JList l => match l with [] => false | _ => true end
  | JDict d => match d with [] => false | _ => true end
  end.

Definition truthy_opt (o : option json) : bool :=
  match o with Some v => truthy v | None => false end.

(** Keys of a dict are pairwise distinct, at every level. *)
Fixpoint keys_distinct (ks : list string) : bool :=
  match ks with
  | [] => true
  | k :: ks' => negb (existsb (String.eqb k) ks') && keys_distinct ks'
  end.

Fixpoint json_wf (v : json) : bool :=
  match v with
  | JList l => forallb json_wf l
  | JDict d =>
      keys_distinct (map fst d) && forallb (fun kv => json_wf kv.2) d
  | _ => true
  end.

(** ** 2. [json.dumps] with its defaults

    [ensure_ascii=True], separators [", "] and [": "]. *)

Definition hex_digit (n : N) : ascii :=
  match n with
  | 0%N => "0" | 1%N => "1" | 2%N => "2" | 3%N => "3" | 4%N => "4"
  | 5%N => "5" | 6%N => "6" | 7%N => "7" | 8%N => "8" | 9%N => "9"
  | 10%N => "a" | 11%N => "b" | 12%N => "c" | 13%N => "d" | 14%N => "e"
  | _ => "f"
  end%char.

(** One character of a string literal ([ESCAPE_ASCII] and [ESCAPE_DCT] of
    [json.encoder]): the backslash, the quote and everything outside
    [' '..'~'] are escaped. *)
Definition escape_char (c : ascii) : string :=
  let n := N_of_ascii c in
  if (n =? 34)%N then String "\" (String "034" "")
  else if (n =? 92)%N then String "\" (String "\" "")
  else if (n =? 10)%N then String "\" (String "n" "")
  else if (n =? 13)%N then String "\" (String "r" "")
  else if (n =? 9)%N then String "\" (String "t" "")
  else if (n =? 12)%N then String "\" (String "f" "")
  else if (n =? 8)%N then String "\" (String "b" "")
  else if ((n <? 32) || (126 <? n))%N then
    String "\" (String "u" (String "0" (String "0"
      (String (hex_digit (n / 16)) (String (hex_digit (n mod 16)) "")))))
  else String c "".

Fixpoint escape_string (s : string) : string :=
  match s with
  | "" => ""
  | String c s' => escape_char c +:+ escape_string s'
  end.

Definition dumps_str (s : string) : string :=
  String "034" (escape_string s +:+ String "034" "").

Definition dumps_int (z : Z) : string := NilZero.string_of_int (Z.to_int z).

(** [json.dumps]: the first item of a list or dict is written as it is,
    every later one after the item separator. *)
Fixpoint dumps (v : json) : string :=
  match v with
  | JNull => "null"
  | JBool true => "true"
  | JBool false => "false"
  | JInt z => dumps_int z
  | JStr s => dumps_str s
  | JList l =>
      String "["
        (match l with
         | [] => "]"
         | x :: l' =>
             dumps x +:+
             (fix more (l : list json) : string :=
                match l with
                | [] => "]"
                | y :: l'' => ", " +:+ dumps y +:+ more l''
                end) l'
         end)
  | JDict d =>
      String "{"
        (match d with
         | [] => "}"
         | (k, x) :: d' =>
             dumps_str k +:+ ": " +:+ dumps x +:+
             (fix more (d : pydict) : string :=
                match d with
                | [] => "}"
                | (k', y) :: d'' =>
                    ", " +:+ dumps_str k' +:+ ": " +:+ dumps y +:+ more d''
                end) d'
         end)
  end.

(** ** 3. [json.loads] (the pure-Python scanner of [json.decoder])

    Out of the model, and answered with [None] here: float literals,
    [NaN] and [Infinity], and [\uXXXX] escapes of code points from 256
    on. *)

Definition is_ws (c : ascii) : bool :=
  match c with
  | " " | "009" | "010" | "013" => true
  | _ => false
  end%char.

Fixpoint skip_ws (s : string) : string :=
  match s with
  | "" => ""
  | String c s' => if is_ws c then skip_ws s' else s
  end.

Definition is_digit (c : ascii) : bool :=
  let n := N_of_ascii c in ((48 <=? n) && (n <=? 57))%N.

Fixpoint span_digits (s : string) : string * string :=
  match s with
  | "" => ("", "")
  | String c s' =>
      if is_digit c then
        let '(ds, rest) := span_digits s' in (String c ds, rest)
      else ("", s)
  end.

Definition hex_value (c : ascii) : option N :=
  let n := N_of_ascii c in
  if ((48 <=? n) && (n <=? 57))%N then Some (n - 48)%N
  else if ((97 <=? n) && (n <=? 102))%N then Some (n - 87)%N
  else if ((65 <=? n) && (n <=? 70))%N then Some (n - 55)%N
  else None.

Definition hex4 (a b c d : ascii) : option N :=
  match hex_value a, hex_value b, hex_value c, hex_value d with
  | Some x, Some y, Some z, Some w => Some (((x * 16 + y) * 16 + z) * 16 + w)%N
  | _, _, _, _ => None
  end.

Definition prepend (c : ascii) (r : option (string * string))
  : option (string * string) :=
  match r with
  | Some (s, rest) => Some (String c s, rest)
  | None => None
  end.

(** [py_scanstring] with [strict=True], started after the opening quote:
    the literal and what follows its closing quote. *)
Fixpoint scanstring (s : string) : option (string * string) :=
  match s with
  | "" => None
  | String c s' =>
      if (N_of_ascii c =? 34)%N then Some ("", s')
      else if (N_of_ascii c =? 92)%N then
        match s' with
        | "" => None
        | String e s'' =>
            match e with
            | "034" => prepend "034" (scanstring s'')
            | "\" => prepend "\" (scanstring s'')
            | "/" => prepend "/" (scanstring s'')
            | "b" => prepend "008" (scanstring s'')
            | "f" => prepend "012" (scanstring s'')
            | "n" => prepend "010" (scanstring s'')
            | "r" => prepend "013" (scanstring s'')
            | "t" => prepend "009" (scanstring s'')
            | "u" =>
                match s'' with
                | String h1 (String h2 (String h3 (String h4 s3))) =>
                    match hex4 h1 h2 h3 h4 with
                    | Some n =>
                        if (n <? 256)%N
                        then prepend (ascii_of_N n) (scanstring s3)
                        else None
                    | None => None
                    end
                | _ => None
                end
            | _ => None
            end%char
        end
      else if (N_of_ascii c <? 32)%N then None
      else prepend c (scanstring s')
  end.

Definition starts_float (s : string) : bool :=
  match s with
  | String c _ =>
      match c with
      | "." | "e" | "E" => true
      | _ => false
      end%char
  | "" => false
  end.

Definition scan_unsigned (s : string) : option (Z * string) :=
  let '(ds, rest) := span_digits s in
  match ds with
  | "" => None
  | String "0" (String _ _) => None
  | _ =>
      if starts_float rest then None
      else match NilZero.uint_of_string ds with
           | Some u => Some (Z.of_uint u, rest)
           | None => None
           end
  end.

(** [NUMBER_RE], integers only. *)
Definition scan_number (s : string) : option (json * string) :=
  match s with
  | String "-" s' =>
      match scan_unsigned s' with
      | Some (z, rest) => Some (JInt (- z), rest)
      | None => None
      end
  | _ =>
      match scan_unsigned s with
      | Some (z, rest) => Some (JInt z, rest)
      | None => None
      end
  end.

Fixpoint strip_prefix (p s : string) : option string :=
  match p, s with
  | "", _ => Some s
  | String a p', String b s' => if Ascii.eqb a b then strip_prefix p' s' else None
  | String _ _, "" => None
  end.

(** [scan_once], [JSONArray] and [JSONObject]; every call uses up one
    unit of [fuel], and a text of [n] characters needs no more than
    [n + 1] of them. *)
Fixpoint scan_once (fuel : nat) (s : string) : option (json * string) :=
  match fuel with
  | O => None
  | S f =>
      match s with
      | "" => None
      | String c s' =>
          match c with
          | "034" =>
              match scanstring s' with
              | Some (str, rest) => Some (JStr str, rest)
              | None => None
              end
          | "{" =>
              match skip_ws s' with
              | String "}" rest => Some (JDict [], rest)
              | String "034" s1 => parse_members f s1 []
              | _ => None
              end
          | "[" =>
              match skip_ws s' with
              | String "]" rest => Some (JList [], rest)
              | s1 => parse_elems f s1 []
              end
          | "n" =>
              match strip_prefix "ull" s' with
              | Some rest => Some (JNull, rest)
              | None => None
              end
          | "t" =>
              match strip_prefix "rue" s' with
              | Some rest => Some (JBool true, rest)
              | None => None
              end
          | "f" =>
              match strip_prefix "alse" s' with
              | Some rest => Some (JBool false, rest)
              | None => None
              end
          | _ => scan_number s
          end%char
      end
  end
with parse_elems (fuel : nat) (s : string) (acc : list json)
  : option (json * string) :=
  match fuel with
  | O => None
  | S f =>
      match scan_once f s with
      | Some (v, s1) =>
          match skip_ws s1 with
          | String "]" rest => Some (JList (acc ++ [v]), rest)
          | String "," s2 => parse_elems f (skip_ws s2) (acc ++ [v])
          | _ => None
          end
      | None => None
      end
  end
with parse_members (fuel : nat) (s : string) (acc : pydict)
  : option (json * string) :=
  match fuel with
  | O => None
  | S f =>
      match scanstring s with
      | Some (k, s1) =>
          match skip_ws s1 with
          | String ":" s2 =>
              match scan_once f (skip_ws s2) with
              | Some (v, s3) =>
                  match skip_ws s3 with
                  | String "}" rest => Some (JDict (dict_set k v acc), rest)
                  | String "," s4 =>
                      match skip_ws s4 with
                      | String "034" s5 => parse_members f s5 (dict_set k v acc)
                      | _ => None
                      end
                  | _ => None
                  end
              | None => None
              end
          | _ => None
          end
      | None => None
      end
  end.

(** [json.loads]: one value, blanks allowed around it, nothing else. *)
Definition loads (s : string) : option json :=
  match scan_once (S (String.length s)) (skip_ws s) with
  | Some (v, rest) =>
      match skip_ws rest with
      | "" => Some v
      | _ => None
      end
  | None => None
  end.

(** ** 4. [str()] and [repr()] of these values

    Needed for the f-strings [f"task:{task_id}"] and
    [f"Invalid task type: {task_type}"] and for the message of the
    [ValueError] that [TaskType(x)] raises. *)

Fixpoint string_mem (c : ascii) (s : string) : bool :=
  match s with
  | "" => false
  | String c' s' => Ascii.eqb c c' || string_mem c s'
  end.

Definition repr_char (q c : ascii) : string :=
  let n := N_of_ascii c in
  if Ascii.eqb c q || (n =? 92)%N then String "\" (String c "")
  else if (n =? 9)%N then "\t"
  else if (n =? 10)%N then "\n"
  else if (n =? 13)%N then "\r"
  else if ((n <? 32) || (n =? 127) || ((128 <=? n) && (n <=? 160)) || (n =? 173))%N
  then String "\" (String "x" (String (hex_digit (n / 16)) (String (hex_digit (n mod 16)) "")))
  else String c "".

Fixpoint repr_chars (q : ascii) (s : string) : string :=
  match s with
  | "" => ""
  | String c s' => repr_char q c +:+ repr_chars q s'
  end.

Definition repr_str (s : string) : string :=
  let q : ascii :=
    if string_mem "'" s && negb (string_mem "034" s) then "034"%char else "'"%char in
  String q (repr_chars q s +:+ String q "").

Fixpoint py_repr (v : json) : string :=
  match v with
  | JNull => "None"
  | JBool true => "True"
  | JBool false => "False"
  | JInt z => dumps_int z
  | JStr s => repr_str s
  | JList l =>
      String "["
        (match l with
         | [] => "]"
         | x :: l' =>
             py_repr x +:+
             (fix more (l : list json) : string :=
                match l with
                | [] => "]"
                | y :: l'' => ", " +:+ py_repr y +:+ more l''
                end) l'
         end)
  | JDict d =>
      String "{"
        (match d with
         | [] => "}"
         | (k, x) :: d' =>
             repr_str k +:+ ": " +:+ py_repr x +:+
             (fix more (d : pydict) : string :=
                match d with
                | [] => "}"
                | (k', y) :: d'' =>
                    ", " +:+ repr_str k' +:+ ": " +:+ py_repr y +:+ more d''
                end) d'
         end)
  end.

Definition py_str (v : json) : string :=
  match v with
  | JStr s => s
  | _ => py_repr v
  end.

Definition type_name (v : json) : string :=
  match v with
  | JNull => "NoneType"
  | JBool _ => "bool"
  | JInt _ => "int"
  | JStr _ => "str"
  | JList _ => "list"
  | JDict _ => "dict"
  end.

(** ** 5. [models/schemas.py]: the two enumerations *)

Inductive ProcessingStatus : Type := PENDING | PROCESSING | COMPLETED | FAILED.

Definition status_value (s : ProcessingStatus) : string :=
  match s with
  | PENDING => "pending"
  | PROCESSING => "processing"
  | COMPLETED => "completed"
  | FAILED => "failed"
  end.

Inductive TaskType : Type :=
| STEP_DETECTION | OCR_EXTRACTION | CONTENT_GENERATION | VOICE_SYNTHESIS
| IMAGE_ANALYSIS.

Definition task_type_value (t : TaskType) : string :=
  match t with
  | STEP_DETECTION => "step_detection"
  | OCR_EXTRACTION => "ocr_extraction"
  | CONTENT_GENERATION => "content_generation"
  | VOICE_SYNTHESIS => "voice_synthesis"
  | IMAGE_ANALYSIS => "image_analysis"
  end.

Definition all_task_types : list TaskType :=
  [STEP_DETECTION; OCR_EXTRACTION; CONTENT_GENERATION; VOICE_SYNTHESIS;
   IMAGE_ANALYSIS].

(** The lookup by value behind [TaskType(x)]; [None] stands for its
    [ValueError]. *)
Definition task_type_of_value (v : json) : option TaskType :=
  match v with
  | JStr s => List.find (fun t => String.eqb (task_type_value t) s) all_task_types
  | _ => None
  end.

(** [BaseTask.priority]: [Field(default=1, ge=1, le=10)]. *)
Definition priority_in_range (p : Z) : bool := (1 <=? p) && (p <=? 10).

(** ** 6. [config.py] *)

Record Settings : Type := {
  MAX_WORKERS : nat;
  PROCESSING_TIMEOUT : Z
}.

Definition default_settings : Settings :=
  {| MAX_WORKERS := 4; PROCESSING_TIMEOUT := 300 |}.

(** ** 7. Redis: sorted sets, hashes, expiry

    A sorted set holds each member once, with a score, in the order of
    (score, member), the members compared byte by byte. The scores the
    services send are the integers [-priority]. *)

Abbreviation entry := (string * Z)%type.
Abbreviation zset := (list entry).
Abbreviation hash := (list (string * string)).

(** [a] ranks before [b]: lower score, or equal score and smaller member. *)
Definition rank_ltb (a b : entry) : bool :=
  (a.2 <? b.2) || ((a.2 =? b.2) && String.ltb a.1 b.1).

(** An entry put at its rank, and a member taken out. *)
Fixpoint zinsert (e : entry) (z : zset) : zset :=
  match z with
  | [] => [e]
  | e' :: z' => if rank_ltb e e' then e :: z else e' :: zinsert e z'
  end.

Definition zrem (m : string) (z : zset) : zset :=
  List.filter (fun e => negb (String.eqb e.1 m)) z.

(** [ZADD key score member]: a member already there is moved to its
    new score. *)
Definition zadd (m : string) (score : Z) (z : zset) : zset :=
  zinsert (m, score) (zrem m z).

(** [ZPOPMIN key]: the entry of lowest rank, removed. *)
Definition zpopmin (z : zset) : list entry * zset :=
  match z with
  | [] => ([], [])
  | e :: z' => ([e], z')
  end.

Definition zcard (z : zset) : nat := List.length z.

(** [HSET key field value]: as [dict_set], on strings. *)
Fixpoint hset_field (f v : string) (h : hash) : hash :=
  match h with
  | [] => [(f, v)]
  | (f', v') :: h' =>
      if String.eqb f f' then (f', v) :: h' else (f', v') :: hset_field f v h'
  end.

Definition hset_mapping (mapping : hash) (h : hash) : hash :=
  fold_left (fun acc fv => hset_field fv.1 fv.2 acc) mapping h.

Fixpoint hash_get (f : string) (h : hash) : option string :=
  match h with
  | [] => None
  | (f', v) :: h' => if String.eqb f f' then Some v else hash_get f h'
  end.

(** ** 8. Exceptions, events, the world and the effect monad *)

Inductive exn_class : Type :=
| CancelledError      (* asyncio.CancelledError, a BaseException *)
| OtherBaseException  (* SystemExit, KeyboardInterrupt, GeneratorExit *)
| TimeoutError        (* asyncio.TimeoutError *)
| ValueError
| RuntimeError
| TypeError
| AttributeError
| ConnectionError     (* redis.exceptions.ConnectionError *)
| OtherException.     (* any other subclass of Exception *)

(** An exception: its class and [str(e)]. *)
Record exn : Type := Exn { exn_cls : exn_class; exn_str : string }.

(** [isinstance(e, Exception)]. *)
Definition is_Exception (e : exn) : bool :=
  match exn_cls e with
  | CancelledError | OtherBaseException => false
  | _ => true
  end.

Definition is_TimeoutError (e : exn) : bool :=
  match exn_cls e with
  | TimeoutError => true
  | _ => false
  end.

Definition is_CancelledError (e : exn) : bool :=
  match exn_cls e with
  | CancelledError => true
  | _ => false
  end.

(** What an observer of a run sees besides the store: the sleeps, the
    [logger.error] lines and the hash writes that reached Redis. *)
Inductive event : Type :=
| EvSleep (secs : Z)
| EvLogError (msg : string)
| EvHset (key : string) (mapping : hash).

(** The world: the Redis keyspace (sorted sets, hashes, expiry times),
    the clock, the fate of the coming Redis commands ([Some msg]: the
    command raises a connection error with that message; a command
    beyond the end of the list succeeds), [self.running], the trace. *)
Record world : Type := World {
  zsets : gmap string zset;
  hashes : gmap string hash;
  expiry : gmap string Z;
  clock : Z;
  faults : list (option string);
  running : bool;
  trace : list event
}.

Definition initial_world : world :=
  {| zsets := ∅; hashes := ∅; expiry := ∅; clock := 0; faults := [];
     running := true; trace := [] |}.

Definition with_zsets (f : gmap string zset → gmap string zset) (w : world) : world :=
  {| zsets := f (zsets w); hashes := hashes w; expiry := expiry w;
     clock := clock w; faults := faults w; running := running w;
     trace := trace w |}.

Definition with_hashes (f : gmap string hash → gmap string hash) (w : world) : world :=
  {| zsets := zsets w; hashes := f (hashes w); expiry := expiry w;
     clock := clock w; faults := faults w; running := running w;
     trace := trace w |}.

Definition with_expiry (f : gmap string Z → gmap string Z) (w : world) : world :=
  {| zsets := zsets w; hashes := hashes w; expiry := f (expiry w);
     clock := clock w; faults := faults w; running := running w;
     trace := trace w |}.

Definition with_clock (t : Z) (w : world) : world :=
  {| zsets := zsets w; hashes := hashes w; expiry := expiry w;
     clock := t; faults := faults w; running := running w;
     trace := trace w |}.

Definition with_faults (fs : list (option string)) (w : world) : world :=
  {| zsets := zsets w; hashes := hashes w; expiry := expiry w;
     clock := clock w; faults := fs; running := running w;
     trace := trace w |}.

Definition emit (e : event) (w : world) : world :=
  {| zsets := zsets w; hashes := hashes w; expiry := expiry w;
     clock := clock w; faults := faults w; running := running w;
     trace := trace w ++ [e] |}.

Inductive outcome (A : Type) : Type :=
| Ok (a : A)
| Raise (e : exn).
Arguments Ok {A} a.
Arguments Raise {A} e.

Definition M (A : Type) : Type := world → outcome A * world.

Definition ret {A} (a : A) : M A := fun w => (Ok a, w).

Definition raise {A} (e : exn) : M A := fun w => (Raise e, w).

Definition bind {A B} (m : M A) (k : A → M B) : M B :=
  fun w =>
    match m w with
    | (Ok a, w') => k a w'
    | (Raise e, w') => (Raise e, w')
    end.

Notation "'let*' x ':=' m 'in' k" := (bind m (fun x => k))
  (at level 10, x pattern, m at level 100, k at level 200).
Notation "m1 ';;' m2" := (bind m1 (fun _ => m2))
  (at level 100, m2 at level 200, right associativity).

(** [try: body except ...: handler]: [handler e] is [None] when no
    [except] clause matches [e], which then goes on propagating. *)
Definition try_except {A} (body : M A) (handler : exn → option (M A)) : M A :=
  fun w =>
    match body w with
    | (Ok a, w') => (Ok a, w')
    | (Raise e, w') =>
        match handler e with
        | Some h => h w'
        | None => (Raise e, w')
        end
    end.

Definition modify (f : world → world) : M unit := fun w => (Ok tt, f w).

Definition log_error (msg : string) : M unit := modify (emit (EvLogError msg)).

(** [await asyncio.sleep(secs)]. *)
Definition sleep (secs : Z) : M unit :=
  modify (fun w => emit (EvSleep secs) (with_clock (clock w + secs) w)).

(** [asyncio.get_event_loop().time()] and [time.time()]: one logical
    clock, in whole time units. *)
Definition now : M Z := fun w => (Ok (clock w), w).

(** One command sent to Redis: it fails, leaving the store as it is,
    when the next fault says so. *)
Definition redis_command {A} (run : world → A * world) : M A :=
  fun w =>
    match faults w with
    | Some msg :: fs => (Raise (Exn ConnectionError msg), with_faults fs w)
    | None :: fs => let '(a, w') := run (with_faults fs w) in (Ok a, w')
    | [] => let '(a, w') := run w in (Ok a, w')
    end.

(** A key whose time to live has run out is gone. *)
Definition expired (key : string) (w : world) : bool :=
  match expiry w !! key with
  | Some t => t <=? clock w
  | None => false
  end.

Definition zset_at (key : string) (w : world) : zset :=
  default [] (zsets w !! key).

Definition hash_at (key : string) (w : world) : hash :=
  if expired key w then [] else default [] (hashes w !! key).

Definition ZADD (key member : string) (score : Z) : M unit :=
  redis_command (fun w =>
    (tt, with_zsets (fun zs => <[key := zadd member score (zset_at key w)]> zs) w)).

Definition ZPOPMIN (key : string) : M (list entry) :=
  redis_command (fun w =>
    match zpopmin (zset_at key w) with
    | ([], _) => ([], w)
    | (popped, rest) => (popped, with_zsets (fun zs => <[key := rest]> zs) w)
    end).

Definition ZCARD (key : string) : M nat :=
  redis_command (fun w => (zcard (zset_at key w), w)).

Definition HSET (key : string) (mapping : hash) : M unit :=
  redis_command (fun w =>
    let h := hset_mapping mapping (hash_at key w) in
    let w1 := with_hashes (fun hs => <[key := h]> hs) w in
    let w2 := if expired key w then with_expiry (fun ex => delete key ex) w1 else w1 in
    (tt, emit (EvHset key mapping) w2)).

Definition EXPIRE (key : string) (secs : Z) : M unit :=
  redis_command (fun w =>
    match hash_at key w with
    | [] => (tt, w)
    | _ => (tt, with_expiry (fun ex => <[key := clock w + secs]> ex) w)
    end).

Definition HGETALL (key : string) : M hash :=
  redis_command (fun w => (hash_at key w, w)).

(** ** 9. The processors and [asyncio.wait_for]

    A processor ([process(task_data)]) is seen from outside: how long
    the call runs, how it ends, and how long it takes to wind up once
    it is cancelled. *)

Inductive completion : Type :=
| Returns (result : json)
| Raises (e : exn).

Record run : Type := {
  duration : N;
  finish : completion;
  cancel_latency : N
}.

Definition advance (d : Z) (w : world) : world := with_clock (clock w + d) w.

(** [await asyncio.wait_for(coro, timeout)]: the call ends by itself
    within [timeout], or it is cancelled at [timeout] and
    [asyncio.TimeoutError] is raised once it has wound up; a [timeout]
    of zero or less cancels at once. *)
Definition wait_for (r : run) (timeout : Z) : M json :=
  fun w =>
    if (0 <? timeout) && (Z.of_N (duration r) <=? timeout) then
      match finish r with
      | Returns v => (Ok v, advance (Z.of_N (duration r)) w)
      | Raises e => (Raise e, advance (Z.of_N (duration r)) w)
      end
    else
      (Raise (Exn TimeoutError ""),
       advance (Z.max 0 timeout + Z.of_N (cancel_latency r)) w).

(** [v.get(k)] and [v.get(k, default)]; only a dict has a [get]. *)
Definition py_get_default (v : json) (k : string) (dflt : json) : M json :=
  match v with
  | JDict d => ret (default dflt (dict_get k d))
  | _ =>
      raise (Exn AttributeError
               ("'" +:+ type_name v +:+ "' object has no attribute 'get'"))
  end.

Definition py_get (v : json) (k : string) : M json := py_get_default v k JNull.

(** [-priority]. *)
Definition py_neg (v : json) : M Z :=
  match v with
  | JInt z => ret (- z)
  | JBool b => ret (if b then -1 else 0)
  | _ =>
      raise (Exn TypeError
               ("bad operand type for unary -: '" +:+ type_name v +:+ "'"))
  end.

(** [json.loads] as a call; the text of the decoding error is not
    modelled. *)
Definition json_loads (s : string) : M json :=
  match loads s with
  | Some v => ret v
  | None => raise (Exn ValueError "invalid JSON document")
  end.

(** [TaskType(value)]. *)
Definition TaskType_of (v : json) : M TaskType :=
  match task_type_of_value v with
  | Some t => ret t
  | None => raise (Exn ValueError (py_repr v +:+ " is not a valid TaskType"))
  end.

(** [except Exception as e: handler]. *)
Definition except_Exception {A} (handler : exn → M A) (e : exn) : option (M A) :=
  if is_Exception e then Some (handler e) else None.

(** ** 10. [redis_service.py]: class [RedisService] *)

Definition enqueue_task (queue_name : string) (task_data : json) (priority : json)
  : M bool :=
  try_except
    (let task_json := dumps task_data in
     let* score := py_neg priority in
     ZADD ("queue:" +:+ queue_name) task_json score;;
     ret true)
    (except_Exception (fun e =>
       log_error ("Failed to enqueue task: " +:+ exn_str e);;
       ret false)).

Definition dequeue_task (queue_name : string) : M (option json) :=
  try_except
    (let* result := ZPOPMIN ("queue:" +:+ queue_name) in
     match result with
     | (task_json, _) :: _ =>
         let* v := json_loads task_json in
         ret (Some v)
     | [] => ret None
     end)
    (except_Exception (fun e =>
       log_error ("Failed to dequeue task: " +:+ exn_str e);;
       ret None)).

Definition get_queue_size (queue_name : string) : M nat :=
  try_except
    (ZCARD ("queue:" +:+ queue_name))
    (except_Exception (fun e =>
       log_error ("Failed to get queue size: " +:+ exn_str e);;
       ret 0%nat)).

Definition set_task_status (task_id : json) (status : ProcessingStatus)
    (result : option pydict) : M unit :=
  try_except
    (let task_key := "task:" +:+ py_str task_id in
     let* updated_at := now in
     let task_data :=
       [("status", status_value status); ("updated_at", dumps_int updated_at)] in
     let task_data :=
       match result with
       | Some (x :: r) => (task_data ++ [("result", dumps (JDict (x :: r)))])%list
       | _ => task_data
       end in
     HSET task_key task_data;;
     EXPIRE task_key 3600)
    (except_Exception (fun e =>
       log_error ("Failed to set task status: " +:+ exn_str e))).

Definition get_task_status (task_id : json) : M (option pydict) :=
  try_except
    (let task_key := "task:" +:+ py_str task_id in
     let* task_data := HGETALL task_key in
     let fields := map (fun fv : string * string => (fv.1, JStr fv.2)) task_data in
     let* fields :=
       match task_data, hash_get "result" task_data with
       | _ :: _, Some r =>
           let* v := json_loads r in
           ret (dict_set "result" v fields)
       | _, _ => ret fields
       end in
     ret (match fields with [] => None | _ => Some fields end))
    (except_Exception (fun e =>
       log_error ("Failed to get task status: " +:+ exn_str e);;
       ret None)).

(** ** 11. [queue_service.py]: class [QueueService] *)

Inductive loop_ctl : Type := Continue | Break.

Section QueueService.

Variable settings : Settings.

(** The [process] methods of the five AI services. *)
Variable step_detection_process : json → run.
Variable ocr_process : json → run.
Variable content_generation_process : json → run.
Variable voice_synthesis_process : json → run.
Variable image_analysis_process : json → run.

(** [self.task_handlers], and its [get]. *)
Definition task_handlers : list (TaskType * (json → run)) :=
  [(STEP_DETECTION, step_detection_process);
   (OCR_EXTRACTION, ocr_process);
   (CONTENT_GENERATION, content_generation_process);
   (VOICE_SYNTHESIS, voice_synthesis_process);
   (IMAGE_ANALYSIS, image_analysis_process)].

Definition TaskType_eqb (a b : TaskType) : bool :=
  String.eqb (task_type_value a) (task_type_value b).

(** The processor registered for a task type. *)
Definition handler_of (ty : TaskType) : json → run :=
  match ty with
  | STEP_DETECTION => step_detection_process
  | OCR_EXTRACTION => ocr_process
  | CONTENT_GENERATION => content_generation_process
  | VOICE_SYNTHESIS => voice_synthesis_process
  | IMAGE_ANALYSIS => image_analysis_process
  end.

Definition handlers_get (t : TaskType) : option (json → run) :=
  match List.find (fun th => TaskType_eqb t th.1) task_handlers with
  | Some th => Some th.2
  | None => None
  end.

Definition _process_task (worker_id : string) (task_data : json) : M unit :=
  let* task_id := py_get task_data "task_id" in
  let* task_type := py_get task_data "task_type" in
  try_except
    (set_task_status task_id PROCESSING None;;
     let* ty := TaskType_of task_type in
     match handlers_get ty with
     | None =>
         raise (Exn ValueError ("No handler for task type: " +:+ py_str task_type))
     | Some handler =>
         let* start_time := now in
         let* result := wait_for (handler task_data) (PROCESSING_TIMEOUT settings) in
         let* end_time := now in
         let processing_time := end_time - start_time in
         let result_data :=
           [("result", result);
            ("processing_time", JInt processing_time);
            ("worker_id", JStr worker_id)] in
         set_task_status task_id COMPLETED (Some result_data)
     end)
    (fun e =>
       if is_TimeoutError e then
         Some (log_error ("Task " +:+ py_str task_id +:+ " timed out");;
               set_task_status task_id FAILED (Some [("error", JStr "Task timed out")]))
       else
         except_Exception (fun e =>
           log_error ("Task " +:+ py_str task_id +:+ " failed: " +:+ exn_str e);;
           set_task_status task_id FAILED (Some [("error", JStr (exn_str e))])) e).

(** One turn of the [while self.running] loop of [_worker]: the [try]
    block with its two [except] clauses. *)
Definition worker_iteration (worker_id queue_name : string) : M loop_ctl :=
  try_except
    (let* task_data := dequeue_task queue_name in
     match task_data with
     | Some d =>
         if truthy d then
           _process_task worker_id d;;
           ret Continue
         else
           sleep 1;;
           ret Continue
     | None =>
         sleep 1;;
         ret Continue
     end)
    (fun e =>
       if is_CancelledError e then Some (ret Break)
       else
         except_Exception (fun e =>
           log_error ("Worker " +:+ worker_id +:+ " error: " +:+ exn_str e);;
           sleep 5;;
           ret Continue) e).

(** [_worker]: at most [fuel] turns of the loop. *)
Fixpoint _worker (fuel : nat) (worker_id queue_name : string) : M unit :=
  match fuel with
  | O => ret tt
  | S fuel' =>
      fun w =>
        if running w then
          (let* ctl := worker_iteration worker_id queue_name in
           match ctl with
           | Continue => _worker fuel' worker_id queue_name
           | Break => ret tt
           end) w
        else (Ok tt, w)
  end.

Definition submit_task (task_data : json) : M json :=
  let* task_type := py_get task_data "task_type" in
  let* task_id := py_get task_data "task_id" in
  let* priority := py_get_default task_data "priority" (JInt 1) in
  if negb (truthy task_type) || negb (truthy task_id) then
    raise (Exn ValueError "Task must have task_type and task_id")
  else
    match task_type_of_value task_type with
    | None => raise (Exn ValueError ("Invalid task type: " +:+ py_str task_type))
    | Some _ =>
        set_task_status task_id PENDING None;;
        let* success := enqueue_task (py_str task_type) task_data priority in
        if success then ret task_id
        else raise (Exn RuntimeError "Failed to enqueue task")
    end.

Definition get_task_result (task_id : json) : M (option pydict) :=
  get_task_status task_id.

End QueueService.

(** ** 12. What the statements are written with

    Measures and invariants of the data, views of the store and of the
    trace, clients that call the services in a row, and sample data. *)

(** The tail of a list or of a dict in the output of [dumps]. *)
Fixpoint dumps_more (l : list json) : string :=
  match l with
  | [] => "]"
  | y :: l' => ", " +:+ dumps y +:+ dumps_more l'
  end.

(** The same for the members of a dict. *)
Fixpoint dumps_more_members (d : pydict) : string :=
  match d with
  | [] => "}"
  | (k, y) :: d' => ", " +:+ dumps_str k +:+ ": " +:+ dumps y +:+ dumps_more_members d'
  end.

(** [s] cannot continue a number: it starts with no digit, dot or
    exponent mark. *)
Definition number_end (s : string) : bool :=
  match s with
  | "" => true
  | String c _ => negb (is_digit c) && negb (starts_float s)
  end.

(** [s] starts with a digit. *)
Definition digit_start (s : string) : Prop :=
  match s with
  | String c _ => is_digit c = true
  | "" => False
  end.

(** The characters a JSON value written by [dumps] can start with. *)
Definition value_start (c : ascii) : bool :=
  match c with
  | "034" | "{" | "[" | "n" | "t" | "f" | "-" => true
  | _ => is_digit c
  end%char.

(** The fuel [scan_once] needs for a value, for the items of a list and
    for the members of a dict. *)
Fixpoint json_size (v : json) : nat :=
  match v with
  | JList l =>
      S ((fix sz (l : list json) : nat :=
            match l with
            | [] => 0%nat
            | x :: l' => S (json_size x + sz l')%nat
            end) l)
  | JDict d =>
      S ((fix sz (d : pydict) : nat :=
            match d with
            | [] => 0%nat
            | (_, x) :: d' => S (json_size x + sz d')%nat
            end) d)
  | _ => 1%nat
  end.

Fixpoint elems_size (l : list json) : nat :=
  match l with
  | [] => 0%nat
  | x :: l' => S (json_size x + elems_size l')%nat
  end.

Fixpoint members_size (d : pydict) : nat :=
  match d with
  | [] => 0%nat
  | (_, x) :: d' => S (json_size x + members_size d')%nat
  end.

(** [scan_once] reads [dumps v] back, whatever follows it. *)
Definition scan_ok_for (v : json) : Prop :=
  json_wf v = true →
  ∀ n rest, (json_size v ≤ n)%nat → number_end rest = true →
    scan_once n (dumps v +:+ rest) = Some (v, rest).

(** The invariant of a sorted set: in rank order, no member twice. *)
Fixpoint ranked (z : zset) : bool :=
  match z with
  | a :: (b :: _) as z' => rank_ltb a b && ranked z'
  | _ => true
  end.

Definition zset_wf (z : zset) : bool := ranked z && keys_distinct (map fst z).

(** [x] comes before [y] in [l]. *)
Definition precedes {A} (x y : A) (l : list A) : Prop :=
  ∃ i j : nat, (i < j)%nat ∧ l !! i = Some x ∧ l !! j = Some y.

(** A member that [json.loads] reads back to what [json.dumps] wrote. *)
Definition canonical (m : string) : bool :=
  match loads m with
  | Some d => String.eqb (dumps d) m
  | None => false
  end.

(** A queue as [enqueue_task] builds it. *)
Definition queue_ok (z : zset) : bool :=
  zset_wf z && forallb (fun e => canonical e.1) z.

(** [f"queue:{queue_name}"]. *)
Definition queue_key (queue_name : string) : string := "queue:" +:+ queue_name.

(** The queue of a task type, as the store holds it. *)
Definition queue_of (queue_name : string) (w : world) : zset :=
  zset_at (queue_key queue_name) w.

(** [d] is pending on the queue with [priority]. *)
Definition pending (queue_name : string) (d : json) (priority : Z) (w : world) : Prop :=
  (dumps d, - priority) ∈ queue_of queue_name w.

(** The next command goes through. *)
Definition healthy (w : world) : bool :=
  match faults w with
  | Some _ :: _ => false
  | _ => true
  end.

(** The connection once the next command has been sent. *)
Definition after_command (w : world) : world := with_faults (tail (faults w)) w.

(** [n] calls of [dequeue_task] in a row, what they return in order. *)
Fixpoint dequeue_all (n : nat) (queue_name : string) : M (list (option json)) :=
  match n with
  | O => ret []
  | S n' =>
      let* r := dequeue_task queue_name in
      let* rs := dequeue_all n' queue_name in
      ret (r :: rs)
  end.

(** Concurrent callers of [dequeue_task] on one queue. A call is a single
    [ZPOPMIN], which Redis runs as one step, so a concurrent run is an
    interleaving: [callers] lists who is served next, a caller as often
    as it calls. Each call is paired with what it returned. *)
Fixpoint dequeue_by (callers : list nat) (queue_name : string)
  : M (list (nat * option json)) :=
  match callers with
  | [] => ret []
  | c :: cs =>
      let* r := dequeue_task queue_name in
      let* rs := dequeue_by cs queue_name in
      ret ((c, r) :: rs)
  end.


(** The payload an entry stands for. *)
Definition payload_of (e : entry) : json := default JNull (loads e.1).

(** Sample tasks, as [routes.py] builds them. *)
Definition ocr_fields (task_id : string) (priority : Z) : pydict :=
  [("task_id", JStr task_id);
   ("task_type", JStr "ocr_extraction");
   ("image_url", JStr "http://example.com/page.png");
   ("languages", JList [JStr "en"]);
   ("priority", JInt priority);
   ("metadata", JDict [])].

Definition ocr_task (task_id : string) (priority : Z) : json :=
  JDict (ocr_fields task_id priority).

(** Two tasks enqueued one after the other, then the queue dequeued
    until it is empty. *)
Definition two_enqueues_then_drain (q : string) (a b : json) (pa pb : Z)
  : M (list (option json)) :=
  enqueue_task q a (JInt pa);;
  enqueue_task q b (JInt pb);;
  let* n := get_queue_size q in
  dequeue_all n q.

(** The scenario of the specification: priorities 5, 9, 1 submitted in
    that order. *)
Definition world_5_9_1 : world :=
  ((enqueue_task "ocr_extraction" (ocr_task "first" 5) (JInt 5);;
    enqueue_task "ocr_extraction" (ocr_task "second" 9) (JInt 9);;
    enqueue_task "ocr_extraction" (ocr_task "third" 1) (JInt 1))
     initial_world).2.


(** [f"task:{task_id}"]. *)
Definition task_key (task_id : json) : string := "task:" +:+ py_str task_id.

(** The fields [set_task_status] sends with [HSET]. *)
Definition status_mapping (status : ProcessingStatus) (result : option pydict)
    (updated_at : Z) : hash :=
  [("status", status_value status); ("updated_at", dumps_int updated_at)] ++
  match result with
  | Some (x :: r) => [("result", dumps (JDict (x :: r)))]
  | _ => []
  end.

(** The record of a task as the store holds it. *)
Definition record_of (task_id : json) (w : world) : hash :=
  hash_at (task_key task_id) w.

(** Events that are waits, and traces without any. *)
Definition is_sleep (ev : event) : bool :=
  match ev with
  | EvSleep _ => true
  | _ => false
  end.

(** What [wait_for] makes of a run: the time that passes and how the
    awaited call ends for the caller. *)
Definition awaited (timeout : Z) (r : run) : Z * completion :=
  if (0 <? timeout) && (Z.of_N (duration r) <=? timeout)
  then (Z.of_N (duration r), finish r)
  else (Z.max 0 timeout + Z.of_N (cancel_latency r), Raises (Exn TimeoutError "")).

(** The last status write of [_process_task], by the way the awaited call
    ended after [elapsed] time units: status, result argument, and the
    error line logged before it. [None]: no write, the exception leaves
    [_process_task]. *)
Definition terminal_write (worker_id : string) (task_id : json) (c : completion)
    (elapsed : Z) : option (ProcessingStatus * pydict * list event) :=
  match c with
  | Returns v =>
      Some (COMPLETED,
            [("result", v); ("processing_time", JInt elapsed);
             ("worker_id", JStr worker_id)],
            [])
  | Raises e =>
      if is_TimeoutError e then
        Some (FAILED, [("error", JStr "Task timed out")],
              [EvLogError ("Task " +:+ py_str task_id +:+ " timed out")])
      else if is_Exception e then
        Some (FAILED, [("error", JStr (exn_str e))],
              [EvLogError ("Task " +:+ py_str task_id +:+ " failed: " +:+ exn_str e)])
      else None
  end.

(** [task_data.get("task_id")], [task_data.get("task_type")] and
    [task_data.get("priority", 1)]. *)
Definition task_id_of (d : pydict) : json := default JNull (dict_get "task_id" d).
Definition task_type_of (d : pydict) : json := default JNull (dict_get "task_type" d).

(** The outcome fields of a status record. [set_task_status] stores what
    the worker passes as [result], JSON-encoded, under the field
    [result]: there lie the processor's result, the processing time and
    the worker id of a completed task, and the error of a failed one. *)
Definition outcome_field (f : string) (rec : pydict) : option json :=
  match dict_get "result" rec with
  | Some (JDict r) => dict_get f r
  | _ => None
  end.

Definition recorded_error : pydict → option json := outcome_field "error".
Definition recorded_result : pydict → option json := outcome_field "result".
Definition recorded_processing_time : pydict → option json :=
  outcome_field "processing_time".

Definition quiet (evs : list event) : bool :=
  forallb (fun ev => negb (is_sleep ev)) evs.

(** [w'] is [w] after the events [evs], the clock, the queues and
    [self.running] as they were. *)
Definition extends (w w' : world) (evs : list event) : Prop :=
  trace w' = trace w ++ evs ∧ clock w' = clock w ∧ zsets w' = zsets w ∧
  running w' = running w.

(** As [extends], the clock left free. *)
Definition follows (w w' : world) (evs : list event) : Prop :=
  trace w' = trace w ++ evs ∧ zsets w' = zsets w ∧ running w' = running w.

Definition priority_of (d : pydict) : json := default (JInt 1) (dict_get "priority" d).

(** The statuses written to a record, read off the trace. *)
Definition status_writes (key : string) (evs : list event) : list string :=
  omap (fun ev =>
          match ev with
          | EvHset k mapping =>
              if String.eqb k key then hash_get "status" mapping else None
          | _ => None
          end) evs.

(** Processors that return or raise after a given time. *)
Definition returns_after (n : N) (r : json) : json → run :=
  fun _ => {| duration := n; finish := Returns r; cancel_latency := 0 |}.

Definition raises_after (n : N) (e : exn) : json → run :=
  fun _ => {| duration := n; finish := Raises e; cancel_latency := 0 |}.

(** A service with the default settings whose OCR processor is [ocr]. *)
Definition ocr_worker (ocr : json → run) : M loop_ctl :=
  worker_iteration default_settings (returns_after 1 JNull) ocr
    (returns_after 1 JNull) (returns_after 1 JNull) (returns_after 1 JNull)
    "ocr_extraction_0" "ocr_extraction".

(** Its worker loop and its dispatch table. *)
Definition ocr_loop (ocr : json → run) (fuel : nat) : M unit :=
  _worker default_settings (returns_after 1 JNull) ocr
    (returns_after 1 JNull) (returns_after 1 JNull) (returns_after 1 JNull)
    fuel "ocr_extraction_0" "ocr_extraction".

Definition ocr_handler_of (ocr : json → run) : TaskType → json → run :=
  handler_of (returns_after 1 JNull) ocr (returns_after 1 JNull)
    (returns_after 1 JNull) (returns_after 1 JNull).

(** The world after one task was submitted. *)
Definition world_one_task : world :=
  (submit_task (ocr_task "t-1" 5) initial_world).2.

(** An OCR run of 400 time units, against the deadline of 300. *)
Definition slow_ocr : json → run :=
  returns_after 400 (JDict [("text", JStr "StepFlow")]).

(** An OCR run that fails after 2 time units with the given exception. *)
Definition failing_ocr (e : exn) : json → run := raises_after 2 e.

(** [RuntimeError("cannot read image")]. *)
Definition image_unreadable : exn := Exn RuntimeError "cannot read image".

(** An exception raised without a message, as [raise Exception()]. *)
Definition bare_exception : exn := Exn OtherException "".

(** The connection is down when the worker polls. *)
Definition world_store_down : world :=
  with_faults [Some "Error 111 connecting to localhost:6379. Connection refused."]
    world_one_task.

(** The dequeue goes through; the write of PROCESSING fails at its
    [HSET], the last write at its [EXPIRE]. *)
Definition world_status_write_fails : world :=
  with_faults [None; Some "Connection reset by peer"; None;
               Some "Connection reset by peer"] world_one_task.

(** An OCR run of 7 time units that returns a text. *)
Definition quick_ocr : json → run :=
  returns_after 7 (JDict [("text", JStr "StepFlow")]).

(** The scenario of the specification with a single worker: three tasks
    submitted with priorities 5, 9, 1. *)
Definition world_three_submitted : world :=
  ((submit_task (ocr_task "first" 5);;
    submit_task (ocr_task "second" 9);;
    submit_task (ocr_task "third" 1)) initial_world).2.

(** The records set to PROCESSING, in the order of the trace. *)
Definition claimed_in_order (evs : list event) : list string :=
  omap (fun ev =>
          match ev with
          | EvHset k mapping =>
              match hash_get "status" mapping with
              | Some st => if String.eqb st "processing" then Some k else None
              | None => None
              end
          | _ => None
          end) evs.

(** COMPLETED and FAILED, as a query shows them. *)
Definition terminal_status (st : option json) : Prop :=
  st = Some (JStr "completed") ∨ st = Some (JStr "failed").

(** The status of a task as a query sees it. *)
Definition status_seen (task_id : json) : M (option json) :=
  let* rec := get_task_result task_id in
  ret (rec ≫= dict_get "status").

(** ** 13. [queue_service.py]: the pool of workers and the statistics *)

(** An [asyncio.Task] of [self.workers]: the coroutine it runs,
    [_worker(worker_id, queue_name)], and whether it is done. *)
Record worker_task : Type := WorkerTask {
  task_worker_id : string;
  task_queue_name : string;
  task_done : bool
}.

(** [self.running = b]. *)
Definition with_running (b : bool) (w : world) : world :=
  {| zsets := zsets w; hashes := hashes w; expiry := expiry w;
     clock := clock w; faults := faults w; running := b;
     trace := trace w |}.

(** [stats[task_type.value]]: the two counts kept for a task type. *)
Record type_stats : Type := {
  stat_pending_tasks : nat;
  stat_workers : nat
}.

(** The dict [get_queue_stats] returns: an entry for each task type,
    in the order they were set, and the two counts of workers. *)
Record queue_stats : Type := {
  per_type : list (string * type_stats);
  total_workers : nat;
  active_workers : nat
}.

(** [stats[k] = v] on the entries of the task types. *)
Fixpoint stats_set (k : string) (v : type_stats) (stats : list (string * type_stats))
  : list (string * type_stats) :=
  match stats with
  | [] => [(k, v)]
  | (k', v') :: stats' =>
      if String.eqb k k' then (k', v) :: stats' else (k', v') :: stats_set k v stats'
  end.

Section Pool.

Variable settings : Settings.

(** The inner loop of [start_workers], [for i in range(MAX_WORKERS)]:
    a task is created for the worker [f"{task_type.value}_{i}"] and
    appended to [self.workers]. *)
Definition spawn_workers (task_type : TaskType) (workers : list worker_task)
  : list worker_task :=
  fold_left
    (fun workers i =>
       workers ++
       [{| task_worker_id :=
             task_type_value task_type +:+ "_" +:+ dumps_int (Z.of_nat i);
           task_queue_name := task_type_value task_type;
           task_done := false |}])
    (seq 0 (MAX_WORKERS settings)) workers.

(** [start_workers]; it returns [self.workers] as it leaves it. *)
Definition start_workers (workers : list worker_task) : M (list worker_task) :=
  modify (with_running true);;
  ret (fold_left (fun workers task_type => spawn_workers task_type workers)
         all_task_types workers).

(** The loop of [get_queue_stats] over the task types. *)
Fixpoint queue_stats_loop (types : list TaskType) (stats : list (string * type_stats))
  : M (list (string * type_stats)) :=
  match types with
  | [] => ret stats
  | task_type :: types' =>
      let* queue_size := get_queue_size (task_type_value task_type) in
      queue_stats_loop types'
        (stats_set (task_type_value task_type)
           {| stat_pending_tasks := queue_size;
              stat_workers := MAX_WORKERS settings |} stats)
  end.

Definition get_queue_stats (workers : list worker_task) : M queue_stats :=
  let* stats := queue_stats_loop all_task_types [] in
  ret {| per_type := stats;
         total_workers := length workers;
         active_workers :=
           length (List.filter (fun w => negb (task_done w)) workers) |}.

End Pool.

(** ** 14. [api/routes.py]

    A route ends with the body it returns or with an [HTTPException];
    the ids that [uuid.uuid4()] draws are given to it. *)

Inductive http_result (A : Type) : Type :=
| Http200 (body : A)
| HTTPException (status_code : Z) (detail : string).
Arguments Http200 {A} body.
Arguments HTTPException {A} status_code detail.

(** The model [QueueStatus] of [schemas.py]. *)
Record QueueStatus : Type := {
  total_tasks : Z;
  pending_tasks : Z;
  processing_tasks : Z;
  completed_tasks : Z;
  failed_tasks : Z;
  workers_active : Z
}.

(** The sum of the pending tasks over the values of [stats] that are
    dicts: these are the entries of the task types. *)
Fixpoint sum_pending (stats : list (string * type_stats)) : Z :=
  match stats with
  | [] => 0
  | queue :: stats' => Z.of_nat (stat_pending_tasks queue.2) + sum_pending stats'
  end.

(** [GET /queue/status]. *)
Definition get_queue_status (settings : Settings) (workers : list worker_task)
  : M (http_result QueueStatus) :=
  try_except
    (let* stats := get_queue_stats settings workers in
     let total_tasks := sum_pending (per_type stats) in
     ret (Http200 {| total_tasks := total_tasks;
                     pending_tasks := total_tasks;
                     processing_tasks := 0;
                     completed_tasks := 0;
                     failed_tasks := 0;
                     workers_active := Z.of_nat (active_workers stats) |}))
    (except_Exception (fun e =>
       log_error ("Error getting queue status: " +:+ exn_str e);;
       ret (HTTPException 500 (exn_str e)))).

(** The loop of [POST /tasks/batch]: the [i]-th task gets the id
    [uuid4 i] and is submitted. *)
Fixpoint submit_batch_loop (uuid4 : nat → string) (i : nat) (tasks : list pydict)
    (task_ids : list string) : M (list string) :=
  match tasks with
  | [] => ret task_ids
  | task_data :: tasks' =>
      let task_id := uuid4 i in
      let task_data := dict_set "task_id" (JStr task_id) task_data in
      submit_task (JDict task_data);;
      submit_batch_loop uuid4 (S i) tasks' (task_ids ++ [task_id])
  end.

Definition submit_batch_tasks (uuid4 : nat → string) (tasks : list pydict)
  : M (http_result json) :=
  try_except
    (let* task_ids := submit_batch_loop uuid4 0 tasks [] in
     ret (Http200 (JDict [("submitted_tasks", JInt (Z.of_nat (length task_ids)));
                          ("task_ids", JList (map JStr task_ids));
                          ("status", JStr "batch_submitted")])))
    (except_Exception (fun e =>
       log_error ("Error submitting batch tasks: " +:+ exn_str e);;
       ret (HTTPException 500 (exn_str e)))).

(** The request models of [schemas.py], as pydantic hands them to the
    routes: the fields of [BaseTask], then those of each request. A URL
    is held as the string [str()] makes of it; what the models type as
    [Dict[str, Any]] or leave to lists of dicts is a JSON value. *)
Module BaseTask.
Record t : Type := {
  task_id : string;
  task_type : TaskType;
  priority : Z;
  metadata : pydict
}.
End BaseTask.

Module StepDetectionRequest.
Record t : Type := {
  base : BaseTask.t;
  screenshot_url : string;
  previous_screenshot_url : option string;
  session_context : pydict
}.
End StepDetectionRequest.

Module OCRRequest.
Record t : Type := {
  base : BaseTask.t;
  image_url : string;
  languages : list string;
  extract_regions : json
}.
End OCRRequest.

Module ContentGenerationRequest.
Record t : Type := {
  base : BaseTask.t;
  prompt : string;
  content_type : string;
  context : pydict;
  max_length : option Z
}.
End ContentGenerationRequest.

Module VoiceSynthesisRequest.
Record t : Type := {
  base : BaseTask.t;
  text : string;
  voice_id : option string;
  voice_settings : pydict
}.
End VoiceSynthesisRequest.

Module ImageAnalysisRequest.
Record t : Type := {
  base : BaseTask.t;
  image_url : string;
  analysis_types : list string
}.
End ImageAnalysisRequest.

(** An optional string and an optional integer as Python values. *)
Definition py_opt_str (o : option string) : json :=
  match o with
  | Some s => JStr s
  | None => JNull
  end.

Definition py_opt_int (o : option Z) : json :=
  match o with
  | Some z => JInt z
  | None => JNull
  end.

(** The five routes that take a typed request; [uuid] is the id that
    [uuid.uuid4()] draws. *)
Definition submit_step_detection_task (request : StepDetectionRequest.t) (uuid : string)
  : M (http_result json) :=
  try_except
    (let task_id := uuid in
     let task_data :=
       [("task_id", JStr task_id);
        ("task_type",
         JStr (task_type_value (BaseTask.task_type (StepDetectionRequest.base request))));
        ("screenshot_url", JStr (StepDetectionRequest.screenshot_url request));
        ("previous_screenshot_url",
         py_opt_str (StepDetectionRequest.previous_screenshot_url request));
        ("session_context", JDict (StepDetectionRequest.session_context request));
        ("priority", JInt (BaseTask.priority (StepDetectionRequest.base request)));
        ("metadata", JDict (BaseTask.metadata (StepDetectionRequest.base request)))] in
     submit_task (JDict task_data);;
     ret (Http200 (JDict [("task_id", JStr task_id); ("status", JStr "submitted")])))
    (except_Exception (fun e =>
       log_error ("Error submitting step detection task: " +:+ exn_str e);;
       ret (HTTPException 500 (exn_str e)))).

Definition submit_ocr_task (request : OCRRequest.t) (uuid : string)
  : M (http_result json) :=
  try_except
    (let task_id := uuid in
     let task_data :=
       [("task_id", JStr task_id);
        ("task_type", JStr (task_type_value (BaseTask.task_type (OCRRequest.base request))));
        ("image_url", JStr (OCRRequest.image_url request));
        ("languages", JList (map JStr (OCRRequest.languages request)));
        ("extract_regions", OCRRequest.extract_regions request);
        ("priority", JInt (BaseTask.priority (OCRRequest.base request)));
        ("metadata", JDict (BaseTask.metadata (OCRRequest.base request)))] in
     submit_task (JDict task_data);;
     ret (Http200 (JDict [("task_id", JStr task_id); ("status", JStr "submitted")])))
    (except_Exception (fun e =>
       log_error ("Error submitting OCR task: " +:+ exn_str e);;
       ret (HTTPException 500 (exn_str e)))).

Definition submit_content_generation_task (request : ContentGenerationRequest.t)
    (uuid : string) : M (http_result json) :=
  try_except
    (let task_id := uuid in
     let task_data :=
       [("task_id", JStr task_id);
        ("task_type",
         JStr (task_type_value (BaseTask.task_type (ContentGenerationRequest.base request))));
        ("prompt", JStr (ContentGenerationRequest.prompt request));
        ("content_type", JStr (ContentGenerationRequest.content_type request));
        ("context", JDict (ContentGenerationRequest.context request));
        ("max_length", py_opt_int (ContentGenerationRequest.max_length request));
        ("priority", JInt (BaseTask.priority (ContentGenerationRequest.base request)));
        ("metadata", JDict (BaseTask.metadata (ContentGenerationRequest.base request)))] in
     submit_task (JDict task_data);;
     ret (Http200 (JDict [("task_id", JStr task_id); ("status", JStr "submitted")])))
    (except_Exception (fun e =>
       log_error ("Error submitting content generation task: " +:+ exn_str e);;
       ret (HTTPException 500 (exn_str e)))).

Definition submit_voice_synthesis_task (request : VoiceSynthesisRequest.t)
    (uuid : string) : M (http_result json) :=
  try_except
    (let task_id := uuid in
     let task_data :=
       [("task_id", JStr task_id);
        ("task_type",
         JStr (task_type_value (BaseTask.task_type (VoiceSynthesisRequest.base request))));
        ("text", JStr (VoiceSynthesisRequest.text request));
        ("voice_id", py_opt_str (VoiceSynthesisRequest.voice_id request));
        ("voice_settings", JDict (VoiceSynthesisRequest.voice_settings request));
        ("priority", JInt (BaseTask.priority (VoiceSynthesisRequest.base request)));
        ("metadata", JDict (BaseTask.metadata (VoiceSynthesisRequest.base request)))] in
     submit_task (JDict task_data);;
     ret (Http200 (JDict [("task_id", JStr task_id); ("status", JStr "submitted")])))
    (except_Exception (fun e =>
       log_error ("Error submitting voice synthesis task: " +:+ exn_str e);;
       ret (HTTPException 500 (exn_str e)))).

Definition submit_image_analysis_task (request : ImageAnalysisRequest.t)
    (uuid : string) : M (http_result json) :=
  try_except
    (let task_id := uuid in
     let task_data :=
       [("task_id", JStr task_id);
        ("task_type",
         JStr (task_type_value (BaseTask.task_type (ImageAnalysisRequest.base request))));
        ("image_url", JStr (ImageAnalysisRequest.image_url request));
        ("analysis_types", JList (map JStr (ImageAnalysisRequest.analysis_types request)));
        ("priority", JInt (BaseTask.priority (ImageAnalysisRequest.base request)));
        ("metadata", JDict (BaseTask.metadata (ImageAnalysisRequest.base request)))] in
     submit_task (JDict task_data);;
     ret (Http200 (JDict [("task_id", JStr task_id); ("status", JStr "submitted")])))
    (except_Exception (fun e =>
       log_error ("Error submitting image analysis task: " +:+ exn_str e);;
       ret (HTTPException 500 (exn_str e)))).

(** A request to one of the five routes, and the router, which calls
    the route of the path. *)
Inductive task_request : Type :=
| PostStepDetection (request : StepDetectionRequest.t)
| PostOCR (request : OCRRequest.t)
| PostContentGeneration (request : ContentGenerationRequest.t)
| PostVoiceSynthesis (request : VoiceSynthesisRequest.t)
| PostImageAnalysis (request : ImageAnalysisRequest.t).

Definition post_task (request : task_request) (uuid : string) : M (http_result json) :=
  match request with
  | PostStepDetection r => submit_step_detection_task r uuid
  | PostOCR r => submit_ocr_task r uuid
  | PostContentGeneration r => submit_content_generation_task r uuid
  | PostVoiceSynthesis r => submit_voice_synthesis_task r uuid
  | PostImageAnalysis r => submit_image_analysis_task r uuid
  end.

(** The [BaseTask] fields of a request. *)
Definition request_base (request : task_request) : BaseTask.t :=
  match request with
  | PostStepDetection r => StepDetectionRequest.base r
  | PostOCR r => OCRRequest.base r
  | PostContentGeneration r => ContentGenerationRequest.base r
  | PostVoiceSynthesis r => VoiceSynthesisRequest.base r
  | PostImageAnalysis r => ImageAnalysisRequest.base r
  end.

(** ** 15. [redis_service.py]: the cache

    The string values of Redis are kept beside the world: a function of
    the cache is given the strings there are and returns those it
    leaves. The commands of the queues and of the records do not look at
    them. *)

Abbreviation strings := (gmap string string).

(** What redis-py makes of a value it is to send: a [str] goes as it is,
    an [int] as its digits; a [bool], [None], a [list] and a [dict] are
    refused with a [DataError]. *)
Definition redis_encode (value : json) : string + string :=
  match value with
  | JStr s => inl s
  | JInt z => inl (dumps_int z)
  | _ =>
      inr ("Invalid input of type: '" +:+ type_name value +:+
           "'. Convert to a bytes, string, int or float first.")
  end.

(** [SETEX key ttl value]: the key takes the string, whatever it held,
    and lives for [ttl] seconds; Redis refuses a [ttl] of zero or less. *)
Definition SETEX (key : string) (ttl : Z) (value : json) (kv : strings) : M strings :=
  let* sent :=
    redis_command (fun w =>
      match redis_encode value with
      | inr msg => (inr msg, w)
      | inl text =>
          if 0 <? ttl then
            (inl text,
             with_expiry (fun ex => <[key := clock w + ttl]> ex)
               (with_hashes (fun hs => delete key hs)
                  (with_zsets (fun zs => delete key zs) w)))
          else (inr "invalid expire time in 'setex' command", w)
      end) in
  match sent with
  | inl text => ret (<[key := text]> kv)
  | inr msg => raise (Exn OtherException msg)
  end.

(** [GET key]: the string of the key, if it has one that has not run
    out; Redis refuses a key that holds a sorted set or a hash. *)
Definition GET (key : string) (kv : strings) : M (option string) :=
  let* reply :=
    redis_command (fun w =>
      (if expired key w then inl None
       else
         match zset_at key w, default [] (hashes w !! key) with
         | [], [] => inl (kv !! key)
         | _, _ =>
             inr "WRONGTYPE Operation against a key holding the wrong kind of value"
         end, w)) in
  match reply with
  | inl v => ret v
  | inr msg => raise (Exn OtherException msg)
  end.

Definition cache_set (key : string) (value : json) (ttl : Z) (kv : strings)
  : M strings :=
  try_except
    (let value :=
       match value with
       | JDict _ | JList _ => JStr (dumps value)
       | _ => value
       end in
     SETEX key ttl value kv)
    (except_Exception (fun e =>
       log_error ("Failed to set cache: " +:+ exn_str e);;
       ret kv)).

(** [cache_get]: a text that [json.loads] does not read is returned as
    it is. *)
Definition cache_get (key : string) (kv : strings) : M (option json) :=
  try_except
    (let* value := GET key kv in
     match value with
     | Some (String c s) =>
         match loads (String c s) with
         | Some v => ret (Some v)
         | None => ret (Some (JStr (String c s)))
         end
     | _ => ret None
     end)
    (except_Exception (fun e =>
       log_error ("Failed to get cache: " +:+ exn_str e);;
       ret None)).

(** The values [cache_set] stores as the text [json.dumps] writes for
    them: lists and dicts, which it encodes itself, and integers, which
    the client writes the same way. *)
Definition cached_as_json (value : json) : bool :=
  match value with
  | JList _ | JDict _ | JInt _ => true
  | _ => false
  end.

(** ** 16. What the further statements are written with

    Views of the trace and of the queues, the checks of the services
    put as predicates, and sample data. *)

(** The status writes of a trace, each with the key it went to. *)
Definition status_log (evs : list event) : list (string * string) :=
  omap (fun ev =>
          match ev with
          | EvHset k mapping =>
              match hash_get "status" mapping with
              | Some st => Some (k, st)
              | None => None
              end
          | _ => None
          end) evs.





(** What [submit_task] checks of a task before it writes anything. *)
Definition invalid_submission (d : pydict) : Prop :=
  truthy (task_type_of d) = false ∨ truthy (task_id_of d) = false ∨
  task_type_of_value (task_type_of d) = None.

(** The values [-priority] is defined on. *)
Definition negatable (v : json) : bool :=
  match v with
  | JInt _ | JBool _ => true
  | _ => false
  end.

(** The worker [i] of a task type, as [start_workers] creates it. *)
Definition worker_of (task_type : TaskType) (i : nat) : worker_task :=
  {| task_worker_id := task_type_value task_type +:+ "_" +:+ dumps_int (Z.of_nat i);
     task_queue_name := task_type_value task_type;
     task_done := false |}.

(** The workers that serve the queue of a task type. *)
Definition serving (task_type : TaskType) (workers : list worker_task)
  : list worker_task :=
  List.filter (fun t => String.eqb (task_queue_name t) (task_type_value task_type))
    workers.

(** The tasks pending over all the queues. *)
Definition pending_total (w : world) : Z :=
  foldr (fun ty acc => Z.of_nat (zcard (queue_of (task_type_value ty) w)) + acc) 0
    all_task_types.

(** The first character of a string. *)
Definition first_char (s : string) : option ascii :=
  match s with
  | String c _ => Some c
  | "" => None
  end.

(** A task of a batch that [submit_task] accepts once it has its id: a
    known type and an integer priority, if any. *)
Definition acceptable (task_data : pydict) : Prop :=
  (∃ ty, task_type_of_value (task_type_of task_data) = Some ty) ∧
  (∃ p, priority_of task_data = JInt p).

(** The task [i] of a batch as it is submitted, and the member it makes
    in the queue of its type. *)
Definition batch_task (uuid4 : nat → string) (i : nat) (task_data : pydict) : pydict :=
  dict_set "task_id" (JStr (uuid4 i)) task_data.

Definition queued (task_data : pydict) (w : world) : Prop :=
  dumps (JDict task_data) ∈ map fst (queue_of (py_str (task_type_of task_data)) w).

(** The fields [set_task_status] writes. *)
Definition status_fields : list string := ["status"; "updated_at"; "result"].

(** A record that holds no other field. *)
Definition fields_ok (h : hash) : Prop := ∀ f, f ∈ map fst h → f ∈ status_fields.

(** What [dequeue_task] makes of the queue once its [ZPOPMIN] has gone
    through. *)
Definition popped (q : string) (w : world) : outcome (option json) * world :=
  match queue_of q w with
  | [] => (Ok None, w)
  | (m, _) :: z =>
      let w' := with_zsets (fun zs => <[queue_key q := z]> zs) w in
      match loads m with
      | Some v => (Ok (Some v), w')
      | None => (Ok None, emit (EvLogError "Failed to dequeue task: invalid JSON document") w')
      end
  end.

(** The printable characters of ASCII, [' '] to ['~']. *)
Definition printable (c : ascii) : bool :=
  let n := N_of_ascii c in ((32 <=? n) && (n <=? 126))%N.

Fixpoint string_forall (P : ascii → bool) (s : string) : bool :=
  match s with
  | "" => true
  | String c s' => P c && string_forall P s'
  end.

(** Sample data for the runs of Part II. The world after the task
    [t-1] was processed to completion. *)
Definition world_task_completed : world := (ocr_worker quick_ocr world_one_task).2.

(** What the record of [t-1] then holds as its result. *)
Definition completed_outcome : json :=
  JDict [("result", JDict [("text", JStr "StepFlow")]);
         ("processing_time", JInt 7);
         ("worker_id", JStr "ocr_extraction_0")].

(** An OCR run that is cancelled after 2 time units. *)
Definition cancelled_ocr : json → run := raises_after 2 (Exn CancelledError "").

(** A queue whose only entry is the text of a list. *)
Definition world_list_entry : world :=
  (ZADD "queue:ocr_extraction" "[1]" (- 1) initial_world).2.

(** A task whose priority is a word. *)
Definition task_priority_high : pydict :=
  [("task_id", JStr "t-9"); ("task_type", JStr "ocr_extraction");
   ("image_url", JStr "http://example.com/page.png"); ("priority", JStr "high")].

(** The ids drawn for a batch, two tasks of a batch, and a task of no
    known type. *)
Definition sample_uuid4 (i : nat) : string := String "u" (dumps_int (Z.of_nat i)).

Definition batch_ocr : pydict :=
  [("task_id", JStr "mine"); ("task_type", JStr "ocr_extraction");
   ("image_url", JStr "http://example.com/page.png"); ("priority", JInt 5)].

Definition batch_voice : pydict :=
  [("task_type", JStr "voice_synthesis"); ("text", JStr "Press the button")].

Definition batch_translation : pydict :=
  [("task_type", JStr "translation"); ("text", JStr "Press the button")].

(** A request to the OCR route. *)
Definition sample_ocr_request : task_request :=
  PostOCR {| OCRRequest.base :=
               {| BaseTask.task_id := "mine";
                  BaseTask.task_type := OCR_EXTRACTION;
                  BaseTask.priority := 7;
                  BaseTask.metadata := [] |};
             OCRRequest.image_url := "http://example.com/page.png";
             OCRRequest.languages := ["en"];
             OCRRequest.extract_regions := JNull |}.

(** A task of a type that is no [TaskType], put on a queue by
    [enqueue_task]. *)
Definition translation_fields : pydict :=
  [("task_id", JStr "t-3"); ("task_type", JStr "translation")].

Definition world_unknown_type : world :=
  (enqueue_task "ocr_extraction" (JDict translation_fields) (JInt 1) initial_world).2.

(** The connection fails at the next command and is back after it. *)
Definition world_one_fault : world :=
  with_faults [Some "Connection reset by peer"] initial_world.

(* ===================================================================== *)
(** * Part II. Lemmas and theorems                                        *)
(* ===================================================================== *)

(** ** A. Strings and JSON: [loads] undoes [dumps] *)

Lemma append_cons (c : ascii) (a b : string) :
  String c a +:+ b = String c (a +:+ b).
Proof. reflexivity. Qed.

Lemma append_nil_l (b : string) : "" +:+ b = b.
Proof. reflexivity. Qed.

Lemma append_assoc (a b c : string) : (a +:+ b) +:+ c = a +:+ (b +:+ c).
Proof.
  induction a as [|x a IH]; [reflexivity |].
  rewrite !append_cons. now rewrite IH.
Qed.

Lemma append_nil_r (a : string) : a +:+ "" = a.
Proof.
  induction a as [|x a IH]; [reflexivity |].
  rewrite append_cons. now rewrite IH.
Qed.

Lemma append_length (a b : string) :
  String.length (a +:+ b) = (String.length a + String.length b)%nat.
Proof.
  induction a as [|x a IH]; [reflexivity |].
  rewrite append_cons. simpl. now rewrite IH.
Qed.

Ltac norm_app :=
  repeat first
    [rewrite append_assoc | rewrite append_cons | rewrite append_nil_l].

Lemma dumps_list_cons (x : json) (l : list json) :
  dumps (JList (x :: l)) = String "[" (dumps x +:+ dumps_more l).
Proof. reflexivity. Qed.

Lemma dumps_dict_cons (k : string) (x : json) (d : pydict) :
  dumps (JDict ((k, x) :: d)) =
  String "{" (dumps_str k +:+ ": " +:+ dumps x +:+ dumps_more_members d).
Proof. reflexivity. Qed.

(** *** String literals *)

Lemma scanstring_escape_char (c : ascii) (r : string) :
  scanstring (escape_char c +:+ r) = prepend c (scanstring r).
Proof.
  destruct c as [[] [] [] [] [] [] [] []]; reflexivity.
Qed.

Lemma scanstring_escape_string (s rest : string) :
  scanstring (escape_string s +:+ String "034" rest) = Some (s, rest).
Proof.
  induction s as [|c s IH]; simpl.
  - reflexivity.
  - rewrite append_assoc, scanstring_escape_char, IH. reflexivity.
Qed.

(** *** Integers *)

Lemma string_of_uint_digits (u : Decimal.uint) (rest : string) :
  number_end rest = true →
  span_digits (NilEmpty.string_of_uint u +:+ rest) =
  (NilEmpty.string_of_uint u, rest).
Proof.
  intros Hrest.
  induction u; simpl; rewrite ?append_cons; simpl; rewrite ?IHu; try reflexivity.
  rewrite append_nil_l. destruct rest as [|c r]; [reflexivity |].
  simpl in *. destruct (is_digit c); [discriminate | reflexivity].
Qed.

Lemma to_uint_unorm (p : positive) :
  Decimal.unorm (Pos.to_uint p) = Pos.to_uint p.
Proof.
  pose proof (DecimalPos.Unsigned.to_of (Pos.to_uint p)) as H.
  rewrite DecimalPos.Unsigned.of_to in H. simpl in H. congruence.
Qed.

Lemma to_uint_no_leading_zero (p : positive) (u : Decimal.uint) :
  Pos.to_uint p ≠ Decimal.D0 u.
Proof.
  intros H. pose proof (to_uint_unorm p) as Hn. rewrite H in Hn.
  unfold Decimal.unorm in Hn.
  destruct (Decimal.nzhead (Decimal.D0 u)) eqn:E;
    try (injection Hn as ->; exact (nzhead_nonzero _ _ E));
    try discriminate.
  injection Hn as <-. exact (Unsigned.to_uint_nonzero p H).
Qed.

Lemma of_uint_to_uint (p : positive) : Z.of_uint (Pos.to_uint p) = Z.pos p.
Proof. unfold Z.of_uint. now rewrite DecimalPos.Unsigned.of_to. Qed.

Lemma scan_unsigned_pos (p : positive) (rest : string) :
  number_end rest = true →
  scan_unsigned (NilZero.string_of_uint (Pos.to_uint p) +:+ rest) =
  Some (Z.pos p, rest).
Proof.
  intros Hrest. unfold scan_unsigned.
  assert (Hs : NilZero.string_of_uint (Pos.to_uint p) =
               NilEmpty.string_of_uint (Pos.to_uint p)).
  { destruct (Pos.to_uint p) eqn:E; try reflexivity.
    destruct (Unsigned.to_uint_nonnil p E). }
  pose proof (NilZero.usu _ (Unsigned.to_uint_nonnil p)) as Hu.
  rewrite Hs in *. rewrite string_of_uint_digits by assumption.
  rewrite Hu, of_uint_to_uint.
  assert (Hf : starts_float rest = false).
  { destruct rest as [|c r]; [reflexivity |]. simpl in Hrest.
    apply andb_prop in Hrest as [_ H]. now apply negb_true_iff in H. }
  rewrite Hf.
  destruct (Pos.to_uint p) eqn:E; try reflexivity.
  - destruct (Unsigned.to_uint_nonnil p E).
  - destruct (to_uint_no_leading_zero p _ E).
Qed.


Lemma scan_number_digit_start (s : string) :
  digit_start s →
  scan_number s =
  match scan_unsigned s with
  | Some (z, rest) => Some (JInt z, rest)
  | None => None
  end.
Proof.
  destruct s as [|c s]; [intros [] |].
  destruct c as [[] [] [] [] [] [] [] []]; intros H;
    try discriminate H; reflexivity.
Qed.

Lemma string_of_uint_digit_start (p : positive) (rest : string) :
  digit_start (NilZero.string_of_uint (Pos.to_uint p) +:+ rest).
Proof.
  destruct (Pos.to_uint p); reflexivity.
Qed.

Lemma scan_number_dumps_int (z : Z) (rest : string) :
  number_end rest = true →
  scan_number (dumps_int z +:+ rest) = Some (JInt z, rest).
Proof.
  intros Hrest. destruct z as [|p|p]; unfold dumps_int; simpl Z.to_int.
  - assert (Hf : starts_float rest = false).
    { destruct rest as [|c r]; [reflexivity |]. simpl in Hrest.
      apply andb_prop in Hrest as [_ H]. now apply negb_true_iff in H. }
    destruct rest as [|c r]; [reflexivity |].
    simpl in Hrest. apply andb_prop in Hrest as [Hd _].
    apply negb_true_iff in Hd.
    change (scan_number (String "0" (String c r)) = Some (JInt 0, String c r)).
    unfold scan_number, scan_unsigned. simpl span_digits. rewrite Hd.
    rewrite Hf. reflexivity.
  - simpl NilZero.string_of_int.
    rewrite scan_number_digit_start by apply string_of_uint_digit_start.
    now rewrite scan_unsigned_pos.
  - simpl NilZero.string_of_int. rewrite append_cons.
    unfold scan_number. now rewrite scan_unsigned_pos.
Qed.

(** *** What a value starts with *)

Lemma dumps_start (v : json) (r : string) :
  ∃ c s, dumps v +:+ r = String c s ∧ value_start c = true.
Proof.
  destruct v as [| [] | z | s | [|x l] | [|[k x] d]];
    try (eexists _, _; split; [reflexivity | reflexivity]).
  destruct z as [|p|p]; try (eexists _, _; split; [reflexivity | reflexivity]).
  pose proof (string_of_uint_digit_start p r) as H.
  unfold dumps, dumps_int. simpl Z.to_int. simpl NilZero.string_of_int.
  destruct (NilZero.string_of_uint (Pos.to_uint p) +:+ r) as [|c s]; [destruct H |].
  exists c, s. split; [reflexivity |].
  simpl in H. destruct c as [[] [] [] [] [] [] [] []]; try discriminate H; reflexivity.
Qed.

Lemma skip_ws_value (S : string) (c : ascii) (s : string) :
  S = String c s → value_start c = true → skip_ws S = S.
Proof.
  intros -> H.
  destruct c as [[] [] [] [] [] [] [] []]; try discriminate H; reflexivity.
Qed.

Lemma skip_ws_dumps (v : json) (r : string) :
  skip_ws (dumps v +:+ r) = dumps v +:+ r.
Proof.
  destruct (dumps_start v r) as (c & s & E & H). eapply skip_ws_value; eauto.
Qed.

Lemma scan_once_array (f : nat) (S : string) (c : ascii) (s : string) :
  S = String c s → value_start c = true →
  scan_once (Datatypes.S f) (String "[" S) = parse_elems f S [].
Proof.
  intros -> H.
  destruct c as [[] [] [] [] [] [] [] []]; try discriminate H; reflexivity.
Qed.

Lemma scan_once_number (f : nat) (S : string) :
  (digit_start S ∨ ∃ s, S = String "-" s) →
  scan_once (Datatypes.S f) S = scan_number S.
Proof.
  intros [H | [s ->]]; [| reflexivity].
  destruct S as [|c s]; [destruct H |].
  destruct c as [[] [] [] [] [] [] [] []]; try discriminate H; reflexivity.
Qed.

Lemma number_end_dumps_more (l : list json) (rest : string) :
  number_end (dumps_more l +:+ rest) = true.
Proof. destruct l; reflexivity. Qed.

Lemma number_end_dumps_more_members (d : pydict) (rest : string) :
  number_end (dumps_more_members d +:+ rest) = true.
Proof. destruct d as [|[k x] d]; reflexivity. Qed.

(** *** Induction on values, and their size *)

Lemma json_ind (P : json → Prop) :
  P JNull → (∀ b, P (JBool b)) → (∀ z, P (JInt z)) → (∀ s, P (JStr s)) →
  (∀ l, Forall P l → P (JList l)) →
  (∀ d, Forall (fun kv => P kv.2) d → P (JDict d)) →
  ∀ v, P v.
Proof.
  intros Hnull Hbool Hint Hstr Hlist Hdict.
  fix IH 1. intros [| b | z | s | l | d].
  - exact Hnull.
  - apply Hbool.
  - apply Hint.
  - apply Hstr.
  - apply Hlist. induction l as [|x l IHl]; constructor; [apply IH | exact IHl].
  - apply Hdict. induction d as [|[k x] d IHd]; constructor; [apply IH | exact IHd].
Qed.

Lemma json_size_list (l : list json) : json_size (JList l) = S (elems_size l).
Proof. reflexivity. Qed.

Lemma json_size_dict (d : pydict) : json_size (JDict d) = S (members_size d).
Proof. reflexivity. Qed.

(** *** Lists and dicts *)

Lemma parse_elems_dumps (l : list json) :
  ∀ x f acc rest,
    (elems_size (x :: l) ≤ f)%nat →
    scan_ok_for x → Forall scan_ok_for l →
    json_wf x = true → forallb json_wf l = true →
    parse_elems f (dumps x +:+ dumps_more l +:+ rest) acc =
    Some (JList (acc ++ x :: l), rest).
Proof.
  induction l as [|y l IH]; intros x f acc rest Hf Hx Hl Wx Wl;
    (destruct f as [|f]; [simpl in Hf; lia |]); simpl in Hf.
  - change (parse_elems (S f) (dumps x +:+ dumps_more [] +:+ rest) acc)
      with (match scan_once f (dumps x +:+ String "]" rest) with
            | Some (v, s1) =>
                match skip_ws s1 with
                | String "]" rest => Some (JList (acc ++ [v]), rest)
                | String "," s2 => parse_elems f (skip_ws s2) (acc ++ [v])
                | _ => None
                end
            | None => None
            end).
    rewrite (Hx Wx) by (try reflexivity; lia). reflexivity.
  - change (parse_elems (S f) (dumps x +:+ dumps_more (y :: l) +:+ rest) acc)
      with (match scan_once f (dumps x +:+ String "," (String " " ((dumps y +:+ dumps_more l) +:+ rest))) with
            | Some (v, s1) =>
                match skip_ws s1 with
                | String "]" rest => Some (JList (acc ++ [v]), rest)
                | String "," s2 => parse_elems f (skip_ws s2) (acc ++ [v])
                | _ => None
                end
            | None => None
            end).
    rewrite (Hx Wx) by (try reflexivity; lia).
    change (parse_elems f (skip_ws ((dumps y +:+ dumps_more l) +:+ rest)) (acc ++ [x])%list =
            Some (JList (acc ++ x :: y :: l), rest)).
    rewrite append_assoc, skip_ws_dumps.
    simpl in Wl. apply andb_prop in Wl as [Wy Wl].
    inversion Hl as [|? ? Hy Hl']; subst.
    rewrite (IH y f (acc ++ [x])%list rest); try assumption; [| simpl; lia].
    now rewrite <- app_assoc.
Qed.

Lemma keys_distinct_NoDup (ks : list string) :
  keys_distinct ks = true ↔ NoDup ks.
Proof.
  induction ks as [|k ks IH]; simpl.
  - split; [constructor | reflexivity].
  - rewrite andb_true_iff, negb_true_iff, IH, NoDup_cons.
    assert (existsb (String.eqb k) ks = false ↔ k ∉ ks) as ->; [| reflexivity].
    rewrite <- not_true_iff_false, existsb_exists. split.
    + intros H Hin. apply H. exists k. split.
      * now apply list_elem_of_In.
      * apply String.eqb_refl.
    + intros H (k' & Hin & E). apply String.eqb_eq in E as <-.
      apply H. now apply list_elem_of_In.
Qed.

Lemma dict_set_fresh (k : string) (v : json) (acc : pydict) :
  k ∉ map fst acc → dict_set k v acc = (acc ++ [(k, v)])%list.
Proof.
  induction acc as [|[k' v'] acc IH]; simpl; intros H; [reflexivity |].
  rewrite not_elem_of_cons in H. destruct H as [Hne H].
  destruct (String.eqb_spec k k') as [->|_]; [contradiction |].
  now rewrite IH.
Qed.

Lemma parse_members_S (f : nat) (s : string) (acc : pydict) :
  parse_members (S f) s acc =
  match scanstring s with
  | Some (k, s1) =>
      match skip_ws s1 with
      | String ":" s2 =>
          match scan_once f (skip_ws s2) with
          | Some (v, s3) =>
              match skip_ws s3 with
              | String "}" rest => Some (JDict (dict_set k v acc), rest)
              | String "," s4 =>
                  match skip_ws s4 with
                  | String "034" s5 => parse_members f s5 (dict_set k v acc)
                  | _ => None
                  end
              | _ => None
              end
          | None => None
          end
      | _ => None
      end
  | None => None
  end.
Proof. reflexivity. Qed.

Lemma parse_members_dumps (d : pydict) :
  ∀ k x f acc rest,
    (members_size ((k, x) :: d) ≤ f)%nat →
    scan_ok_for x → Forall (fun kv => scan_ok_for kv.2) d →
    json_wf x = true → forallb (fun kv => json_wf kv.2) d = true →
    NoDup (map fst (acc ++ (k, x) :: d)) →
    parse_members f
      (escape_string k +:+
       String "034" (String ":" (String " "
         (dumps x +:+ dumps_more_members d +:+ rest)))) acc =
    Some (JDict (acc ++ (k, x) :: d), rest).
Proof.
  induction d as [|[k' y] d IH]; intros k x f acc rest Hf Hx Hd Wx Wd Hnd;
    (destruct f as [|f]; [simpl in Hf; lia |]); simpl in Hf;
    rewrite parse_members_S, scanstring_escape_string;
    cbn [skip_ws is_ws];
    rewrite skip_ws_dumps;
    assert (Hk : k ∉ map fst acc)
      by (rewrite map_app, NoDup_app in Hnd; destruct Hnd as (_ & H & _);
          intros Hin; apply (H _ Hin); simpl; left).
  - rewrite (Hx Wx) by (try reflexivity; lia).
    cbn. now rewrite dict_set_fresh.
  - rewrite (Hx Wx) by (try reflexivity; lia).
    change (dumps_more_members ((k', y) :: d) +:+ rest)
      with (String "," (String " " (String "034"
              ((escape_string k' +:+ String "034" "") +:+ ": " +:+ dumps y +:+
                 dumps_more_members d) +:+ rest))).
    cbn [skip_ws is_ws]. norm_app.
    simpl in Wd. apply andb_prop in Wd as [Wy Wd].
    inversion Hd as [|? ? Hy Hd']; subst.
    rewrite dict_set_fresh by assumption. cbn [skip_ws is_ws].
    rewrite (IH k' y f (acc ++ [(k, x)])%list rest); try assumption.
    + now rewrite <- app_assoc.
    + simpl; lia.
    + now rewrite <- app_assoc.
Qed.

Lemma json_wf_dict (d : pydict) :
  json_wf (JDict d) =
  keys_distinct (map fst d) && forallb (fun kv => json_wf kv.2) d.
Proof. reflexivity. Qed.

Lemma scan_once_dumps (v : json) : scan_ok_for v.
Proof.
  induction v as [| b | z | s | l IHl | d IHd] using json_ind;
    intros W n rest Hn Hrest;
    (destruct n as [|f]; [simpl in Hn; lia |]).
  - reflexivity.
  - destruct b; reflexivity.
  - cbn [dumps]. rewrite scan_once_number.
    + now apply scan_number_dumps_int.
    + destruct z as [|p|p]; unfold dumps_int; simpl Z.to_int;
        simpl NilZero.string_of_int.
      * left. reflexivity.
      * left. apply string_of_uint_digit_start.
      * right. eexists. reflexivity.
  - cbn [dumps]. unfold dumps_str. norm_app.
    cbn [scan_once]. now rewrite scanstring_escape_string.
  - destruct l as [|x l]; [reflexivity |].
    rewrite dumps_list_cons, json_size_list in *. norm_app.
    destruct (dumps_start x (dumps_more l +:+ rest)) as (c & s & E & Hc).
    rewrite (scan_once_array f _ c s E Hc).
    simpl in W. apply andb_prop in W as [Wx Wl].
    inversion IHl as [|? ? Hx Hl]; subst.
    rewrite (parse_elems_dumps l x f [] rest); auto. lia.
  - destruct d as [|[k x] d]; [reflexivity |].
    rewrite dumps_dict_cons, json_size_dict in *. unfold dumps_str. norm_app.
    cbn [scan_once skip_ws is_ws].
    rewrite json_wf_dict in W. apply andb_prop in W as [Wk W].
    simpl in W. apply andb_prop in W as [Wx Wd].
    inversion IHd as [|? ? Hx Hd]; subst.
    rewrite (parse_members_dumps d k x f [] rest); auto.
    + lia.
    + now apply keys_distinct_NoDup.
Qed.

Lemma json_size_le_length (v : json) :
  (json_size v ≤ String.length (dumps v))%nat.
Proof.
  induction v as [| b | z | s | l IHl | d IHd] using json_ind.
  - simpl. lia.
  - destruct b; simpl; lia.
  - destruct (dumps_start (JInt z) "") as (c & s & E & _).
    rewrite append_nil_r in E. rewrite E. simpl. lia.
  - simpl. lia.
  - destruct l as [|x l]; [simpl; lia |].
    rewrite dumps_list_cons, json_size_list. inversion IHl as [|? ? Hx Hl]; subst.
    cbn [String.length]. rewrite append_length.
    enough (elems_size l + 1 ≤ String.length (dumps_more l))%nat by (simpl; lia).
    clear Hx IHl. induction l as [|y l IH]; [simpl; lia |].
    inversion Hl as [|? ? Hy Hl']; subst. specialize (IH Hl').
    cbn [dumps_more elems_size]. norm_app. cbn [String.length].
    rewrite append_length. lia.
  - destruct d as [|[k x] d]; [simpl; lia |].
    rewrite dumps_dict_cons, json_size_dict. inversion IHd as [|? ? Hx Hd]; subst.
    cbn [String.length]. rewrite !append_length.
    enough (members_size d + 1 ≤ String.length (dumps_more_members d))%nat
      by (simpl in *; lia).
    clear Hx IHd. induction d as [|[k' y] d IH]; [simpl; lia |].
    inversion Hd as [|? ? Hy Hd']; subst. specialize (IH Hd').
    cbn [dumps_more_members members_size]. norm_app. cbn [String.length].
    rewrite !append_length. cbn [String.length snd] in *.
    rewrite append_length. lia.
Qed.

(** [json.loads(json.dumps(v)) == v]. *)
Lemma loads_dumps (v : json) : json_wf v = true → loads (dumps v) = Some v.
Proof.
  intros W. unfold loads.
  pose proof (skip_ws_dumps v "") as Hs. rewrite append_nil_r in Hs. rewrite Hs.
  pose proof (scan_once_dumps v W (S (String.length (dumps v))) "") as H.
  rewrite append_nil_r in H. rewrite H; [reflexivity | | reflexivity].
  pose proof (json_size_le_length v). lia.
Qed.

Lemma dumps_inj (a b : json) :
  json_wf a = true → json_wf b = true → dumps a = dumps b → a = b.
Proof.
  intros Wa Wb E. apply loads_dumps in Wa, Wb. rewrite E in Wa. congruence.
Qed.

(** ** B. Sorted sets *)

Lemma string_lt_irrefl (s : string) : String.ltb s s = false.
Proof.
  unfold String.ltb.
  assert ((s ?= s)%string = Eq) as ->; [| reflexivity].
  induction s as [|c s IH]; simpl; [reflexivity |].
  unfold Ascii.compare. now rewrite N.compare_refl.
Qed.

Lemma string_compare_lt_trans (s1 s2 s3 : string) :
  (s1 ?= s2)%string = Lt → (s2 ?= s3)%string = Lt → (s1 ?= s3)%string = Lt.
Proof.
  revert s2 s3.
  induction s1 as [|a1 s1 IH]; intros [|a2 s2] [|a3 s3]; simpl;
    try discriminate; try reflexivity.
  destruct (Ascii.compare a1 a2) eqn:H12; try discriminate.
  - apply Ascii.compare_eq_iff in H12 as ->.
    destruct (Ascii.compare a2 a3); try discriminate; eauto.
  - intros _. destruct (Ascii.compare a2 a3) eqn:H23; try discriminate.
    + apply Ascii.compare_eq_iff in H23 as <-. now rewrite H12.
    + intros _.
      assert (Ascii.compare a1 a3 = Lt) as ->; [| reflexivity].
      unfold Ascii.compare in *. apply N.compare_lt_iff.
      apply N.compare_lt_iff in H12. apply N.compare_lt_iff in H23.
      eapply N.lt_trans; eassumption.
Qed.

Lemma string_lt_trans (s1 s2 s3 : string) :
  String.ltb s1 s2 = true → String.ltb s2 s3 = true → String.ltb s1 s3 = true.
Proof.
  unfold String.ltb. intros H12 H23.
  destruct (s1 ?= s2)%string eqn:E12; try discriminate.
  destruct (s2 ?= s3)%string eqn:E23; try discriminate.
  now rewrite (string_compare_lt_trans _ _ _ E12 E23).
Qed.

Lemma string_lt_total (s1 s2 : string) :
  s1 ≠ s2 → String.ltb s1 s2 = true ∨ String.ltb s2 s1 = true.
Proof.
  intros Hne. unfold String.ltb. rewrite (String.compare_antisym s2 s1).
  destruct (s1 ?= s2)%string eqn:E; simpl; auto.
  apply String.compare_eq_iff in E. contradiction.
Qed.

Lemma rank_lt_irrefl (a : entry) : rank_ltb a a = false.
Proof.
  unfold rank_ltb. rewrite Z.ltb_irrefl, string_lt_irrefl.
  now rewrite andb_false_r.
Qed.

Lemma rank_lt_trans (a b c : entry) :
  rank_ltb a b = true → rank_ltb b c = true → rank_ltb a c = true.
Proof.
  unfold rank_ltb. rewrite !orb_true_iff, !andb_true_iff, !Z.ltb_lt, !Z.eqb_eq.
  intros [H1 | [E1 L1]] [H2 | [E2 L2]]; try (left; lia).
  right. split; [lia |]. eapply string_lt_trans; eauto.
Qed.

Lemma rank_lt_total (a b : entry) :
  a.1 ≠ b.1 → rank_ltb a b = true ∨ rank_ltb b a = true.
Proof.
  intros Hne. unfold rank_ltb.
  rewrite !orb_true_iff, !andb_true_iff, !Z.ltb_lt, !Z.eqb_eq.
  destruct (Z.lt_trichotomy a.2 b.2) as [H | [H | H]]; auto.
  destruct (string_lt_total _ _ Hne); auto.
Qed.

Lemma rank_lt_asym (a b : entry) :
  rank_ltb a b = true → rank_ltb b a = false.
Proof.
  intros H. destruct (rank_ltb b a) eqn:E; [| reflexivity].
  pose proof (rank_lt_trans _ _ _ H E) as C. now rewrite rank_lt_irrefl in C.
Qed.

Lemma ranked_cons (a : entry) (z : zset) :
  ranked (a :: z) = true ↔ ranked z = true ∧ Forall (fun b => rank_ltb a b = true) z.
Proof.
  revert a. induction z as [|b z IH]; intros a.
  - simpl. split; [intros _; split; [reflexivity | constructor] | reflexivity].
  - change (ranked (a :: b :: z)) with (rank_ltb a b && ranked (b :: z)).
    rewrite andb_true_iff. split.
    + intros [Hab Hr]. split; [assumption |]. constructor; [assumption |].
      apply IH in Hr as [_ Hall]. eapply Forall_impl; [exact Hall |].
      intros c Hbc. simpl in Hbc. eapply rank_lt_trans; eauto.
    + intros [Hr Hall]. inversion Hall; subst. split; assumption.
Qed.

Lemma zrem_subset (m : string) (z : zset) (e : entry) :
  e ∈ zrem m z ↔ e ∈ z ∧ e.1 ≠ m.
Proof.
  unfold zrem. rewrite !list_elem_of_In, filter_In, negb_true_iff.
  now rewrite String.eqb_neq.
Qed.

Lemma zrem_ranked (m : string) (z : zset) :
  ranked z = true → ranked (zrem m z) = true.
Proof.
  induction z as [|a z IH]; [reflexivity |].
  rewrite ranked_cons. intros [Hr Hall]. specialize (IH Hr).
  unfold zrem in *. simpl. destruct (negb (a.1 =? m)%string); [| assumption].
  apply ranked_cons. split; [assumption |].
  apply List.Forall_forall. intros b Hb. apply filter_In in Hb as [Hb _].
  rewrite List.Forall_forall in Hall. auto.
Qed.

Lemma zrem_members (m : string) (z : zset) :
  map fst (zrem m z) = List.filter (fun k => negb (String.eqb k m)) (map fst z).
Proof.
  induction z as [|a z IH]; [reflexivity |].
  unfold zrem in *. simpl. destruct (negb (a.1 =? m)%string); simpl; now rewrite IH.
Qed.

Lemma zrem_not_member (m : string) (z : zset) : m ∉ map fst (zrem m z).
Proof.
  rewrite zrem_members, list_elem_of_In, filter_In, negb_true_iff.
  intros [_ H]. now rewrite String.eqb_refl in H.
Qed.

Lemma zrem_NoDup (m : string) (z : zset) :
  NoDup (map fst z) → NoDup (map fst (zrem m z)).
Proof.
  rewrite zrem_members. intros H.
  apply NoDup_ListNoDup. apply List.NoDup_filter. now apply NoDup_ListNoDup.
Qed.

Lemma zinsert_perm (e : entry) (z : zset) : zinsert e z ≡ₚ e :: z.
Proof.
  induction z as [|a z IH]; simpl; [reflexivity |].
  destruct (rank_ltb e a); [reflexivity |].
  rewrite IH. apply Permutation_swap.
Qed.

Lemma zinsert_ranked (e : entry) (z : zset) :
  ranked z = true → e.1 ∉ map fst z → ranked (zinsert e z) = true.
Proof.
  induction z as [|a z IH]; [reflexivity |].
  intros Hr Hnot. simpl. destruct (rank_ltb e a) eqn:E.
  - change (rank_ltb e a && ranked (a :: z) = true). now rewrite E.
  - apply ranked_cons in Hr as [Hr Hall].
    simpl in Hnot. rewrite not_elem_of_cons in Hnot. destruct Hnot as [Hne Hnot].
    apply ranked_cons. split; [auto |].
    assert (Hae : rank_ltb a e = true).
    { destruct (rank_lt_total e a Hne) as [H | H]; [congruence | assumption]. }
    rewrite List.Forall_forall in *. intros b Hb.
    apply list_elem_of_In in Hb. rewrite zinsert_perm in Hb.
    apply elem_of_cons in Hb as [-> | Hb]; [assumption |].
    apply Hall. now apply list_elem_of_In.
Qed.

Lemma zadd_wf (m : string) (score : Z) (z : zset) :
  zset_wf z = true → zset_wf (zadd m score z) = true.
Proof.
  unfold zset_wf, zadd. rewrite !andb_true_iff, !keys_distinct_NoDup.
  intros [Hr Hd]. split.
  - apply zinsert_ranked; [now apply zrem_ranked | apply zrem_not_member].
  - rewrite (fmap_Permutation fst _ _ (zinsert_perm _ _)). simpl.
    apply NoDup_cons. split; [apply zrem_not_member | now apply zrem_NoDup].
Qed.

Lemma zpopmin_wf (z : zset) :
  zset_wf z = true → zset_wf (zpopmin z).2 = true.
Proof.
  destruct z as [|a z]; [reflexivity |]. simpl.
  unfold zset_wf. rewrite !andb_true_iff, !keys_distinct_NoDup.
  intros [Hr Hd]. split.
  - now apply ranked_cons in Hr as [Hr _].
  - simpl in Hd. now apply NoDup_cons in Hd as [_ Hd].
Qed.

Lemma zrem_length (m : string) (z : zset) :
  NoDup (map fst z) →
  length (zrem m z) =
  if existsb (String.eqb m) (map fst z) then Nat.pred (length z) else length z.
Proof.
  induction z as [|a z IH]; [reflexivity |].
  simpl. rewrite NoDup_cons. intros [Ha Hd]. specialize (IH Hd).
  unfold zrem in *. simpl. rewrite (String.eqb_sym m a.1).
  destruct (String.eqb_spec a.1 m) as [E | E]; simpl.
  - rewrite IH. subst m.
    assert (existsb (String.eqb a.1) (map fst z) = false) as ->; [| reflexivity].
    apply not_true_iff_false. rewrite existsb_exists.
    intros (k & Hin & Hk). apply String.eqb_eq in Hk as <-.
    apply Ha. now apply list_elem_of_In.
  - rewrite IH. destruct (existsb (String.eqb m) (map fst z)) eqn:Ex; [| reflexivity].
    destruct z; [discriminate | reflexivity].
Qed.

Lemma zinsert_length (e : entry) (z : zset) : length (zinsert e z) = S (length z).
Proof. now rewrite (Permutation_length (zinsert_perm e z)). Qed.

(** [ZCARD] after [ZADD]: one more entry, unless the member was there. *)
Lemma zadd_card (m : string) (score : Z) (z : zset) :
  zset_wf z = true →
  zcard (zadd m score z) =
  if existsb (String.eqb m) (map fst z) then zcard z else S (zcard z).
Proof.
  unfold zset_wf, zcard, zadd. rewrite andb_true_iff, keys_distinct_NoDup.
  intros [_ Hd]. rewrite zinsert_length, zrem_length by assumption.
  destruct (existsb (String.eqb m) (map fst z)) eqn:Ex; [| reflexivity].
  destruct z; [discriminate | reflexivity].
Qed.

Lemma zadd_elem (m : string) (score : Z) (z : zset) (e : entry) :
  e ∈ zadd m score z ↔ e = (m, score) ∨ (e ∈ z ∧ e.1 ≠ m).
Proof.
  unfold zadd. rewrite zinsert_perm, elem_of_cons, zrem_subset. reflexivity.
Qed.

Lemma ranked_lookup (z : zset) (i j : nat) (a b : entry) :
  ranked z = true → (i < j)%nat → z !! i = Some a → z !! j = Some b →
  rank_ltb a b = true.
Proof.
  revert i j. induction z as [|c z IH]; intros i j Hr Hij Hi Hj.
  - discriminate.
  - apply ranked_cons in Hr as [Hr Hall].
    destruct j as [|j]; [lia |]. simpl in Hj.
    destruct i as [|i]; simpl in Hi.
    + injection Hi as ->. rewrite List.Forall_forall in Hall. apply Hall.
      apply list_elem_of_In. eapply list_elem_of_lookup_2; eauto.
    + eapply (IH i j); eauto. lia.
Qed.

Lemma ranked_precedes (z : zset) (a b : entry) :
  ranked z = true → a ∈ z → b ∈ z → rank_ltb a b = true → precedes a b z.
Proof.
  intros Hr Ha Hb Hab.
  apply list_elem_of_lookup in Ha as [i Hi]. apply list_elem_of_lookup in Hb as [j Hj].
  destruct (lt_eq_lt_dec i j) as [[Hlt | ->] | Hgt].
  - exists i, j. auto.
  - assert (a = b) as -> by congruence. now rewrite rank_lt_irrefl in Hab.
  - pose proof (ranked_lookup z j i b a Hr Hgt Hj Hi) as Hba.
    apply rank_lt_asym in Hba. congruence.
Qed.

Lemma NoDup_members_lookup (z : zset) (i : nat) (a b : entry) :
  NoDup (map fst z) → z !! i = Some a → b ∈ z → a.1 = b.1 → a = b.
Proof.
  intros Hd Hi Hb E. apply list_elem_of_lookup in Hb as [j Hj].
  assert (i = j) as ->; [| congruence].
  eapply NoDup_lookup; [exact Hd | |]; rewrite list_lookup_fmap.
  - rewrite Hi. reflexivity.
  - rewrite Hj. simpl. now rewrite E.
Qed.

(** ** C. The store commands on a healthy connection *)

Lemma canonical_dumps (d : json) : json_wf d = true → canonical (dumps d) = true.
Proof.
  intros W. unfold canonical. rewrite loads_dumps by assumption.
  apply String.eqb_refl.
Qed.

Lemma canonical_loads (m : string) :
  canonical m = true → ∃ d, loads m = Some d ∧ dumps d = m.
Proof.
  unfold canonical. destruct (loads m) as [d|]; [| discriminate].
  intros E. apply String.eqb_eq in E. eauto.
Qed.

Lemma zset_at_insert (key : string) (z : zset) (w : world) :
  zset_at key (with_zsets (fun zs => <[key := z]> zs) w) = z.
Proof. unfold zset_at. simpl. now rewrite lookup_insert_eq. Qed.

Lemma zset_at_insert_ne (key key' : string) (z : zset) (w : world) :
  key ≠ key' →
  zset_at key' (with_zsets (fun zs => <[key := z]> zs) w) = zset_at key' w.
Proof. intros H. unfold zset_at. simpl. now rewrite lookup_insert_ne. Qed.

Lemma enqueue_task_ok (w : world) (q : string) (d : json) (p : Z) :
  faults w = [] →
  enqueue_task q d (JInt p) w =
  (Ok true,
   with_zsets (fun zs => <[queue_key q := zadd (dumps d) (- p) (queue_of q w)]> zs) w).
Proof.
  intros Hf.
  unfold enqueue_task, try_except, bind, py_neg, ZADD, redis_command, ret.
  now rewrite Hf.
Qed.

Lemma dequeue_task_empty (w : world) (q : string) :
  faults w = [] → queue_of q w = [] → dequeue_task q w = (Ok None, w).
Proof.
  intros Hf Hz.
  unfold dequeue_task, try_except, bind, ZPOPMIN, redis_command, ret.
  unfold queue_of, queue_key in Hz. now rewrite Hf, Hz.
Qed.

Lemma dequeue_task_head (w : world) (q : string) (m : string) (s : Z) (z : zset) (d : json) :
  faults w = [] → queue_of q w = (m, s) :: z → loads m = Some d →
  dequeue_task q w =
  (Ok (Some d), with_zsets (fun zs => <[queue_key q := z]> zs) w).
Proof.
  intros Hf Hz Hl.
  unfold dequeue_task, try_except, bind, ZPOPMIN, redis_command, ret, json_loads.
  unfold queue_of, queue_key in Hz. rewrite Hf, Hz. simpl. now rewrite Hl.
Qed.

Lemma after_command_healthy (w : world) : faults w = [] → after_command w = w.
Proof. intros H. destruct w. simpl in H. subst. reflexivity. Qed.

Lemma dequeue_task_head_any (w : world) (q : string) (m : string) (s : Z) (z : zset)
    (d : json) :
  healthy w = true → queue_of q w = (m, s) :: z → loads m = Some d →
  dequeue_task q w =
  (Ok (Some d), with_zsets (fun zs => <[queue_key q := z]> zs) (after_command w)).
Proof.
  intros Hh Hz Hl.
  unfold dequeue_task, try_except, bind, ZPOPMIN, redis_command, ret, json_loads.
  unfold queue_of, queue_key in Hz. unfold healthy in Hh.
  destruct (faults w) as [|[msg|] fs] eqn:Hf; [| discriminate |].
  - rewrite Hz. simpl. rewrite Hl. now rewrite (after_command_healthy w Hf).
  - unfold zset_at in *. simpl. rewrite Hz. simpl. rewrite Hl.
    unfold after_command. now rewrite Hf.
Qed.

Lemma get_queue_size_ok (w : world) (q : string) :
  faults w = [] → get_queue_size q w = (Ok (zcard (queue_of q w)), w).
Proof.
  intros Hf. unfold get_queue_size, try_except, ZCARD, redis_command.
  now rewrite Hf.
Qed.

(** ** D. Dequeue order: clients of the queue *)

Lemma canonical_payload (e : entry) :
  canonical e.1 = true → loads e.1 = Some (payload_of e) ∧ dumps (payload_of e) = e.1.
Proof.
  intros H. apply canonical_loads in H as (d & Hl & Hd).
  unfold payload_of. rewrite Hl. auto.
Qed.



Lemma dequeue_all_spec (q : string) (n : nat) :
  ∀ w, faults w = [] →
    forallb (fun e => canonical e.1) (queue_of q w) = true →
    ∃ w', dequeue_all n q w =
          (Ok (map (fun e => Some (payload_of e)) (take n (queue_of q w)) ++
               replicate (n - length (queue_of q w)) None), w') ∧
          faults w' = [] ∧ queue_of q w' = drop n (queue_of q w).
Proof.
  induction n as [|n IH]; intros w Hf Hc.
  - exists w. simpl. rewrite drop_0. auto.
  - destruct (queue_of q w) as [|[m s] z] eqn:Hz.
    + cbn [dequeue_all]. unfold bind at 1. rewrite dequeue_task_empty by assumption.
      destruct (IH w Hf) as (w' & E & Hf' & Hz'); [now rewrite Hz |].
      unfold bind at 1. rewrite E, Hz. exists w'.
      rewrite take_nil, drop_nil, Nat.sub_0_r in *.
      split; [reflexivity |]. split; [assumption |]. now rewrite Hz', Hz, drop_nil.
    + simpl in Hc. apply andb_prop in Hc as [Hm Hc].
      destruct (canonical_payload (m, s) Hm) as [Hl _].
      cbn [dequeue_all]. unfold bind at 1.
      rewrite (dequeue_task_head w q m s z _ Hf Hz Hl).
      set (w1 := with_zsets _ w).
      assert (Hz1 : queue_of q w1 = z) by apply zset_at_insert.
      destruct (IH w1) as (w' & E & Hf' & Hz'); [assumption | now rewrite Hz1 |].
      unfold bind at 1. rewrite E, Hz1. exists w'. simpl.
      split; [reflexivity |]. split; [assumption |]. now rewrite Hz', Hz1.
Qed.


Lemma precedes_fmap {A B} (f : A → B) (x y : A) (l : list A) :
  precedes x y l → precedes (f x) (f y) (map f l).
Proof.
  intros (i & j & Hij & Hi & Hj). exists i, j.
  rewrite !list_lookup_fmap, Hi, Hj. auto.
Qed.

Lemma precedes_fmap_inv {A B} (f : A → B) (u v : B) (l : list A) :
  precedes u v (map f l) →
  ∃ i j x y, (i < j)%nat ∧ l !! i = Some x ∧ l !! j = Some y ∧ f x = u ∧ f y = v.
Proof.
  intros (i & j & Hij & Hi & Hj). rewrite list_lookup_fmap in Hi, Hj.
  destruct (l !! i) as [x|] eqn:Ex; [| discriminate].
  destruct (l !! j) as [y|] eqn:Ey; [| discriminate].
  simpl in *. exists i, j, x, y. repeat split; congruence.
Qed.

Lemma queue_ok_zadd (d : json) (score : Z) (z : zset) :
  json_wf d = true → queue_ok z = true → queue_ok (zadd (dumps d) score z) = true.
Proof.
  unfold queue_ok. rewrite !andb_true_iff. intros W [Hw Hc].
  split; [now apply zadd_wf |].
  rewrite forallb_forall in *. intros e He.
  apply list_elem_of_In, zadd_elem in He as [-> | [He _]].
  - now apply canonical_dumps.
  - apply Hc. now apply list_elem_of_In.
Qed.

Lemma queue_ok_parts (z : zset) :
  queue_ok z = true →
  ranked z = true ∧ NoDup (map fst z) ∧
  forallb (fun e => canonical e.1) z = true.
Proof.
  unfold queue_ok, zset_wf. rewrite !andb_true_iff, keys_distinct_NoDup. tauto.
Qed.

Lemma payload_of_dumps (d : json) (score : Z) :
  json_wf d = true → payload_of (dumps d, score) = d.
Proof. intros W. unfold payload_of. simpl. now rewrite loads_dumps. Qed.

(** Draining a queue returns its payloads in rank order. *)
Lemma drain_spec (q : string) (w : world) :
  faults w = [] → queue_ok (queue_of q w) = true →
  ∃ w',
    (let* n := get_queue_size q in dequeue_all n q) w =
    (Ok (map (fun e => Some (payload_of e)) (queue_of q w)), w').
Proof.
  intros Hf Hq. apply queue_ok_parts in Hq as (_ & _ & Hc).
  unfold bind. rewrite get_queue_size_ok by assumption.
  destruct (dequeue_all_spec q (zcard (queue_of q w)) w Hf Hc) as (w' & E & _).
  exists w'. rewrite E. unfold zcard.
  now rewrite take_ge, Nat.sub_diag, app_nil_r by lia.
Qed.

Lemma pending_precedes (z : zset) (a b : json) (sa sb : Z) :
  queue_ok z = true → json_wf a = true → json_wf b = true →
  (dumps a, sa) ∈ z → (dumps b, sb) ∈ z →
  rank_ltb (dumps a, sa) (dumps b, sb) = true →
  precedes (Some a) (Some b) (map (fun e => Some (payload_of e)) z).
Proof.
  intros Hq Wa Wb Ha Hb Hab. apply queue_ok_parts in Hq as (Hr & _ & _).
  pose proof (ranked_precedes z _ _ Hr Ha Hb Hab) as H.
  apply (precedes_fmap (fun e => Some (payload_of e))) in H.
  now rewrite !payload_of_dumps in H.
Qed.

Lemma precedes_pending (z : zset) (a b : json) (sa sb : Z) :
  queue_ok z = true →
  (dumps a, sa) ∈ z → (dumps b, sb) ∈ z →
  precedes (Some a) (Some b) (map (fun e => Some (payload_of e)) z) →
  rank_ltb (dumps a, sa) (dumps b, sb) = true.
Proof.
  intros Hq Ha Hb H. apply queue_ok_parts in Hq as (Hr & Hd & Hc).
  apply precedes_fmap_inv in H as (i & j & x & y & Hij & Hi & Hj & Ex & Ey).
  injection Ex as Ex. injection Ey as Ey.
  rewrite forallb_forall in Hc.
  assert (Hx : x = (dumps a, sa)).
  { eapply NoDup_members_lookup; eauto. simpl.
    destruct (canonical_payload x) as [_ <-]; [| now rewrite Ex].
    apply Hc, list_elem_of_In. eapply list_elem_of_lookup_2; eauto. }
  assert (Hy : y = (dumps b, sb)).
  { eapply NoDup_members_lookup; eauto. simpl.
    destruct (canonical_payload y) as [_ <-]; [| now rewrite Ey].
    apply Hc, list_elem_of_In. eapply list_elem_of_lookup_2; eauto. }
  subst x y. eapply ranked_lookup; eauto.
Qed.

(** [queue_ok] holds of the empty store and is kept by [enqueue_task]
    and [dequeue_task]. *)
Lemma queue_ok_initial (q : string) : queue_ok (queue_of q initial_world) = true.
Proof. unfold queue_of, zset_at. simpl. now rewrite lookup_empty. Qed.

Lemma queue_key_inj (q q' : string) : queue_key q = queue_key q' → q = q'.
Proof. unfold queue_key. apply String.app_inj. Qed.

Lemma queue_ok_tail (e : entry) (z : zset) : queue_ok (e :: z) = true → queue_ok z = true.
Proof.
  unfold queue_ok. rewrite !andb_true_iff. intros [Hw Hc]. split.
  - exact (zpopmin_wf (e :: z) Hw).
  - simpl in Hc. now apply andb_prop in Hc as [_ Hc].
Qed.

Lemma enqueue_task_keeps_queue_ok (w : world) (q q' : string) (d : json) (p : Z) :
  faults w = [] → json_wf d = true → queue_ok (queue_of q' w) = true →
  queue_ok (queue_of q' (enqueue_task q d (JInt p) w).2) = true.
Proof.
  intros Hf W Hq. rewrite enqueue_task_ok by assumption. cbn [snd].
  destruct (String.eqb_spec q q') as [<- | Hne].
  - unfold queue_of at 1. rewrite zset_at_insert. now apply queue_ok_zadd.
  - unfold queue_of at 1. rewrite zset_at_insert_ne; [exact Hq |].
    intros E. now apply queue_key_inj in E.
Qed.

Lemma dequeue_task_keeps_queue_ok (w : world) (q q' : string) :
  faults w = [] → queue_ok (queue_of q' w) = true →
  queue_ok (queue_of q' (dequeue_task q w).2) = true.
Proof.
  intros Hf Hq.
  destruct (queue_of q w) as [|[m s] z] eqn:Hz.
  - now rewrite dequeue_task_empty.
  - assert (Hafter :
      queue_ok (queue_of q' (with_zsets (fun zs => <[queue_key q := z]> zs) w)) = true).
    { destruct (String.eqb_spec q q') as [<- | Hne].
      - unfold queue_of at 1. rewrite zset_at_insert.
        rewrite Hz in Hq. now apply queue_ok_tail in Hq.
      - unfold queue_of at 1. rewrite zset_at_insert_ne; [exact Hq |].
        intros E. now apply queue_key_inj in E. }
    destruct (loads m) as [v|] eqn:Hl.
    + now rewrite (dequeue_task_head w q m s z v Hf Hz Hl).
    + unfold dequeue_task, try_except, except_Exception, bind, ZPOPMIN,
        redis_command, json_loads, raise, log_error, modify, ret.
      unfold queue_of, queue_key in Hz. rewrite Hf, Hz. simpl. rewrite Hl. simpl.
      exact Hafter.
Qed.

(** ** E. The queue: order, size, round trip *)

Lemma two_enqueues_spec (w : world) (q : string) (a b : json) (pa pb : Z) :
  faults w = [] → queue_ok (queue_of q w) = true →
  json_wf a = true → json_wf b = true → a ≠ b →
  ∃ w' z,
    two_enqueues_then_drain q a b pa pb w =
    (Ok (map (fun e => Some (payload_of e)) z), w') ∧
    queue_ok z = true ∧ (dumps a, - pa) ∈ z ∧ (dumps b, - pb) ∈ z.
Proof.
  intros Hf Hq Wa Wb Hne. unfold two_enqueues_then_drain.
  unfold bind at 1. rewrite enqueue_task_ok by assumption.
  set (w1 := with_zsets _ w).
  assert (Hz1 : queue_of q w1 = zadd (dumps a) (- pa) (queue_of q w))
    by apply zset_at_insert.
  unfold bind at 1. rewrite enqueue_task_ok by (simpl; assumption).
  set (w2 := with_zsets _ w1).
  assert (Hz2 : queue_of q w2 = zadd (dumps b) (- pb) (queue_of q w1))
    by apply zset_at_insert.
  assert (Hq2 : queue_ok (queue_of q w2) = true).
  { rewrite Hz2, Hz1. now repeat apply queue_ok_zadd. }
  destruct (drain_spec q w2) as (w' & E); [simpl; assumption | assumption |].
  exists w', (queue_of q w2). split; [exact E |]. split; [assumption |].
  rewrite Hz2, Hz1. split.
  - apply zadd_elem. right. split.
    + apply zadd_elem. now left.
    + simpl. intros E'. apply Hne. now apply dumps_inj.
  - apply zadd_elem. now left.
Qed.

(** C1 (as the code has it). Two distinct tasks of equal priority,
    enqueued A then B on the same queue, leave it in the order of their
    serialised texts: A comes out before B exactly when [json.dumps(A)]
    is the smaller byte string. The rank is (-priority, member); the
    order of submission plays no part. *)
Theorem equal_priority_dequeue_order (w : world) (q : string) (a b : json) (p : Z) :
  faults w = [] → queue_ok (queue_of q w) = true →
  json_wf a = true → json_wf b = true → a ≠ b →
  ∃ results w',
    two_enqueues_then_drain q a b p p w = (Ok results, w') ∧
    (precedes (Some a) (Some b) results ↔ String.ltb (dumps a) (dumps b) = true).
Proof.
  intros Hf Hq Wa Wb Hne.
  destruct (two_enqueues_spec w q a b p p Hf Hq Wa Wb Hne)
    as (w' & z & E & Hz & Ha & Hb).
  eexists _, w'. split; [exact E |].
  assert (Hrank : rank_ltb (dumps a, - p) (dumps b, - p) = String.ltb (dumps a) (dumps b)).
  { unfold rank_ltb. simpl. now rewrite Z.ltb_irrefl, Z.eqb_refl. }
  rewrite <- Hrank. split.
  - now apply precedes_pending.
  - now apply pending_precedes.
Qed.

Lemma equal_priority_dequeue_order_witness :
  faults initial_world = [] ∧
  queue_ok (queue_of "ocr_extraction" initial_world) = true ∧
  json_wf (ocr_task "A" 5) = true ∧ json_wf (ocr_task "B" 5) = true ∧
  ocr_task "A" 5 ≠ ocr_task "B" 5 ∧
  ∃ results w',
    two_enqueues_then_drain "ocr_extraction" (ocr_task "A" 5) (ocr_task "B" 5) 5 5
      initial_world = (Ok results, w') ∧
    (precedes (Some (ocr_task "A" 5)) (Some (ocr_task "B" 5)) results ↔
     String.ltb (dumps (ocr_task "A" 5)) (dumps (ocr_task "B" 5)) = true).
Proof.
  assert (H1 : faults initial_world = []) by reflexivity.
  assert (H2 : queue_ok (queue_of "ocr_extraction" initial_world) = true)
    by reflexivity.
  assert (H3 : json_wf (ocr_task "A" 5) = true) by reflexivity.
  assert (H4 : json_wf (ocr_task "B" 5) = true) by reflexivity.
  assert (H5 : ocr_task "A" 5 ≠ ocr_task "B" 5) by discriminate.
  repeat split; try assumption;
    apply (equal_priority_dequeue_order initial_world "ocr_extraction"
             (ocr_task "A" 5) (ocr_task "B" 5) 5 H1 H2 H3 H4 H5).
Defined.

(** C1, as stated, fails: of two tasks of priority 5, the one submitted
    second is dequeued first when its text is the smaller one. *)
Lemma fifo_tie_break_counterexample :
  ¬ ((enqueue_task "ocr_extraction" (ocr_task "B" 5) (JInt 5);;
      enqueue_task "ocr_extraction" (ocr_task "A" 5) (JInt 5);;
      dequeue_task "ocr_extraction") initial_world).1 =
    Ok (Some (ocr_task "B" 5)).
Proof. vm_compute. discriminate. Qed.

(** C2. Two tasks pending on the same queue with priorities p1 > p2, both
    within 1..10: when the queue is dequeued with nothing else going on,
    the task of priority p1 is returned before the task of priority p2. *)
Theorem higher_priority_dequeued_first
    (w : world) (q : string) (a b : json) (p1 p2 : Z) :
  faults w = [] → queue_ok (queue_of q w) = true →
  json_wf a = true → json_wf b = true →
  priority_in_range p1 = true → priority_in_range p2 = true →
  pending q a p1 w → pending q b p2 w → p2 < p1 →
  ∃ results w',
    (let* n := get_queue_size q in dequeue_all n q) w = (Ok results, w') ∧
    precedes (Some a) (Some b) results.
Proof.
  intros Hf Hq Wa Wb _ _ Ha Hb Hlt.
  destruct (drain_spec q w Hf Hq) as (w' & E).
  eexists _, w'. split; [exact E |].
  eapply pending_precedes; eauto.
  unfold rank_ltb. simpl. apply orb_true_iff. left. apply Z.ltb_lt. lia.
Qed.

Lemma higher_priority_dequeued_first_witness :
  faults world_5_9_1 = [] ∧
  queue_ok (queue_of "ocr_extraction" world_5_9_1) = true ∧
  json_wf (ocr_task "second" 9) = true ∧ json_wf (ocr_task "first" 5) = true ∧
  priority_in_range 9 = true ∧ priority_in_range 5 = true ∧
  pending "ocr_extraction" (ocr_task "second" 9) 9 world_5_9_1 ∧
  pending "ocr_extraction" (ocr_task "first" 5) 5 world_5_9_1 ∧
  5 < 9 ∧
  ∃ results w',
    (let* n := get_queue_size "ocr_extraction" in
     dequeue_all n "ocr_extraction") world_5_9_1 = (Ok results, w') ∧
    precedes (Some (ocr_task "second" 9)) (Some (ocr_task "first" 5)) results.
Proof.
  assert (H1 : faults world_5_9_1 = []) by reflexivity.
  assert (H2 : queue_ok (queue_of "ocr_extraction" world_5_9_1) = true)
    by (vm_compute; reflexivity).
  assert (H3 : json_wf (ocr_task "second" 9) = true) by reflexivity.
  assert (H4 : json_wf (ocr_task "first" 5) = true) by reflexivity.
  assert (H5 : priority_in_range 9 = true) by reflexivity.
  assert (H6 : priority_in_range 5 = true) by reflexivity.
  assert (H7 : pending "ocr_extraction" (ocr_task "second" 9) 9 world_5_9_1)
    by (vm_compute; apply list_elem_of_here).
  assert (H8 : pending "ocr_extraction" (ocr_task "first" 5) 5 world_5_9_1)
    by (vm_compute; apply list_elem_of_further, list_elem_of_here).
  assert (H9 : 5 < 9) by lia.
  repeat split; try assumption;
    apply (higher_priority_dequeued_first world_5_9_1 "ocr_extraction"
             (ocr_task "second" 9) (ocr_task "first" 5) 9 5
             H1 H2 H3 H4 H5 H6 H7 H8 H9).
Defined.

Example dequeue_order_9_5_1 :
  ((let* n := get_queue_size "ocr_extraction" in
    dequeue_all n "ocr_extraction") world_5_9_1).1 =
  Ok [Some (ocr_task "second" 9); Some (ocr_task "first" 5);
      Some (ocr_task "third" 1)].
Proof. vm_compute. reflexivity. Qed.

Example single_worker_order_9_5_1 :
  claimed_in_order (trace (ocr_loop quick_ocr 3 world_three_submitted).2) =
  ["task:second"; "task:first"; "task:third"].
Proof. vm_compute. reflexivity. Qed.

(** C9 (as the code has it). The queue is an ordered set of serialised
    payloads: [enqueue_task] adds one entry when no entry with the same
    text is pending; when one is, the size stays as it is and that entry
    takes the score of the new priority. *)
Theorem enqueue_size (w : world) (q : string) (d : json) (p : Z) :
  faults w = [] → zset_wf (queue_of q w) = true →
  ∃ w',
    enqueue_task q d (JInt p) w = (Ok true, w') ∧
    (get_queue_size q w').1 =
      Ok (if existsb (String.eqb (dumps d)) (map fst (queue_of q w))
          then (zcard (queue_of q w))
          else S (zcard (queue_of q w))) ∧
    pending q d p w' ∧
    (∀ s, (dumps d, s) ∈ queue_of q w' → s = - p).
Proof.
  intros Hf Hw. rewrite enqueue_task_ok by assumption.
  eexists. split; [reflexivity |].
  set (w' := with_zsets _ w).
  assert (Hz : queue_of q w' = zadd (dumps d) (- p) (queue_of q w))
    by apply zset_at_insert.
  rewrite get_queue_size_ok by (simpl; assumption).
  unfold pending. rewrite Hz. simpl. rewrite zadd_card by assumption.
  split; [reflexivity |]. split.
  - apply zadd_elem. now left.
  - intros s Hs. apply zadd_elem in Hs as [E | [_ Hne]].
    + congruence.
    + now contradiction Hne.
Qed.

Lemma enqueue_size_witness :
  faults world_5_9_1 = [] ∧
  zset_wf (queue_of "ocr_extraction" world_5_9_1) = true ∧
  ∃ w',
    enqueue_task "ocr_extraction" (ocr_task "first" 5) (JInt 7) world_5_9_1 =
      (Ok true, w') ∧
    (get_queue_size "ocr_extraction" w').1 =
      Ok (if existsb (String.eqb (dumps (ocr_task "first" 5)))
               (map fst (queue_of "ocr_extraction" world_5_9_1))
          then (zcard (queue_of "ocr_extraction" world_5_9_1))
          else S (zcard (queue_of "ocr_extraction" world_5_9_1))) ∧
    pending "ocr_extraction" (ocr_task "first" 5) 7 w' ∧
    (∀ s, (dumps (ocr_task "first" 5), s) ∈ queue_of "ocr_extraction" w' → s = - 7).
Proof.
  assert (H1 : faults world_5_9_1 = []) by reflexivity.
  assert (H2 : zset_wf (queue_of "ocr_extraction" world_5_9_1) = true)
    by (vm_compute; reflexivity).
  repeat split; try assumption;
    apply (enqueue_size world_5_9_1 "ocr_extraction" (ocr_task "first" 5) 7 H1 H2).
Defined.

(** C9, as stated, fails: enqueueing a payload that is already pending
    leaves the size of the queue at 1 instead of raising it to 2. *)
Lemma enqueue_identical_payload_counterexample :
  ¬ ∃ n : nat,
      ((enqueue_task "ocr_extraction" (ocr_task "A" 5) (JInt 5);;
        let* before := get_queue_size "ocr_extraction" in
        enqueue_task "ocr_extraction" (ocr_task "A" 5) (JInt 5);;
        let* after := get_queue_size "ocr_extraction" in
        ret (before, after)) initial_world).1 = Ok (n, S n).
Proof.
  assert (E : ((enqueue_task "ocr_extraction" (ocr_task "A" 5) (JInt 5);;
                let* before := get_queue_size "ocr_extraction" in
                enqueue_task "ocr_extraction" (ocr_task "A" 5) (JInt 5);;
                let* after := get_queue_size "ocr_extraction" in
                ret (before, after)) initial_world).1 = Ok (1%nat, 1%nat))
    by (vm_compute; reflexivity).
  rewrite E. intros [n H]. injection H as H1 H2. lia.
Qed.



(** ** F. Concurrent callers of [dequeue_task] *)





Example eight_callers_three_entries :
  (dequeue_by [3; 1; 3; 2; 1; 0; 7; 4]%nat "ocr_extraction" world_5_9_1).1 =
  Ok [(3%nat, Some (ocr_task "second" 9)); (1%nat, Some (ocr_task "first" 5));
      (3%nat, Some (ocr_task "third" 1)); (2%nat, None); (1%nat, None);
      (0%nat, None); (7%nat, None); (4%nat, None)].
Proof. vm_compute. reflexivity. Qed.

(** ** G. Status records *)

Lemma hset_field_nonempty (f v : string) (h : hash) : hset_field f v h ≠ [].
Proof. destruct h as [|[f' v'] h]; simpl; [| destruct (f =? f')%string]; discriminate. Qed.

Lemma hset_mapping_nonempty (mapping h : hash) :
  mapping ≠ [] → hset_mapping mapping h ≠ [].
Proof.
  unfold hset_mapping. intros Hm.
  destruct mapping as [|fv mapping] using rev_ind; [contradiction |].
  rewrite fold_left_app. simpl. apply hset_field_nonempty.
Qed.

Lemma status_mapping_nonempty status result t : status_mapping status result t ≠ [].
Proof. discriminate. Qed.

Lemma hset_expire_ok (w : world) (key : string) (mapping : hash) :
  faults w = [] → mapping ≠ [] →
  ∃ w',
    (HSET key mapping;; EXPIRE key 3600) w = (Ok tt, w') ∧
    faults w' = [] ∧ clock w' = clock w ∧ zsets w' = zsets w ∧
    running w' = running w ∧
    trace w' = trace w ++ [EvHset key mapping] ∧
    hash_at key w' = hset_mapping mapping (hash_at key w) ∧
    (∀ other, other ≠ key → hash_at other w' = hash_at other w).
Proof.
  intros Hf Hm.
  pose proof (hset_mapping_nonempty mapping (hash_at key w) Hm) as Hne.
  unfold bind, HSET, EXPIRE, redis_command. rewrite Hf.
  set (h := hset_mapping mapping (hash_at key w)) in *.
  set (w1 := emit (EvHset key mapping) _).
  assert (Hf1 : faults w1 = []) by (unfold w1; destruct (expired key w); exact Hf).
  assert (Hh : hash_at key w1 = h).
  { unfold w1, hash_at, expired. destruct (expiry w !! key) as [t|] eqn:Et.
    - destruct (t <=? clock w) eqn:Ht; simpl.
      + now rewrite lookup_delete_eq, lookup_insert_eq.
      + now rewrite Et, Ht, lookup_insert_eq.
    - simpl. now rewrite Et, lookup_insert_eq. }
  assert (Hc1 : clock w1 = clock w) by (unfold w1; destruct (expired key w); reflexivity).
  assert (Hz1 : zsets w1 = zsets w) by (unfold w1; destruct (expired key w); reflexivity).
  assert (Hr1 : running w1 = running w) by (unfold w1; destruct (expired key w); reflexivity).
  assert (Ht1 : trace w1 = trace w ++ [EvHset key mapping])
    by (unfold w1; destruct (expired key w); reflexivity).
  assert (Ho1 : ∀ other, other ≠ key → hash_at other w1 = hash_at other w).
  { intros other Hother. unfold w1, hash_at, expired.
    destruct (match expiry w !! key with Some t => t <=? clock w | None => false end);
      simpl; rewrite ?lookup_delete_ne, ?lookup_insert_ne by (symmetry; exact Hother);
      reflexivity. }
  rewrite Hf1, Hh. clearbody w1 h.
  destruct h as [|fv h']; [contradiction |].
  eexists. split; [reflexivity |].
  cbn [faults clock zsets running trace with_expiry]. repeat split; try assumption.
  - unfold hash_at, expired in *. cbn [expiry hashes clock with_expiry].
    rewrite lookup_insert_eq.
    assert ((clock w1 + 3600 <=? clock w1) = false) as -> by lia.
    destruct (match expiry w1 !! key with Some t => t <=? clock w1 | None => false end);
      [discriminate | assumption].
  - intros other Hother. rewrite <- (Ho1 other Hother).
    unfold hash_at, expired. cbn [expiry hashes clock with_expiry].
    now rewrite lookup_insert_ne by (symmetry; exact Hother).
Qed.

(** [set_task_status] on a healthy connection. *)
Lemma set_task_status_ok (w : world) (task_id : json) (status : ProcessingStatus)
    (result : option pydict) :
  faults w = [] →
  ∃ w',
    set_task_status task_id status result w = (Ok tt, w') ∧
    faults w' = [] ∧ clock w' = clock w ∧ zsets w' = zsets w ∧
    running w' = running w ∧
    trace w' =
      trace w ++ [EvHset (task_key task_id) (status_mapping status result (clock w))] ∧
    record_of task_id w' =
      hset_mapping (status_mapping status result (clock w)) (record_of task_id w) ∧
    (∀ other, task_key other ≠ task_key task_id →
       record_of other w' = record_of other w).
Proof.
  intros Hf.
  destruct (hset_expire_ok w (task_key task_id)
              (status_mapping status result (clock w)) Hf
              (status_mapping_nonempty _ _ _))
    as (w' & E & Hf' & Hc & Hz & Hr & Ht & Hh & Ho).
  exists w'. split.
  - unfold set_task_status, try_except. unfold bind at 1. unfold now.
    fold (task_key task_id).
    change (match result with
            | Some (x :: r) =>
                [("status", status_value status); ("updated_at", dumps_int (clock w))] ++
                [("result", dumps (JDict (x :: r)))]
            | _ => [("status", status_value status); ("updated_at", dumps_int (clock w))]
            end)
      with (match result with
            | Some (x :: r) => status_mapping status (Some (x :: r)) (clock w)
            | _ => status_mapping status None (clock w)
            end).
    assert (Hm : match result with
                 | Some (x :: r) => status_mapping status (Some (x :: r)) (clock w)
                 | _ => status_mapping status None (clock w)
                 end = status_mapping status result (clock w))
      by (destruct result as [[|x r]|]; reflexivity).
    rewrite Hm, E. reflexivity.
  - unfold record_of. repeat split; auto.
Qed.

Lemma hash_get_hset_field (f f' v : string) (h : hash) :
  hash_get f' (hset_field f v h) =
  if String.eqb f' f then Some v else hash_get f' h.
Proof.
  induction h as [|[g u] h IH]; simpl.
  - destruct (String.eqb_spec f' f); reflexivity.
  - destruct (String.eqb_spec f g) as [-> | Hfg]; simpl.
    + destruct (String.eqb_spec f' g); reflexivity.
    + rewrite IH. destruct (String.eqb_spec f' g) as [-> | ?]; [| reflexivity].
      destruct (String.eqb_spec g f); [congruence | reflexivity].
Qed.

Lemma hash_get_status_mapping (status : ProcessingStatus) (result : option pydict)
    (t : Z) (h : hash) :
  hash_get "status" (hset_mapping (status_mapping status result t) h) =
    Some (status_value status) ∧
  hash_get "updated_at" (hset_mapping (status_mapping status result t) h) =
    Some (dumps_int t) ∧
  hash_get "result" (hset_mapping (status_mapping status result t) h) =
    match result with
    | Some (x :: r) => Some (dumps (JDict (x :: r)))
    | _ => hash_get "result" h
    end.
Proof.
  unfold hset_mapping, status_mapping.
  destruct result as [[|x r]|]; simpl; rewrite !hash_get_hset_field; simpl; auto.
Qed.

Lemma dict_get_fields (f : string) (h : hash) :
  dict_get f (map (fun fv : string * string => (fv.1, JStr fv.2)) h) =
  JStr <$> hash_get f h.
Proof.
  induction h as [|[g u] h IH]; simpl; [reflexivity |].
  destruct (String.eqb f g); [reflexivity | exact IH].
Qed.

Lemma dict_get_dict_set (f k : string) (v : json) (d : pydict) :
  dict_get f (dict_set k v d) = if String.eqb f k then Some v else dict_get f d.
Proof.
  induction d as [|[g u] d IH]; simpl.
  - destruct (String.eqb_spec f k); reflexivity.
  - destruct (String.eqb_spec k g) as [-> | Hkg]; simpl.
    + destruct (String.eqb_spec f g); reflexivity.
    + rewrite IH. destruct (String.eqb_spec f g) as [-> | ?]; [| reflexivity].
      destruct (String.eqb_spec g k); [congruence | reflexivity].
Qed.

Lemma dict_set_nonempty (k : string) (v : json) (d : pydict) : dict_set k v d ≠ [].
Proof. destruct d as [|[k' v'] d]; simpl; [| destruct (k =? k')%string]; discriminate. Qed.

(** [get_task_status] on a healthy connection, for a record whose result
    field, if any, is a JSON text. *)
Lemma get_task_status_ok (w : world) (task_id : json) (v : option json) :
  faults w = [] → record_of task_id w ≠ [] →
  (hash_get "result" (record_of task_id w) ≫= loads) = v →
  (∀ r, hash_get "result" (record_of task_id w) = Some r → is_Some (loads r)) →
  ∃ rec,
    get_task_status task_id w = (Ok (Some rec), w) ∧
    dict_get "status" rec = JStr <$> hash_get "status" (record_of task_id w) ∧
    dict_get "updated_at" rec = JStr <$> hash_get "updated_at" (record_of task_id w) ∧
    dict_get "result" rec = v.
Proof.
  intros Hf Hne Hv Hjson.
  unfold get_task_status, try_except. unfold bind at 1.
  unfold HGETALL, redis_command. rewrite Hf. fold (task_key task_id).
  fold (record_of task_id w).
  destruct (record_of task_id w) as [|fv h] eqn:Eh; [contradiction |].
  set (fields := map (fun fv : string * string => (fv.1, JStr fv.2)) (fv :: h)).
  destruct (hash_get "result" (fv :: h)) as [r|] eqn:Er.
  - destruct (Hjson r eq_refl) as [x Hx]. simpl in Hv. rewrite Hx in Hv. subst v.
    unfold bind, json_loads, ret. rewrite Hx.
    assert (Hrec : dict_set "result" x fields ≠ []) by apply dict_set_nonempty.
    destruct (dict_set "result" x fields) as [|kv rec] eqn:Ed; [contradiction |].
    exists (kv :: rec). split; [reflexivity |].
    rewrite <- Ed, !dict_get_dict_set. unfold fields. rewrite !dict_get_fields.
    assert (("status" =? "result")%string = false) as -> by reflexivity.
    assert (("updated_at" =? "result")%string = false) as -> by reflexivity.
    assert (("result" =? "result")%string = true) as -> by reflexivity.
    auto.
  - simpl in Hv. subst v. unfold bind, ret.
    exists fields. split; [reflexivity |].
    unfold fields. rewrite !dict_get_fields, Er. auto.
Qed.

(** ** H. Running the monad *)

Lemma bind_ok {A B} (m : M A) (k : A → M B) (w w' : world) (a : A) :
  m w = (Ok a, w') → bind m k w = k a w'.
Proof. intros H. unfold bind. now rewrite H. Qed.

Lemma bind_ret {A B} (a : A) (k : A → M B) : bind (ret a) k = k a.
Proof. reflexivity. Qed.

Lemma bind_raise {A B} (m : M A) (k : A → M B) (w w' : world) (e : exn) :
  m w = (Raise e, w') → bind m k w = (Raise e, w').
Proof. intros H. unfold bind. now rewrite H. Qed.

Lemma try_except_ok {A} (body : M A) (handler : exn → option (M A))
    (w w' : world) (a : A) :
  body w = (Ok a, w') → try_except body handler w = (Ok a, w').
Proof. intros H. unfold try_except. now rewrite H. Qed.

Lemma try_except_caught {A} (body : M A) (handler : exn → option (M A))
    (w w' : world) (e : exn) (h : M A) :
  body w = (Raise e, w') → handler e = Some h → try_except body handler w = h w'.
Proof. intros H Hh. unfold try_except. now rewrite H, Hh. Qed.

Lemma try_except_uncaught {A} (body : M A) (handler : exn → option (M A))
    (w w' : world) (e : exn) :
  body w = (Raise e, w') → handler e = None →
  try_except body handler w = (Raise e, w').
Proof. intros H Hh. unfold try_except. now rewrite H, Hh. Qed.

Lemma wait_for_awaited (r : run) (timeout : Z) (w : world) :
  wait_for r timeout w =
  (match (awaited timeout r).2 with Returns v => Ok v | Raises e => Raise e end,
   advance (awaited timeout r).1 w).
Proof.
  unfold wait_for, awaited.
  destruct ((0 <? timeout) && (Z.of_N (duration r) <=? timeout)); [| reflexivity].
  destruct (finish r); reflexivity.
Qed.

Lemma awaited_nonneg (timeout : Z) (r : run) : 0 ≤ (awaited timeout r).1.
Proof.
  unfold awaited.
  destruct ((0 <? timeout) && (Z.of_N (duration r) <=? timeout)); simpl; lia.
Qed.

Section Worker.

Variable settings : Settings.
Variable step_detection_process : json → run.
Variable ocr_process : json → run.
Variable content_generation_process : json → run.
Variable voice_synthesis_process : json → run.
Variable image_analysis_process : json → run.

Local Abbreviation process_task :=
  (_process_task settings step_detection_process ocr_process
     content_generation_process voice_synthesis_process image_analysis_process).
Local Abbreviation iteration :=
  (worker_iteration settings step_detection_process ocr_process
     content_generation_process voice_synthesis_process image_analysis_process).
Local Abbreviation processor_of :=
  (handler_of step_detection_process ocr_process content_generation_process
     voice_synthesis_process image_analysis_process).
Local Abbreviation worker :=
  (_worker settings step_detection_process ocr_process
     content_generation_process voice_synthesis_process image_analysis_process).

(** A turn that ends with [Continue] hands over to the next turn. *)
Lemma worker_goes_on (w w' : world) (worker_id q : string) (fuel : nat) :
  running w = true → iteration worker_id q w = (Ok Continue, w') →
  worker (S fuel) worker_id q w = worker fuel worker_id q w'.
Proof.
  intros Hr E. cbn [_worker]. rewrite Hr. unfold bind. now rewrite E.
Qed.

Lemma handlers_get_total (ty : TaskType) :
  handlers_get step_detection_process ocr_process content_generation_process
    voice_synthesis_process image_analysis_process ty = Some (processor_of ty).
Proof. destruct ty; reflexivity. Qed.

(** [_process_task] on a healthy connection, for a task of a known type. *)
Lemma process_task_spec (w : world) (worker_id : string) (d : pydict) (ty : TaskType) :
  faults w = [] →
  task_type_of_value (task_type_of d) = Some ty →
  let tid := task_id_of d in
  let elapsed := (awaited (PROCESSING_TIMEOUT settings) (processor_of ty (JDict d))).1 in
  let c := (awaited (PROCESSING_TIMEOUT settings) (processor_of ty (JDict d))).2 in
  let started := EvHset (task_key tid) (status_mapping PROCESSING None (clock w)) in
  match terminal_write worker_id tid c elapsed with
  | Some (status, result, logged) =>
      ∃ w' h,
        process_task worker_id (JDict d) w = (Ok tt, w') ∧
        faults w' = [] ∧ zsets w' = zsets w ∧ running w' = running w ∧
        clock w' = clock w + elapsed ∧
        trace w' =
          trace w ++ [started] ++ logged ++
          [EvHset (task_key tid) (status_mapping status (Some result) (clock w'))] ∧
        record_of tid w' =
          hset_mapping (status_mapping status (Some result) (clock w')) h
  | None =>
      ∃ w' e,
        c = Raises e ∧ is_Exception e = false ∧
        process_task worker_id (JDict d) w = (Raise e, w') ∧
        trace w' = trace w ++ [started]
  end.
Proof.
  intros Hf Hty tid elapsed c started.
  unfold _process_task, py_get, py_get_default. rewrite !bind_ret.
  fold (task_id_of d) (task_type_of d). fold tid.
  destruct (set_task_status_ok w tid PROCESSING None Hf)
    as (w1 & E1 & Hf1 & Hc1 & Hz1 & Hr1 & Ht1 & Hrec1 & _).
  pose proof (wait_for_awaited (processor_of ty (JDict d)) (PROCESSING_TIMEOUT settings) w1)
    as Hwait.
  fold elapsed c in Hwait.
  set (w2 := advance elapsed w1) in *.
  assert (Hf2 : faults w2 = []) by exact Hf1.
  assert (Hc2 : clock w2 = clock w + elapsed) by (unfold w2; simpl; lia).
  assert (Hz2 : zsets w2 = zsets w) by exact Hz1.
  assert (Hr2 : running w2 = running w) by exact Hr1.
  assert (Ht2 : trace w2 = trace w ++ [started]) by exact Ht1.
  assert (Hel : clock w2 - clock w1 = elapsed) by lia.
  set (body := bind (set_task_status tid PROCESSING None) _).
  assert (Hbody :
    body w =
    match c with
    | Returns v =>
        set_task_status tid COMPLETED
          (Some [("result", v); ("processing_time", JInt elapsed);
                 ("worker_id", JStr worker_id)]) w2
    | Raises e => (Raise e, w2)
    end).
  { unfold body. rewrite (bind_ok _ _ _ _ _ E1).
    unfold TaskType_of. rewrite Hty. unfold bind at 1. unfold ret at 1.
    rewrite handlers_get_total. unfold bind at 1. unfold now at 1.
    unfold bind at 1. rewrite Hwait.
    destruct c as [v | e]; [| reflexivity].
    unfold bind, now. now rewrite Hel. }
  clearbody body w2. clear Hwait.
  unfold terminal_write. destruct c as [v | e].
  - destruct (set_task_status_ok w2 tid COMPLETED
                (Some [("result", v); ("processing_time", JInt elapsed);
                       ("worker_id", JStr worker_id)]) Hf2)
      as (w3 & E3 & Hf3 & Hc3 & Hz3 & Hr3 & Ht3 & Hrec3 & _).
    rewrite E3 in Hbody.
    exists w3, (record_of tid w2). rewrite (try_except_ok _ _ _ _ _ Hbody).
    rewrite Hc3, Hz3, Hr3, Ht3, Hrec3, Ht2, Hc2, Hz2, Hr2, <- !app_assoc.
    repeat split; solve [assumption | reflexivity].
  - destruct (is_TimeoutError e) eqn:Etime; [| destruct (is_Exception e) eqn:Eexc].
    + destruct (set_task_status_ok
                  (emit (EvLogError ("Task " +:+ py_str tid +:+ " timed out")) w2)
                  tid FAILED (Some [("error", JStr "Task timed out")]) Hf2)
        as (w3 & E3 & Hf3 & Hc3 & Hz3 & Hr3 & Ht3 & Hrec3 & _).
      exists w3, (record_of tid (emit (EvLogError ("Task " +:+ py_str tid +:+ " timed out")) w2)).
      erewrite try_except_caught; [| exact Hbody | rewrite Etime; reflexivity].
      unfold bind at 1. unfold log_error, modify. rewrite E3.
      rewrite Hc3, Hz3, Hr3, Ht3, Hrec3.
      cbn [clock zsets running trace emit].
      rewrite Ht2, Hc2, Hz2, Hr2, <- !app_assoc.
      repeat split; solve [assumption | reflexivity].
    + destruct (set_task_status_ok
                  (emit (EvLogError ("Task " +:+ py_str tid +:+ " failed: " +:+ exn_str e)) w2)
                  tid FAILED (Some [("error", JStr (exn_str e))]) Hf2)
        as (w3 & E3 & Hf3 & Hc3 & Hz3 & Hr3 & Ht3 & Hrec3 & _).
      exists w3, (record_of tid
                    (emit (EvLogError ("Task " +:+ py_str tid +:+ " failed: " +:+ exn_str e)) w2)).
      erewrite try_except_caught;
        [| exact Hbody | rewrite Etime; unfold except_Exception; rewrite Eexc; reflexivity].
      unfold bind at 1. unfold log_error, modify. rewrite E3.
      rewrite Hc3, Hz3, Hr3, Ht3, Hrec3.
      cbn [clock zsets running trace emit].
      rewrite Ht2, Hc2, Hz2, Hr2, <- !app_assoc.
      repeat split; solve [assumption | reflexivity].
    + exists w2, e. split; [reflexivity |]. split; [exact Eexc |].
      split; [| exact Ht2].
      apply try_except_uncaught; [exact Hbody |].
      rewrite Etime. unfold except_Exception. now rewrite Eexc.
Qed.

(** Reading back a record whose last write carried a result. *)
Lemma record_readback (w : world) (task_id : json) (status : ProcessingStatus)
    (x : string * json) (r : pydict) (t : Z) (h : hash) :
  faults w = [] →
  record_of task_id w = hset_mapping (status_mapping status (Some (x :: r)) t) h →
  json_wf (JDict (x :: r)) = true →
  ∃ rec,
    get_task_result task_id w = (Ok (Some rec), w) ∧
    dict_get "status" rec = Some (JStr (status_value status)) ∧
    dict_get "updated_at" rec = Some (JStr (dumps_int t)) ∧
    dict_get "result" rec = Some (JDict (x :: r)).
Proof.
  intros Hf Hrec W.
  destruct (hash_get_status_mapping status (Some (x :: r)) t h) as (Hs & Hu & Hr).
  rewrite <- Hrec in Hs, Hu, Hr.
  destruct (get_task_status_ok w task_id (Some (JDict (x :: r))) Hf)
    as (rec & E & Es & Eu & Er).
  - rewrite Hrec. apply hset_mapping_nonempty, status_mapping_nonempty.
  - rewrite Hr. exact (loads_dumps _ W).
  - intros r' Hr'. assert (r' = dumps (JDict (x :: r))) as -> by congruence.
    rewrite (loads_dumps _ W). eauto.
  - exists rec. unfold get_task_result. rewrite Hs in Es. rewrite Hu in Eu. auto.
Qed.

(** A turn of the worker loop that finds a task at the head of the queue. *)
Lemma iteration_claims_task (w : world) (worker_id q : string) (m : string) (s : Z)
    (z : zset) (d : pydict) :
  healthy w = true → queue_of q w = (m, s) :: z → loads m = Some (JDict d) → d ≠ [] →
  let w0 := with_zsets (fun zs => <[queue_key q := z]> zs) (after_command w) in
  iteration worker_id q w =
  match process_task worker_id (JDict d) w0 with
  | (Ok _, w') => (Ok Continue, w')
  | (Raise e, w') =>
      if is_CancelledError e then (Ok Break, w')
      else if is_Exception e then
        (Ok Continue,
         emit (EvSleep 5)
           (with_clock (clock w' + 5)
              (emit (EvLogError ("Worker " +:+ worker_id +:+ " error: " +:+ exn_str e)) w')))
      else (Raise e, w')
  end.
Proof.
  intros Hf Hz Hl Hd w0. unfold worker_iteration, try_except.
  rewrite (bind_ok _ _ _ _ _ (dequeue_task_head_any w q m s z _ Hf Hz Hl)).
  fold w0. assert (truthy (JDict d) = true) as -> by (destruct d; [contradiction | reflexivity]).
  unfold bind at 1.
  destruct (process_task worker_id (JDict d) w0) as [[[] | e] w']; [reflexivity |].
  destruct (is_CancelledError e); [reflexivity |].
  unfold except_Exception. destruct (is_Exception e); reflexivity.
Qed.

Lemma valid_type_nonempty (d : pydict) (ty : TaskType) :
  task_type_of_value (task_type_of d) = Some ty → d ≠ [].
Proof. intros H ->. discriminate H. Qed.

(** A claimed task whose processor ends with [c] after [elapsed] time
    units, on a healthy connection: the turn of the loop, and the record
    read back after it. *)
Lemma iteration_records (w : world) (worker_id q : string) (m : string) (s : Z)
    (z : zset) (d : pydict) (ty : TaskType)
    (status : ProcessingStatus) (x : string * json) (r : pydict) (logged : list event) :
  faults w = [] → queue_of q w = (m, s) :: z → loads m = Some (JDict d) →
  task_type_of_value (task_type_of d) = Some ty →
  terminal_write worker_id (task_id_of d)
    (awaited (PROCESSING_TIMEOUT settings) (processor_of ty (JDict d))).2
    (awaited (PROCESSING_TIMEOUT settings) (processor_of ty (JDict d))).1 =
    Some (status, x :: r, logged) →
  json_wf (JDict (x :: r)) = true →
  ∃ w' rec,
    iteration worker_id q w = (Ok Continue, w') ∧
    faults w' = [] ∧ running w' = running w ∧ queue_of q w' = z ∧
    clock w' =
      clock w + (awaited (PROCESSING_TIMEOUT settings) (processor_of ty (JDict d))).1 ∧
    trace w' =
      trace w ++
      [EvHset (task_key (task_id_of d)) (status_mapping PROCESSING None (clock w))] ++
      logged ++
      [EvHset (task_key (task_id_of d))
         (status_mapping status (Some (x :: r)) (clock w'))] ∧
    get_task_result (task_id_of d) w' = (Ok (Some rec), w') ∧
    dict_get "status" rec = Some (JStr (status_value status)) ∧
    dict_get "updated_at" rec = Some (JStr (dumps_int (clock w'))) ∧
    dict_get "result" rec = Some (JDict (x :: r)).
Proof.
  intros Hf Hz Hl Hty Hterm W.
  pose proof (valid_type_nonempty d ty Hty) as Hd.
  rewrite (iteration_claims_task w worker_id q m s z d) by
    (try assumption; unfold healthy; now rewrite Hf).
  rewrite (after_command_healthy w Hf).
  set (w0 := with_zsets _ w).
  pose proof (process_task_spec w0 worker_id d ty Hf Hty) as Hspec.
  cbv zeta in Hspec. rewrite Hterm in Hspec.
  destruct Hspec as (w' & h & E & Hf' & Hz' & Hr' & Hc' & Ht' & Hrec').
  rewrite E.
  destruct (record_readback w' (task_id_of d) status x r (clock w') h Hf' Hrec' W)
    as (rec & Eg & Es & Eu & Er).
  exists w', rec. repeat split; try assumption.
  unfold queue_of, zset_at. rewrite Hz'. unfold w0. simpl.
  now rewrite lookup_insert_eq.
Qed.


(** C6 (as the code has it). A claimed task whose processor raises, within
    the deadline, an exception [e] of the [Exception] family other than
    [asyncio.TimeoutError]: the worker records status FAILED with the error
    [str(e)], which is empty when [e] carries no message, and no result
    value; the turn of the loop ends normally and the loop goes on. *)
Theorem processor_exception_marks_failed (w : world) (worker_id q : string)
    (m : string) (s : Z) (z : zset) (d : pydict) (ty : TaskType) (e : exn) :
  faults w = [] → queue_of q w = (m, s) :: z → loads m = Some (JDict d) →
  task_type_of_value (task_type_of d) = Some ty →
  finish (processor_of ty (JDict d)) = Raises e →
  0 < PROCESSING_TIMEOUT settings →
  Z.of_N (duration (processor_of ty (JDict d))) ≤ PROCESSING_TIMEOUT settings →
  is_Exception e = true → is_TimeoutError e = false →
  ∃ w' rec,
    iteration worker_id q w = (Ok Continue, w') ∧
    running w' = running w ∧
    get_task_result (task_id_of d) w' = (Ok (Some rec), w') ∧
    dict_get "status" rec = Some (JStr "failed") ∧
    dict_get "result" rec = Some (JDict [("error", JStr (exn_str e))]) ∧
    recorded_error rec = Some (JStr (exn_str e)) ∧
    recorded_result rec = None ∧
    (running w = true →
     ∀ fuel, worker (S fuel) worker_id q w = worker fuel worker_id q w').
Proof.
  intros Hf Hz Hl Hty Hfin Hpos Hin Hexc Htime.
  assert (Haw : awaited (PROCESSING_TIMEOUT settings) (processor_of ty (JDict d)) =
                (Z.of_N (duration (processor_of ty (JDict d))), Raises e)).
  { unfold awaited.
    assert ((0 <? PROCESSING_TIMEOUT settings) = true) as -> by lia.
    assert ((Z.of_N (duration (processor_of ty (JDict d))) <=? PROCESSING_TIMEOUT settings)
            = true) as -> by lia.
    now rewrite Hfin. }
  destruct (iteration_records w worker_id q m s z d ty FAILED
              ("error", JStr (exn_str e)) []
              [EvLogError ("Task " +:+ py_str (task_id_of d) +:+ " failed: " +:+ exn_str e)]
              Hf Hz Hl Hty)
    as (w' & rec & E & _ & Hr & _ & _ & _ & Eg & Es & _ & Er).
  - rewrite Haw. simpl. now rewrite Htime, Hexc.
  - reflexivity.
  - exists w', rec.
    unfold recorded_error, recorded_result, outcome_field.
    rewrite Er. repeat split; try assumption; try reflexivity.
    intros Hrun fuel. now apply worker_goes_on.
Qed.

(** *** Store errors *)

Lemma extends_trans (w1 w2 w3 : world) (evs1 evs2 : list event) :
  extends w1 w2 evs1 → extends w2 w3 evs2 → extends w1 w3 (evs1 ++ evs2).
Proof.
  intros (Ht1 & Hc1 & Hz1 & Hr1) (Ht2 & Hc2 & Hz2 & Hr2).
  unfold extends. rewrite Ht2, Ht1, Hc2, Hz2, Hr2, app_assoc. auto.
Qed.

Lemma HSET_cases (key : string) (mapping : hash) (w : world) :
  (∃ w', HSET key mapping w = (Ok tt, w') ∧ extends w w' [EvHset key mapping]) ∨
  (∃ w' e, HSET key mapping w = (Raise e, w') ∧ is_Exception e = true ∧
           extends w w' []).
Proof.
  unfold HSET, redis_command, extends.
  destruct (faults w) as [|[msg|] fs].
  - left. eexists. split; [reflexivity |].
    destruct (expired key w); repeat split; reflexivity.
  - right. eexists _, _. split; [reflexivity |]. simpl. rewrite app_nil_r. auto.
  - left. eexists. split; [reflexivity |].
    destruct (expired key (with_faults fs w)); repeat split; reflexivity.
Qed.

Lemma EXPIRE_cases (key : string) (secs : Z) (w : world) :
  (∃ w', EXPIRE key secs w = (Ok tt, w') ∧ extends w w' []) ∨
  (∃ w' e, EXPIRE key secs w = (Raise e, w') ∧ is_Exception e = true ∧
           extends w w' []).
Proof.
  unfold EXPIRE, redis_command, extends.
  destruct (faults w) as [|[msg|] fs].
  - left. destruct (hash_at key w); eexists; (split; [reflexivity |]);
      simpl; rewrite app_nil_r; auto.
  - right. eexists _, _. split; [reflexivity |]. simpl. rewrite app_nil_r. auto.
  - left. destruct (hash_at key (with_faults fs w)); eexists; (split; [reflexivity |]);
      simpl; rewrite app_nil_r; auto.
Qed.

(** Whatever the connection does, [set_task_status] returns normally,
    sleeps nowhere and leaves the queues alone. *)
Lemma set_task_status_total (w : world) (task_id : json) (status : ProcessingStatus)
    (result : option pydict) :
  ∃ w' evs,
    set_task_status task_id status result w = (Ok tt, w') ∧
    extends w w' evs ∧ quiet evs = true.
Proof.
  unfold set_task_status, try_except, except_Exception. unfold bind at 1. unfold now.
  set (key := "task:" +:+ py_str task_id).
  set (mapping := match result with Some (x :: r) => _ | _ => _ end).
  clearbody mapping key.
  destruct (HSET_cases key mapping w) as [(w1 & E1 & X1) | (w1 & e & E1 & He & X1)].
  - rewrite (bind_ok _ _ _ _ _ E1).
    destruct (EXPIRE_cases key 3600 w1) as [(w2 & E2 & X2) | (w2 & e & E2 & He & X2)];
      rewrite E2.
    + exists w2, ([EvHset key mapping] ++ []). split; [reflexivity |].
      split; [eapply extends_trans; eauto | reflexivity].
    + rewrite He. unfold bind, log_error, modify.
      eexists _, (([EvHset key mapping] ++ []) ++ [EvLogError _]).
      split; [reflexivity |]. split; [| reflexivity].
      eapply extends_trans; [eapply extends_trans; eauto |].
      repeat split; reflexivity.
  - rewrite (bind_raise _ _ _ _ _ E1), He. unfold bind, log_error, modify.
    eexists _, ([] ++ [EvLogError _]). split; [reflexivity |]. split; [| reflexivity].
    eapply extends_trans; [eauto |]. repeat split; reflexivity.
Qed.

Lemma follows_trans (w1 w2 w3 : world) (evs1 evs2 : list event) :
  follows w1 w2 evs1 → follows w2 w3 evs2 → follows w1 w3 (evs1 ++ evs2).
Proof.
  intros (Ht1 & Hz1 & Hr1) (Ht2 & Hz2 & Hr2).
  unfold follows. rewrite Ht2, Ht1, Hz2, Hr2, app_assoc. auto.
Qed.

Lemma extends_follows (w w' : world) (evs : list event) :
  extends w w' evs → follows w w' evs.
Proof. intros (Ht & _ & Hz & Hr). repeat split; assumption. Qed.

Lemma follows_advance (w : world) (d : Z) : follows w (advance d w) [].
Proof. unfold follows. simpl. rewrite app_nil_r. auto. Qed.

Lemma follows_emit (w : world) (ev : event) : follows w (emit ev w) [ev].
Proof. repeat split; reflexivity. Qed.

Lemma quiet_app (evs1 evs2 : list event) :
  quiet (evs1 ++ evs2) = quiet evs1 && quiet evs2.
Proof. unfold quiet. apply forallb_app. Qed.

(** [_process_task] on a dict, whatever the connection does: it sleeps
    nowhere, leaves the queues alone, and the only exceptions that leave
    it are those outside the [Exception] family that the processor
    raised. *)
Lemma process_task_total (w : world) (worker_id : string) (d : pydict) :
  ∃ res w' evs,
    process_task worker_id (JDict d) w = (res, w') ∧
    follows w w' evs ∧ quiet evs = true ∧
    match res with
    | Ok _ => True
    | Raise e =>
        is_Exception e = false ∧
        ∃ ty, task_type_of_value (task_type_of d) = Some ty ∧
              (awaited (PROCESSING_TIMEOUT settings) (processor_of ty (JDict d))).2 =
              Raises e
    end.
Proof.
  unfold _process_task, py_get, py_get_default. rewrite !bind_ret.
  fold (task_id_of d) (task_type_of d). set (tid := task_id_of d).
  destruct (set_task_status_total w tid PROCESSING None) as (w1 & evs1 & E1 & X1 & Q1).
  apply extends_follows in X1.
  unfold try_except. rewrite (bind_ok _ _ _ _ _ E1). unfold TaskType_of.
  destruct (task_type_of_value (task_type_of d)) as [ty|] eqn:Hty.
  - rewrite bind_ret, handlers_get_total. unfold bind at 1. unfold now at 1.
    unfold bind at 1. rewrite wait_for_awaited.
    set (w2 := advance _ w1).
    pose proof (follows_advance w1
      (awaited (PROCESSING_TIMEOUT settings) (processor_of ty (JDict d))).1) as X2.
    fold w2 in X2.
    destruct ((awaited (PROCESSING_TIMEOUT settings) (processor_of ty (JDict d))).2)
      as [v | e] eqn:Hc.
    + unfold bind at 1. unfold now at 1.
      match goal with
      | |- context [set_task_status tid COMPLETED ?r w2] =>
          destruct (set_task_status_total w2 tid COMPLETED r) as (w3 & evs3 & E3 & X3 & Q3)
      end.
      rewrite E3. exists (Ok tt), w3, ((evs1 ++ []) ++ evs3).
      split; [reflexivity |]. split.
      * eapply follows_trans; [eapply follows_trans; eauto |].
        apply extends_follows; eassumption.
      * rewrite !quiet_app, Q1, Q3. auto.
    + destruct (is_TimeoutError e) eqn:Etime;
        [| unfold except_Exception; destruct (is_Exception e) eqn:Eexc].
      * unfold bind, log_error, modify.
        match goal with
        | |- context [set_task_status tid FAILED ?r ?x] =>
            destruct (set_task_status_total x tid FAILED r) as (w3 & evs3 & E3 & X3 & Q3)
        end.
        rewrite E3. eexists (Ok tt), w3, (((evs1 ++ []) ++ [_]) ++ evs3).
        split; [reflexivity |]. split.
        -- eapply follows_trans;
             [eapply follows_trans; [eapply follows_trans; eauto | apply follows_emit] |].
           apply extends_follows; eassumption.
        -- rewrite !quiet_app, Q1, Q3. auto.
      * unfold bind, log_error, modify.
        match goal with
        | |- context [set_task_status tid FAILED ?r ?x] =>
            destruct (set_task_status_total x tid FAILED r) as (w3 & evs3 & E3 & X3 & Q3)
        end.
        rewrite E3. eexists (Ok tt), w3, (((evs1 ++ []) ++ [_]) ++ evs3).
        split; [reflexivity |]. split.
        -- eapply follows_trans;
             [eapply follows_trans; [eapply follows_trans; eauto | apply follows_emit] |].
           apply extends_follows; eassumption.
        -- rewrite !quiet_app, Q1, Q3. auto.
      * exists (Raise e), w2, (evs1 ++ []). split; [reflexivity |].
        split; [eapply follows_trans; eauto |].
        split; [rewrite quiet_app, Q1; reflexivity |].
        split; [assumption |]. exists ty. auto.
  - unfold bind at 1. unfold raise at 1. cbn [is_TimeoutError exn_cls].
    unfold except_Exception. cbn [is_Exception exn_cls exn_str].
    unfold bind, log_error, modify.
    match goal with
    | |- context [set_task_status tid FAILED ?r ?x] =>
        destruct (set_task_status_total x tid FAILED r) as (w3 & evs3 & E3 & X3 & Q3)
    end.
    rewrite E3. eexists (Ok tt), w3, ((evs1 ++ [_]) ++ evs3).
    split; [reflexivity |]. split.
    + eapply follows_trans; [eapply follows_trans; [eauto | apply follows_emit] |].
      apply extends_follows; eassumption.
    + rewrite !quiet_app, Q1, Q3. auto.
Qed.

Lemma iteration_dequeue_fault (w : world) (worker_id q : string) (msg : string)
    (fs : list (option string)) :
  faults w = Some msg :: fs →
  iteration worker_id q w =
  (Ok Continue,
   emit (EvSleep 1)
     (with_clock (clock w + 1)
        (emit (EvLogError ("Failed to dequeue task: " +:+ msg)) (with_faults fs w)))).
Proof.
  intros Hf.
  unfold worker_iteration, dequeue_task, try_except, except_Exception, bind,
    ZPOPMIN, redis_command, log_error, modify, sleep, ret.
  rewrite Hf. reflexivity.
Qed.

(** A turn of the loop under store errors. *)
Lemma iteration_under_store_errors (w : world) (worker_id q : string)
    (m : string) (s : Z) (z : zset) (d : pydict) :
  queue_of q w = (m, s) :: z → loads m = Some (JDict d) → d ≠ [] →
  (∀ ty e, task_type_of_value (task_type_of d) = Some ty →
           finish (processor_of ty (JDict d)) = Raises e → is_Exception e = true) →
  ∃ w' evs,
    iteration worker_id q w = (Ok Continue, w') ∧
    running w' = running w ∧ trace w' = trace w ++ evs ∧
    match faults w with
    | Some msg :: _ =>
        evs = [EvLogError ("Failed to dequeue task: " +:+ msg); EvSleep 1] ∧
        zsets w' = zsets w ∧ hashes w' = hashes w
    | _ => quiet evs = true ∧ queue_of q w' = z
    end.
Proof.
  intros Hz Hl Hd Hproc.
  destruct (faults w) as [|[msg|] fs] eqn:Hf.
  1, 3: rewrite (iteration_claims_task w worker_id q m s z d) by
          (try assumption; unfold healthy; now rewrite Hf);
        set (w0 := with_zsets _ (after_command w));
        destruct (process_task_total w0 worker_id d)
          as (res & w' & evs & E & (Ht & Hzs & Hr) & Q & Hres);
        rewrite E;
        assert (Hq : queue_of q w' = z)
          by (unfold queue_of, zset_at; rewrite Hzs; unfold w0; simpl;
              now rewrite lookup_insert_eq);
        (destruct res as [[] | e];
         [ exists w', evs; repeat split; assumption
         | destruct Hres as (Hexc & ty & Hty & Haw);
           assert (Htrue : is_Exception e = true);
           [ unfold awaited in Haw;
             destruct ((0 <? PROCESSING_TIMEOUT settings) &&
                       (Z.of_N (duration (processor_of ty (JDict d))) <=?
                        PROCESSING_TIMEOUT settings));
             simpl in Haw;
             [ eapply Hproc; eauto | injection Haw as <-; reflexivity ]
           | congruence ] ]).
  rewrite (iteration_dequeue_fault w worker_id q msg fs Hf).
  eexists _, _. split; [reflexivity |]. simpl. rewrite <- app_assoc.
  repeat split; reflexivity.
Qed.

(** C7 (as the code has it). A store error in a worker's turn of the loop
    is caught and logged inside [RedisService] and never ends the loop,
    but no 5-second backoff follows it. When the dequeue fails the error
    is reported as an empty queue and the worker waits the 1 second of
    the empty queue; when the dequeue goes through and later commands
    (the status writes) fail, the turn carries on and waits nowhere. *)
Theorem store_errors_do_not_stop_worker (w : world) (worker_id q : string)
    (m : string) (s : Z) (z : zset) (d : pydict) :
  queue_of q w = (m, s) :: z → loads m = Some (JDict d) → d ≠ [] →
  (∀ ty e, task_type_of_value (task_type_of d) = Some ty →
           finish (processor_of ty (JDict d)) = Raises e → is_Exception e = true) →
  ∃ w' evs,
    iteration worker_id q w = (Ok Continue, w') ∧
    running w' = running w ∧ trace w' = trace w ++ evs ∧
    match faults w with
    | Some msg :: _ =>
        evs = [EvLogError ("Failed to dequeue task: " +:+ msg); EvSleep 1] ∧
        zsets w' = zsets w ∧ hashes w' = hashes w
    | _ => quiet evs = true ∧ queue_of q w' = z
    end ∧
    (running w = true →
     ∀ fuel, worker (S fuel) worker_id q w = worker fuel worker_id q w').
Proof.
  intros Hz Hl Hd Hproc.
  destruct (iteration_under_store_errors w worker_id q m s z d Hz Hl Hd Hproc)
    as (w' & evs & E & Hr & Ht & Hcase).
  exists w', evs. repeat split; try assumption.
  intros Hrun fuel. now apply worker_goes_on.
Qed.

(** *** Submission *)

Lemma task_type_of_value_str (v : json) (ty : TaskType) :
  task_type_of_value v = Some ty → v = JStr (task_type_value ty).
Proof.
  destruct v as [| | |s| |]; try discriminate. unfold task_type_of_value. intros H.
  apply find_some in H as [_ H]. apply String.eqb_eq in H. now subst.
Qed.

(** [submit_task] on a healthy connection, for a task with an id, a known
    type and an integer priority. *)
Lemma submit_task_ok (w : world) (d : pydict) (ty : TaskType) (p : Z) :
  faults w = [] →
  task_type_of_value (task_type_of d) = Some ty →
  truthy (task_id_of d) = true → priority_of d = JInt p →
  ∃ w',
    submit_task (JDict d) w = (Ok (task_id_of d), w') ∧
    faults w' = [] ∧ clock w' = clock w ∧ running w' = running w ∧
    trace w' =
      trace w ++
      [EvHset (task_key (task_id_of d)) (status_mapping PENDING None (clock w))] ∧
    record_of (task_id_of d) w' =
      hset_mapping (status_mapping PENDING None (clock w)) (record_of (task_id_of d) w) ∧
    queue_of (task_type_value ty) w' =
      zadd (dumps (JDict d)) (- p) (queue_of (task_type_value ty) w).
Proof.
  intros Hf Hty Hid Hp.
  pose proof (task_type_of_value_str _ _ Hty) as Hstr.
  unfold submit_task, py_get, py_get_default. rewrite !bind_ret.
  fold (task_id_of d) (task_type_of d) (priority_of d).
  rewrite Hid, Hty, Hp.
  assert (truthy (task_type_of d) = true) as ->
    by (rewrite Hstr; destruct ty; reflexivity).
  cbn [negb orb].
  destruct (set_task_status_ok w (task_id_of d) PENDING None Hf)
    as (w1 & E1 & Hf1 & Hc1 & Hz1 & Hr1 & Ht1 & Hrec1 & _).
  rewrite (bind_ok _ _ _ _ _ E1).
  rewrite (bind_ok _ _ _ _ _ (enqueue_task_ok w1 _ _ _ Hf1)).
  rewrite Hstr. cbn [py_str].
  eexists. split; [reflexivity |].
  cbn [faults clock running trace with_zsets].
  repeat split; try assumption.
  unfold queue_of at 1. rewrite zset_at_insert.
  unfold queue_of, zset_at. now rewrite Hz1.
Qed.

Lemma status_writes_one (key : string) (status : ProcessingStatus)
    (result : option pydict) (t : Z) :
  status_writes key [EvHset key (status_mapping status result t)] =
  [status_value status].
Proof. unfold status_writes. simpl. now rewrite String.eqb_refl. Qed.

Lemma terminal_write_cases (worker_id : string) (task_id : json) (c : completion)
    (elapsed : Z) :
  (∀ e, c = Raises e → is_Exception e = true) →
  ∃ status x r logged,
    terminal_write worker_id task_id c elapsed = Some (status, x :: r, logged) ∧
    (status = COMPLETED ∨ status = FAILED) ∧
    ∀ key, status_writes key logged = [].
Proof.
  intros H. destruct c as [v | e]; simpl.
  - eexists _, _, _, _. split; [reflexivity |]. auto.
  - rewrite (H e eq_refl). destruct (is_TimeoutError e);
      eexists _, _, _, _; (split; [reflexivity |]); auto.
Qed.

(** C8 (as the code has it). [set_task_status] overwrites the record
    whatever it held. On one pass of a task through the service the
    statuses written are PENDING by [submit_task], then PROCESSING and
    then COMPLETED or FAILED by the worker; [submit_task] called for a
    task id whose record is COMPLETED or FAILED sets it back to PENDING. *)
Theorem status_writes_of_a_pass (w : world) (d : pydict) (ty : TaskType) (p : Z) :
  faults w = [] →
  task_type_of_value (task_type_of d) = Some ty →
  truthy (task_id_of d) = true → priority_of d = JInt p →
  (∀ e, finish (processor_of ty (JDict d)) = Raises e → is_Exception e = true) →
  ∃ w1,
    submit_task (JDict d) w = (Ok (task_id_of d), w1) ∧
    (∃ evs, trace w1 = trace w ++ evs ∧
            status_writes (task_key (task_id_of d)) evs = ["pending"]) ∧
    hash_get "status" (record_of (task_id_of d) w1) = Some "pending" ∧
    ∀ w2 worker_id,
      faults w2 = [] →
      ∃ w3 evs t,
        process_task worker_id (JDict d) w2 = (Ok tt, w3) ∧
        trace w3 = trace w2 ++ evs ∧
        status_writes (task_key (task_id_of d)) evs = ["processing"; t] ∧
        (t = "completed" ∨ t = "failed") ∧
        hash_get "status" (record_of (task_id_of d) w3) = Some t.
Proof.
  intros Hf Hty Hid Hp Hproc.
  destruct (submit_task_ok w d ty p Hf Hty Hid Hp)
    as (w1 & E & _ & _ & _ & Ht & Hrec & _).
  exists w1. split; [exact E |]. split; [| split].
  - eexists. split; [exact Ht |]. apply status_writes_one.
  - rewrite Hrec. apply hash_get_status_mapping.
  - intros w2 worker_id Hf2.
    pose proof (process_task_spec w2 worker_id d ty Hf2 Hty) as Hspec.
    cbv zeta in Hspec.
    destruct (terminal_write_cases worker_id (task_id_of d)
                (awaited (PROCESSING_TIMEOUT settings) (processor_of ty (JDict d))).2
                (awaited (PROCESSING_TIMEOUT settings) (processor_of ty (JDict d))).1)
      as (status & x & r & logged & Hterm & Hstatus & Hlog).
    { intros e He. unfold awaited in He.
      destruct ((0 <? PROCESSING_TIMEOUT settings) &&
                (Z.of_N (duration (processor_of ty (JDict d))) <=?
                 PROCESSING_TIMEOUT settings));
        simpl in He; [now apply Hproc | injection He as <-; reflexivity]. }
    rewrite Hterm in Hspec.
    destruct Hspec as (w3 & h & E3 & _ & _ & _ & _ & Ht3 & Hrec3).
    exists w3. eexists. exists (status_value status).
    split; [exact E3 |]. split; [exact Ht3 |]. split; [| split].
    + unfold status_writes. rewrite !omap_app.
      fold (status_writes (task_key (task_id_of d)) logged). rewrite Hlog.
      simpl. now rewrite String.eqb_refl.
    + destruct Hstatus as [-> | ->]; auto.
    + rewrite Hrec3. apply hash_get_status_mapping.
Qed.

End Worker.

(** ** I. Sample runs *)



Lemma processor_exception_marks_failed_witness :
  faults world_one_task = [] ∧
  queue_of "ocr_extraction" world_one_task = [(dumps (ocr_task "t-1" 5), - 5)] ∧
  loads (dumps (ocr_task "t-1" 5)) = Some (JDict (ocr_fields "t-1" 5)) ∧
  task_type_of_value (task_type_of (ocr_fields "t-1" 5)) = Some OCR_EXTRACTION ∧
  finish (ocr_handler_of (failing_ocr image_unreadable) OCR_EXTRACTION
            (JDict (ocr_fields "t-1" 5))) = Raises image_unreadable ∧
  0 < PROCESSING_TIMEOUT default_settings ∧
  Z.of_N (duration (ocr_handler_of (failing_ocr image_unreadable) OCR_EXTRACTION
                      (JDict (ocr_fields "t-1" 5)))) ≤
    PROCESSING_TIMEOUT default_settings ∧
  is_Exception image_unreadable = true ∧ is_TimeoutError image_unreadable = false ∧
  ∃ w' rec,
    ocr_worker (failing_ocr image_unreadable) world_one_task = (Ok Continue, w') ∧
    running w' = running world_one_task ∧
    get_task_result (task_id_of (ocr_fields "t-1" 5)) w' = (Ok (Some rec), w') ∧
    dict_get "status" rec = Some (JStr "failed") ∧
    dict_get "result" rec = Some (JDict [("error", JStr (exn_str image_unreadable))]) ∧
    recorded_error rec = Some (JStr (exn_str image_unreadable)) ∧
    recorded_result rec = None ∧
    (running world_one_task = true →
     ∀ fuel, ocr_loop (failing_ocr image_unreadable) (S fuel) world_one_task =
             ocr_loop (failing_ocr image_unreadable) fuel w').
Proof.
  assert (H1 : faults world_one_task = []) by reflexivity.
  assert (H2 : queue_of "ocr_extraction" world_one_task =
               [(dumps (ocr_task "t-1" 5), - 5)]) by (vm_compute; reflexivity).
  assert (H3 : loads (dumps (ocr_task "t-1" 5)) = Some (JDict (ocr_fields "t-1" 5)))
    by (vm_compute; reflexivity).
  assert (H4 : task_type_of_value (task_type_of (ocr_fields "t-1" 5)) =
               Some OCR_EXTRACTION) by reflexivity.
  assert (H5 : finish (ocr_handler_of (failing_ocr image_unreadable) OCR_EXTRACTION
                         (JDict (ocr_fields "t-1" 5))) = Raises image_unreadable)
    by reflexivity.
  assert (H6 : 0 < PROCESSING_TIMEOUT default_settings) by reflexivity.
  assert (H7 : Z.of_N (duration (ocr_handler_of (failing_ocr image_unreadable)
                                   OCR_EXTRACTION (JDict (ocr_fields "t-1" 5)))) ≤
               PROCESSING_TIMEOUT default_settings) by (simpl; lia).
  assert (H8 : is_Exception image_unreadable = true) by reflexivity.
  assert (H9 : is_TimeoutError image_unreadable = false) by reflexivity.
  split; [assumption |]. split; [assumption |]. split; [assumption |].
  split; [assumption |]. split; [assumption |]. split; [assumption |].
  split; [assumption |]. split; [assumption |]. split; [assumption |].
  exact (processor_exception_marks_failed default_settings (returns_after 1 JNull)
           (failing_ocr image_unreadable)
           (returns_after 1 JNull) (returns_after 1 JNull) (returns_after 1 JNull)
           world_one_task "ocr_extraction_0" "ocr_extraction"
           (dumps (ocr_task "t-1" 5)) (- 5) [] (ocr_fields "t-1" 5) OCR_EXTRACTION
           image_unreadable H1 H2 H3 H4 H5 H6 H7 H8 H9).
Defined.

(** C6, as stated, fails: a processor that raises an exception without a
    message leaves a FAILED record whose error is the empty string. *)
Lemma empty_error_counterexample :
  ∃ rec,
    ((ocr_worker (failing_ocr bare_exception);; get_task_result (JStr "t-1"))
       world_one_task).1 = Ok (Some rec) ∧
    dict_get "status" rec = Some (JStr "failed") ∧
    recorded_error rec = Some (JStr "") ∧
    ¬ (∃ msg, recorded_error rec = Some (JStr msg) ∧ msg ≠ "").
Proof.
  eexists. split; [vm_compute; reflexivity |].
  split; [vm_compute; reflexivity |]. split; [vm_compute; reflexivity |].
  intros (msg & H & Hne). vm_compute in H. injection H as <-. now apply Hne.
Qed.

(** A processor that returns: the record holds its result and the
    processing time. *)
Example completed_record :
  ∃ rec,
    ((ocr_worker (returns_after 7 (JDict [("text", JStr "StepFlow")]));;
      get_task_result (JStr "t-1")) world_one_task).1 = Ok (Some rec) ∧
    dict_get "status" rec = Some (JStr "completed") ∧
    recorded_result rec = Some (JDict [("text", JStr "StepFlow")]) ∧
    recorded_processing_time rec = Some (JInt 7) ∧
    recorded_error rec = None.
Proof.
  eexists. split; [vm_compute; reflexivity |].
  repeat split; vm_compute; reflexivity.
Qed.

Lemma store_errors_do_not_stop_worker_witness :
  queue_of "ocr_extraction" world_status_write_fails =
    [(dumps (ocr_task "t-1" 5), - 5)] ∧
  loads (dumps (ocr_task "t-1" 5)) = Some (JDict (ocr_fields "t-1" 5)) ∧
  ocr_fields "t-1" 5 ≠ [] ∧
  (∀ ty e,
     task_type_of_value (task_type_of (ocr_fields "t-1" 5)) = Some ty →
     finish (ocr_handler_of (returns_after 7 JNull) ty (JDict (ocr_fields "t-1" 5))) =
       Raises e →
     is_Exception e = true) ∧
  ∃ w' evs,
    ocr_worker (returns_after 7 JNull) world_status_write_fails = (Ok Continue, w') ∧
    running w' = running world_status_write_fails ∧
    trace w' = trace world_status_write_fails ++ evs ∧
    match faults world_status_write_fails with
    | Some msg :: _ =>
        evs = [EvLogError ("Failed to dequeue task: " +:+ msg); EvSleep 1] ∧
        zsets w' = zsets world_status_write_fails ∧
        hashes w' = hashes world_status_write_fails
    | _ => quiet evs = true ∧ queue_of "ocr_extraction" w' = []
    end ∧
    (running world_status_write_fails = true →
     ∀ fuel, ocr_loop (returns_after 7 JNull) (S fuel) world_status_write_fails =
             ocr_loop (returns_after 7 JNull) fuel w').
Proof.
  assert (H1 : queue_of "ocr_extraction" world_status_write_fails =
               [(dumps (ocr_task "t-1" 5), - 5)]) by (vm_compute; reflexivity).
  assert (H2 : loads (dumps (ocr_task "t-1" 5)) = Some (JDict (ocr_fields "t-1" 5)))
    by (vm_compute; reflexivity).
  assert (H3 : ocr_fields "t-1" 5 ≠ []) by discriminate.
  assert (H4 : ∀ ty e,
             task_type_of_value (task_type_of (ocr_fields "t-1" 5)) = Some ty →
             finish (ocr_handler_of (returns_after 7 JNull) ty
                       (JDict (ocr_fields "t-1" 5))) = Raises e →
             is_Exception e = true)
    by (intros [] e _ H; discriminate H).
  split; [assumption |]. split; [assumption |]. split; [assumption |].
  split; [assumption |].
  exact (store_errors_do_not_stop_worker default_settings (returns_after 1 JNull)
           (returns_after 7 JNull)
           (returns_after 1 JNull) (returns_after 1 JNull) (returns_after 1 JNull)
           world_status_write_fails "ocr_extraction_0" "ocr_extraction"
           (dumps (ocr_task "t-1" 5)) (- 5) [] (ocr_fields "t-1" 5) H1 H2 H3 H4).
Defined.

(** C7, as stated, fails: with the connection down at the dequeue the
    worker logs the error and waits 1 second; no wait of 5 seconds is in
    the trace. *)
Lemma store_error_backoff_counterexample :
  (ocr_worker slow_ocr world_store_down).1 = Ok Continue ∧
  trace (ocr_worker slow_ocr world_store_down).2 =
    trace world_store_down ++
    [EvLogError
       "Failed to dequeue task: Error 111 connecting to localhost:6379. Connection refused.";
     EvSleep 1] ∧
  ¬ In (EvSleep 5) (trace (ocr_worker slow_ocr world_store_down).2).
Proof.
  split; [vm_compute; reflexivity |]. split; [vm_compute; reflexivity |].
  vm_compute. intros H.
  repeat (destruct H as [H | H]; [discriminate H |]). exact H.
Qed.

(** Where the 5 seconds are reached: an exception that leaves
    [_process_task], here for a payload that is not a dict. *)
Example backoff_on_escaping_exception :
  trace (((ZADD "queue:ocr_extraction" "[1]" (- 1));;
          ocr_worker slow_ocr) initial_world).2 =
  [EvLogError "Worker ocr_extraction_0 error: 'list' object has no attribute 'get'";
   EvSleep 5].
Proof. vm_compute. reflexivity. Qed.

Lemma status_writes_of_a_pass_witness :
  faults initial_world = [] ∧
  task_type_of_value (task_type_of (ocr_fields "t-1" 5)) = Some OCR_EXTRACTION ∧
  truthy (task_id_of (ocr_fields "t-1" 5)) = true ∧
  priority_of (ocr_fields "t-1" 5) = JInt 5 ∧
  (∀ e, finish (ocr_handler_of quick_ocr OCR_EXTRACTION (JDict (ocr_fields "t-1" 5))) =
          Raises e → is_Exception e = true) ∧
  ∃ w1,
    submit_task (JDict (ocr_fields "t-1" 5)) initial_world =
      (Ok (task_id_of (ocr_fields "t-1" 5)), w1) ∧
    (∃ evs, trace w1 = trace initial_world ++ evs ∧
            status_writes (task_key (task_id_of (ocr_fields "t-1" 5))) evs = ["pending"]) ∧
    hash_get "status" (record_of (task_id_of (ocr_fields "t-1" 5)) w1) = Some "pending" ∧
    ∀ w2 worker_id,
      faults w2 = [] →
      ∃ w3 evs t,
        _process_task default_settings (returns_after 1 JNull) quick_ocr
          (returns_after 1 JNull) (returns_after 1 JNull) (returns_after 1 JNull)
          worker_id (JDict (ocr_fields "t-1" 5)) w2 = (Ok tt, w3) ∧
        trace w3 = trace w2 ++ evs ∧
        status_writes (task_key (task_id_of (ocr_fields "t-1" 5))) evs =
          ["processing"; t] ∧
        (t = "completed" ∨ t = "failed") ∧
        hash_get "status" (record_of (task_id_of (ocr_fields "t-1" 5)) w3) = Some t.
Proof.
  assert (H1 : faults initial_world = []) by reflexivity.
  assert (H2 : task_type_of_value (task_type_of (ocr_fields "t-1" 5)) =
               Some OCR_EXTRACTION) by reflexivity.
  assert (H3 : truthy (task_id_of (ocr_fields "t-1" 5)) = true) by reflexivity.
  assert (H4 : priority_of (ocr_fields "t-1" 5) = JInt 5) by reflexivity.
  assert (H5 : ∀ e, finish (ocr_handler_of quick_ocr OCR_EXTRACTION
                              (JDict (ocr_fields "t-1" 5))) = Raises e →
                    is_Exception e = true) by (intros e H; discriminate H).
  split; [assumption |]. split; [assumption |]. split; [assumption |].
  split; [assumption |]. split; [assumption |].
  exact (status_writes_of_a_pass default_settings (returns_after 1 JNull) quick_ocr
           (returns_after 1 JNull) (returns_after 1 JNull) (returns_after 1 JNull)
           initial_world (ocr_fields "t-1" 5) OCR_EXTRACTION 5 H1 H2 H3 H4 H5).
Defined.

(** C8, as stated, fails: a task is submitted and processed to COMPLETED;
    submitted again under the same id, its record is back at PENDING. *)
Lemma resubmit_reverts_completed_counterexample :
  ∃ before after,
    ((submit_task (ocr_task "t-1" 5);;
      ocr_worker quick_ocr;;
      let* before := status_seen (JStr "t-1") in
      submit_task (ocr_task "t-1" 5);;
      let* after := status_seen (JStr "t-1") in
      ret (before, after)) initial_world).1 = Ok (before, after) ∧
    before = Some (JStr "completed") ∧ after = Some (JStr "pending") ∧
    terminal_status before ∧ ¬ terminal_status after.
Proof.
  eexists _, _. split; [vm_compute; reflexivity |].
  split; [reflexivity |]. split; [reflexivity |]. split.
  - now left.
  - intros [H | H]; discriminate H.
Qed.

(** ** J. Validation at submission *)

(** The half of C4 that holds: a task without a type or an id, or of a
    type that is not a [TaskType], is refused with a [ValueError] before
    anything is written. *)
Lemma submit_task_rejects_bad_type (w : world) (d : pydict) :
  truthy (task_type_of d) = false ∨ truthy (task_id_of d) = false ∨
  task_type_of_value (task_type_of d) = None →
  ∃ msg, submit_task (JDict d) w = (Raise (Exn ValueError msg), w).
Proof.
  intros H. unfold submit_task, py_get, py_get_default. rewrite !bind_ret.
  fold (task_id_of d) (task_type_of d).
  destruct (truthy (task_type_of d)) eqn:Ht; [| eexists; reflexivity].
  destruct (truthy (task_id_of d)) eqn:Hi; [| eexists; reflexivity].
  destruct H as [H | [H | H]]; try discriminate.
  cbn [negb orb]. rewrite H. eexists. reflexivity.
Qed.

(** C4, where the code departs from it: [submit_task] does not look at
    the range of the priority. A task of a known type with a priority
    outside 1..10 is accepted: its record is set to PENDING and it is
    enqueued, the queue growing by one. *)
Theorem submit_task_ignores_priority_range (w : world) (d : pydict) (ty : TaskType)
    (p : Z) :
  faults w = [] → zset_wf (queue_of (task_type_value ty) w) = true →
  existsb (String.eqb (dumps (JDict d))) (map fst (queue_of (task_type_value ty) w))
    = false →
  task_type_of_value (task_type_of d) = Some ty →
  truthy (task_id_of d) = true → priority_of d = JInt p →
  priority_in_range p = false → Z.abs p ≤ 2 ^ 53 →
  ∃ w',
    submit_task (JDict d) w = (Ok (task_id_of d), w') ∧
    pending (task_type_value ty) (JDict d) p w' ∧
    (get_queue_size (task_type_value ty) w').1 =
      Ok (S (zcard (queue_of (task_type_value ty) w))) ∧
    hash_get "status" (record_of (task_id_of d) w') = Some "pending".
Proof.
  intros Hf Hw Hnew Hty Hid Hp _ _.
  destruct (submit_task_ok w d ty p Hf Hty Hid Hp)
    as (w' & E & Hf' & _ & _ & _ & Hrec & Hq).
  exists w'. split; [exact E |]. split; [| split].
  - unfold pending. rewrite Hq. apply zadd_elem. now left.
  - rewrite get_queue_size_ok by assumption. simpl.
    now rewrite Hq, zadd_card, Hnew.
  - rewrite Hrec. apply hash_get_status_mapping.
Qed.

Lemma submit_task_ignores_priority_range_witness :
  faults initial_world = [] ∧
  zset_wf (queue_of (task_type_value OCR_EXTRACTION) initial_world) = true ∧
  existsb (String.eqb (dumps (JDict (ocr_fields "t-11" 11))))
    (map fst (queue_of (task_type_value OCR_EXTRACTION) initial_world)) = false ∧
  task_type_of_value (task_type_of (ocr_fields "t-11" 11)) = Some OCR_EXTRACTION ∧
  truthy (task_id_of (ocr_fields "t-11" 11)) = true ∧
  priority_of (ocr_fields "t-11" 11) = JInt 11 ∧
  priority_in_range 11 = false ∧ Z.abs 11 ≤ 2 ^ 53 ∧
  ∃ w',
    submit_task (JDict (ocr_fields "t-11" 11)) initial_world =
      (Ok (task_id_of (ocr_fields "t-11" 11)), w') ∧
    pending (task_type_value OCR_EXTRACTION) (JDict (ocr_fields "t-11" 11)) 11 w' ∧
    (get_queue_size (task_type_value OCR_EXTRACTION) w').1 =
      Ok (S (zcard (queue_of (task_type_value OCR_EXTRACTION) initial_world))) ∧
    hash_get "status" (record_of (task_id_of (ocr_fields "t-11" 11)) w') = Some "pending".
Proof.
  assert (H1 : faults initial_world = []) by reflexivity.
  assert (H2 : zset_wf (queue_of (task_type_value OCR_EXTRACTION) initial_world) = true)
    by reflexivity.
  assert (H3 : existsb (String.eqb (dumps (JDict (ocr_fields "t-11" 11))))
                 (map fst (queue_of (task_type_value OCR_EXTRACTION) initial_world))
               = false) by reflexivity.
  assert (H4 : task_type_of_value (task_type_of (ocr_fields "t-11" 11)) =
               Some OCR_EXTRACTION) by reflexivity.
  assert (H5 : truthy (task_id_of (ocr_fields "t-11" 11)) = true) by reflexivity.
  assert (H6 : priority_of (ocr_fields "t-11" 11) = JInt 11) by reflexivity.
  assert (H7 : priority_in_range 11 = false) by reflexivity.
  assert (H8 : Z.abs 11 ≤ 2 ^ 53) by (vm_compute; discriminate).
  split; [assumption |]. split; [assumption |]. split; [assumption |].
  split; [assumption |]. split; [assumption |]. split; [assumption |].
  split; [assumption |]. split; [assumption |].
  exact (submit_task_ignores_priority_range initial_world (ocr_fields "t-11" 11)
           OCR_EXTRACTION 11 H1 H2 H3 H4 H5 H6 H7 H8).
Defined.

Example submit_priority_11 :
  ((submit_task (ocr_task "t-11" 11);;
    let* size := get_queue_size "ocr_extraction" in
    let* status := status_seen (JStr "t-11") in
    ret (size, status)) initial_world).1 =
  Ok (1%nat, Some (JStr "pending")).
Proof. vm_compute. reflexivity. Qed.

Example submit_unknown_type :
  submit_task (JDict [("task_id", JStr "t-2"); ("task_type", JStr "translation");
                      ("priority", JInt 5)]) initial_world =
  (Raise (Exn ValueError "Invalid task type: translation"), initial_world).
Proof. reflexivity. Qed.

(** ** K. Status records: expiry, absence, merged fields *)

(** The store after [HSET] and [EXPIRE] went through: the hash and the
    time it runs out. *)
Lemma hset_expire_store (w : world) (key : string) (mapping : hash) :
  faults w = [] → mapping ≠ [] →
  ∃ w',
    (HSET key mapping;; EXPIRE key 3600) w = (Ok tt, w') ∧
    faults w' = [] ∧ clock w' = clock w ∧
    hashes w' !! key = Some (hset_mapping mapping (hash_at key w)) ∧
    expiry w' !! key = Some (clock w + 3600).
Proof.
  intros Hf Hm.
  pose proof (hset_mapping_nonempty mapping (hash_at key w) Hm) as Hne.
  unfold bind, HSET, EXPIRE, redis_command. rewrite Hf.
  set (h := hset_mapping mapping (hash_at key w)) in *.
  set (w1 := emit (EvHset key mapping) _).
  assert (Hf1 : faults w1 = []) by (unfold w1; destruct (expired key w); exact Hf).
  assert (Hc1 : clock w1 = clock w) by (unfold w1; destruct (expired key w); reflexivity).
  assert (Hraw : hashes w1 !! key = Some h).
  { unfold w1. destruct (expired key w); simpl; now rewrite lookup_insert_eq. }
  assert (Hh : hash_at key w1 = h).
  { unfold w1, hash_at, expired. destruct (expiry w !! key) as [t|] eqn:Et.
    - destruct (t <=? clock w) eqn:Ht; simpl.
      + now rewrite lookup_delete_eq, lookup_insert_eq.
      + now rewrite Et, Ht, lookup_insert_eq.
    - simpl. now rewrite Et, lookup_insert_eq. }
  rewrite Hf1, Hh. clearbody w1 h.
  destruct h as [|fv h']; [contradiction |].
  eexists. split; [reflexivity |].
  cbn [faults clock hashes expiry with_expiry].
  rewrite lookup_insert_eq, Hc1. auto.
Qed.

Lemma set_task_status_store (w : world) (task_id : json) (status : ProcessingStatus)
    (result : option pydict) :
  faults w = [] →
  ∃ w',
    set_task_status task_id status result w = (Ok tt, w') ∧
    faults w' = [] ∧ clock w' = clock w ∧
    hashes w' !! task_key task_id =
      Some (hset_mapping (status_mapping status result (clock w)) (record_of task_id w)) ∧
    expiry w' !! task_key task_id = Some (clock w + 3600).
Proof.
  intros Hf.
  destruct (hset_expire_store w (task_key task_id)
              (status_mapping status result (clock w)) Hf
              (status_mapping_nonempty _ _ _))
    as (w' & E & Hf' & Hc & Hh & Hx).
  exists w'. split; [| auto].
  unfold set_task_status, try_except. unfold bind at 1. unfold now.
  fold (task_key task_id).
  assert (Hm : match result with
               | Some (x :: r) =>
                   [("status", status_value status); ("updated_at", dumps_int (clock w))] ++
                   [("result", dumps (JDict (x :: r)))]
               | _ => [("status", status_value status); ("updated_at", dumps_int (clock w))]
               end = status_mapping status result (clock w))
    by (destruct result as [[|x r]|]; reflexivity).
  rewrite Hm, E. reflexivity.
Qed.

(** The record of a task [d] time units after its last write. *)
Lemma record_of_advance (w : world) (task_id : json) (h : hash) (t d : Z) :
  hashes w !! task_key task_id = Some h →
  expiry w !! task_key task_id = Some (t + 3600) → clock w = t →
  record_of task_id (advance d w) = if d <? 3600 then h else [].
Proof.
  intros Hh Hx Hc. unfold record_of, hash_at, expired, advance. simpl.
  rewrite Hx, Hh, Hc. simpl.
  destruct (d <? 3600) eqn:Hd.
  - assert ((t + 3600 <=? t + d) = false) as -> by lia. reflexivity.
  - assert ((t + 3600 <=? t + d) = true) as -> by lia. reflexivity.
Qed.

Lemma get_task_status_absent (w : world) (task_id : json) :
  healthy w = true → record_of task_id w = [] →
  get_task_status task_id w = (Ok None, after_command w).
Proof.
  intros Hh Hrec. unfold get_task_status, try_except, HGETALL, redis_command.
  unfold bind at 1. fold (task_key task_id). unfold healthy in Hh.
  unfold after_command.
  destruct (faults w) as [|[msg|] fs] eqn:Hf; [| discriminate |].
  - unfold record_of in Hrec. rewrite Hrec. cbn.
    destruct w; simpl in *; now subst.
  - assert (Hrec' : hash_at (task_key task_id) (with_faults fs w) = [])
      by exact Hrec.
    rewrite Hrec'. reflexivity.
Qed.

(** X1. A status record lives for 3600 time units from its last write:
    a query within that window returns it with the status written, a
    query from then on finds nothing. *)
Theorem status_record_ttl (w : world) (task_id : json) (status : ProcessingStatus)
    (result : option pydict) (d : Z) :
  faults w = [] → 0 ≤ d →
  (∀ x r, result = Some (x :: r) → json_wf (JDict (x :: r)) = true) →
  (∀ r, hash_get "result" (record_of task_id w) = Some r → is_Some (loads r)) →
  ∃ w1,
    set_task_status task_id status result w = (Ok tt, w1) ∧
    if d <? 3600 then
      ∃ rec,
        get_task_status task_id (advance d w1) = (Ok (Some rec), advance d w1) ∧
        dict_get "status" rec = Some (JStr (status_value status))
    else
      get_task_status task_id (advance d w1) = (Ok None, advance d w1).
Proof.
  intros Hf Hd Hwf Hold.
  destruct (set_task_status_store w task_id status result Hf)
    as (w1 & E & Hf1 & Hc1 & Hh1 & Hx1).
  exists w1. split; [exact E |].
  pose proof (record_of_advance w1 task_id _ (clock w) d Hh1 Hx1 Hc1) as Hrec.
  assert (Hfl : faults (advance d w1) = []) by exact Hf1.
  destruct (d <? 3600).
  - destruct (hash_get_status_mapping status result (clock w) (record_of task_id w))
      as (Hs & _ & Hr).
    destruct (get_task_status_ok (advance d w1) task_id
                (hash_get "result" (record_of task_id (advance d w1)) ≫= loads) Hfl)
      as (rec & Eg & Es & _).
    + rewrite Hrec. apply hset_mapping_nonempty, status_mapping_nonempty.
    + reflexivity.
    + rewrite Hrec, Hr. intros r0 Hr0.
      destruct result as [[|x r]|]; try (apply Hold; exact Hr0).
      assert (r0 = dumps (JDict (x :: r))) as -> by congruence.
      rewrite (loads_dumps _ (Hwf x r eq_refl)). eauto.
    + exists rec. split; [exact Eg |]. rewrite Es, Hrec, Hs. reflexivity.
  - rewrite (get_task_status_absent _ _ ltac:(unfold healthy; now rewrite Hfl) Hrec).
    now rewrite (after_command_healthy _ Hfl).
Qed.

Lemma status_record_ttl_witness :
  faults initial_world = [] ∧ 0 ≤ 3599 ∧
  (∀ x r, Some [("error", JStr "Task timed out")] = Some (x :: r) →
          json_wf (JDict (x :: r)) = true) ∧
  (∀ r, hash_get "result" (record_of (JStr "t-1") initial_world) = Some r →
        is_Some (loads r)) ∧
  ∃ w1,
    set_task_status (JStr "t-1") FAILED (Some [("error", JStr "Task timed out")])
      initial_world = (Ok tt, w1) ∧
    if 3599 <? 3600 then
      ∃ rec,
        get_task_status (JStr "t-1") (advance 3599 w1) =
          (Ok (Some rec), advance 3599 w1) ∧
        dict_get "status" rec = Some (JStr (status_value FAILED))
    else
      get_task_status (JStr "t-1") (advance 3599 w1) = (Ok None, advance 3599 w1).
Proof.
  assert (H1 : faults initial_world = []) by reflexivity.
  assert (H2 : 0 ≤ 3599) by lia.
  assert (H3 : ∀ x r, Some [("error", JStr "Task timed out")] = Some (x :: r) →
                      json_wf (JDict (x :: r)) = true).
  { intros x r H. injection H as <- <-. reflexivity. }
  assert (H4 : ∀ r, hash_get "result" (record_of (JStr "t-1") initial_world) = Some r →
                    is_Some (loads r)).
  { intros r H. vm_compute in H. discriminate H. }
  split; [exact H1 |]. split; [exact H2 |]. split; [exact H3 |]. split; [exact H4 |].
  exact (status_record_ttl initial_world (JStr "t-1") FAILED
           (Some [("error", JStr "Task timed out")]) 3599 H1 H2 H3 H4).
Defined.

(** X2. A query for a task that has no record, and any query while the
    connection is down, returns [None] and leaves the store as it is:
    an outage cannot be told from an unknown task. *)
Theorem get_task_status_not_found (w : world) (task_id : json) :
  record_of task_id w = [] ∨ healthy w = false →
  ∃ w',
    get_task_status task_id w = (Ok None, w') ∧
    zsets w' = zsets w ∧ hashes w' = hashes w ∧ expiry w' = expiry w ∧
    clock w' = clock w.
Proof.
  intros H. destruct (healthy w) eqn:Hh.
  - destruct H as [Hrec | ?]; [| discriminate].
    rewrite (get_task_status_absent w task_id Hh Hrec).
    eexists. split; [reflexivity |]. auto.
  - clear H. unfold healthy in Hh.
    destruct (faults w) as [|[msg|] fs] eqn:Hf; try discriminate.
    unfold get_task_status, try_except, HGETALL, redis_command.
    unfold bind at 1. rewrite Hf. cbn.
    eexists. split; [reflexivity |]. auto.
Qed.

Lemma get_task_status_not_found_witness :
  (record_of (JStr "t-1") world_store_down = [] ∨ healthy world_store_down = false) ∧
  ∃ w',
    get_task_status (JStr "t-1") world_store_down = (Ok None, w') ∧
    zsets w' = zsets world_store_down ∧ hashes w' = hashes world_store_down ∧
    expiry w' = expiry world_store_down ∧ clock w' = clock world_store_down.
Proof.
  assert (H : record_of (JStr "t-1") world_store_down = [] ∨
              healthy world_store_down = false) by (right; reflexivity).
  split; [exact H |].
  exact (get_task_status_not_found world_store_down (JStr "t-1") H).
Defined.

(** X3. A status write that carries no result (none, or an empty dict)
    leaves the result of an earlier write in the record: a task set back
    to PENDING or PROCESSING still shows the old result. *)
Theorem status_write_keeps_result (w : world) (task_id : json)
    (status : ProcessingStatus) (result : option pydict) (r : string) (v : json) :
  faults w = [] → result = None ∨ result = Some [] →
  hash_get "result" (record_of task_id w) = Some r → loads r = Some v →
  ∃ w' rec,
    set_task_status task_id status result w = (Ok tt, w') ∧
    get_task_status task_id w' = (Ok (Some rec), w') ∧
    dict_get "status" rec = Some (JStr (status_value status)) ∧
    dict_get "result" rec = Some v.
Proof.
  intros Hf Hres Hr Hl.
  destruct (set_task_status_ok w task_id status result Hf)
    as (w' & E & Hf' & _ & _ & _ & _ & Hrec & _).
  destruct (hash_get_status_mapping status result (clock w) (record_of task_id w))
    as (Hs & _ & Hr').
  assert (Hr'' : hash_get "result" (record_of task_id w') = Some r).
  { rewrite Hrec, Hr'. destruct Hres as [-> | ->]; exact Hr. }
  destruct (get_task_status_ok w' task_id (Some v) Hf') as (rec & Eg & Es & _ & Er).
  - rewrite Hrec. apply hset_mapping_nonempty, status_mapping_nonempty.
  - rewrite Hr''. exact Hl.
  - intros r0 Hr0. assert (r0 = r) as -> by congruence. rewrite Hl. eauto.
  - exists w', rec. split; [exact E |]. split; [exact Eg |].
    split; [| exact Er]. rewrite Es, Hrec, Hs. reflexivity.
Qed.

(** ** L. The worker loop: idle turns, cancellation, backoff, draining *)

Lemma quiet_no_sleep (evs : list event) (secs : Z) :
  quiet evs = true → EvSleep secs ∉ evs.
Proof.
  unfold quiet. intros Hq Hin. rewrite forallb_forall in Hq.
  apply list_elem_of_In in Hin. specialize (Hq _ Hin). discriminate Hq.
Qed.

Section WorkerLoop.

Variable settings : Settings.
Variable step_detection_process : json → run.
Variable ocr_process : json → run.
Variable content_generation_process : json → run.
Variable voice_synthesis_process : json → run.
Variable image_analysis_process : json → run.

Local Abbreviation process_task :=
  (_process_task settings step_detection_process ocr_process
     content_generation_process voice_synthesis_process image_analysis_process).
Local Abbreviation iteration :=
  (worker_iteration settings step_detection_process ocr_process
     content_generation_process voice_synthesis_process image_analysis_process).
Local Abbreviation processor_of :=
  (handler_of step_detection_process ocr_process content_generation_process
     voice_synthesis_process image_analysis_process).
Local Abbreviation worker :=
  (_worker settings step_detection_process ocr_process
     content_generation_process voice_synthesis_process image_analysis_process).

(** A turn of the loop on an empty queue. *)
Lemma iteration_idle (w : world) (worker_id q : string) :
  faults w = [] → queue_of q w = [] →
  iteration worker_id q w =
  (Ok Continue, emit (EvSleep 1) (with_clock (clock w + 1) w)).
Proof.
  intros Hf Hq. unfold worker_iteration, try_except.
  rewrite (bind_ok _ _ _ _ _ (dequeue_task_empty w q Hf Hq)). reflexivity.
Qed.

(** X4. On an empty queue the worker polls once a time unit and does
    nothing else: after [n] turns the clock is [n] later, the trace has
    grown by [n] waits of one unit, and the store is as it was. *)
Theorem idle_worker_polls_every_second (n : nat) :
  ∀ (w : world) (worker_id q : string),
    faults w = [] → running w = true → queue_of q w = [] →
    ∃ w',
      worker n worker_id q w = (Ok tt, w') ∧
      clock w' = clock w + Z.of_nat n ∧
      trace w' = trace w ++ replicate n (EvSleep 1) ∧
      zsets w' = zsets w ∧ hashes w' = hashes w ∧ expiry w' = expiry w.
Proof.
  induction n as [|n IH]; intros w worker_id q Hf Hr Hq.
  - exists w. cbn [_worker replicate]. rewrite app_nil_r, Z.add_0_r.
    repeat split; reflexivity.
  - rewrite (worker_goes_on _ _ _ _ _ _ w _ worker_id q n Hr
               (iteration_idle w worker_id q Hf Hq)).
    destruct (IH (emit (EvSleep 1) (with_clock (clock w + 1) w)) worker_id q)
      as (w' & E & Hc & Ht & Hz & Hh & Hx); try assumption.
    exists w'. split; [exact E |].
    rewrite Hc, Ht, Hz, Hh, Hx. cbn [clock trace zsets hashes expiry emit with_clock].
    rewrite <- app_assoc. cbn [replicate app].
    repeat split; try reflexivity. lia.
Qed.

(** [_process_task] when the awaited call ends with an exception that no
    clause of its [try] catches. *)
Lemma process_task_escapes (w : world) (worker_id : string) (d : pydict)
    (ty : TaskType) (e : exn) :
  faults w = [] →
  task_type_of_value (task_type_of d) = Some ty →
  (awaited (PROCESSING_TIMEOUT settings) (processor_of ty (JDict d))).2 = Raises e →
  is_TimeoutError e = false → is_Exception e = false →
  ∃ w1,
    set_task_status (task_id_of d) PROCESSING None w = (Ok tt, w1) ∧
    process_task worker_id (JDict d) w =
    (Raise e,
     advance (awaited (PROCESSING_TIMEOUT settings) (processor_of ty (JDict d))).1 w1).
Proof.
  intros Hf Hty Hc Htime Hexc.
  destruct (set_task_status_ok w (task_id_of d) PROCESSING None Hf) as (w1 & E1 & _).
  exists w1. split; [exact E1 |].
  unfold _process_task, py_get, py_get_default. rewrite !bind_ret.
  fold (task_id_of d) (task_type_of d).
  apply try_except_uncaught.
  - rewrite (bind_ok _ _ _ _ _ E1). unfold TaskType_of. rewrite Hty.
    rewrite bind_ret, handlers_get_total. unfold bind at 1. unfold now at 1.
    unfold bind at 1. rewrite wait_for_awaited, Hc. reflexivity.
  - rewrite Htime. unfold except_Exception. now rewrite Hexc.
Qed.

(** X5. A worker cancelled while it awaits the processor leaves its
    loop at once: the task it had claimed is gone from the queue, no
    terminal status is written, and the record keeps saying
    [processing] for as long as it lives. *)
Theorem cancelled_task_left_processing (w : world) (worker_id q : string)
    (m : string) (s : Z) (z : zset) (d : pydict) (ty : TaskType) (e : exn)
    (fuel : nat) :
  faults w = [] → running w = true →
  queue_of q w = (m, s) :: z → loads m = Some (JDict d) →
  task_type_of_value (task_type_of d) = Some ty →
  finish (processor_of ty (JDict d)) = Raises e → is_CancelledError e = true →
  Z.of_N (duration (processor_of ty (JDict d))) ≤ PROCESSING_TIMEOUT settings →
  0 < PROCESSING_TIMEOUT settings →
  Z.of_N (duration (processor_of ty (JDict d))) < 3600 →
  ∃ w',
    iteration worker_id q w = (Ok Break, w') ∧
    worker (S fuel) worker_id q w = (Ok tt, w') ∧
    queue_of q w' = z ∧
    hash_get "status" (record_of (task_id_of d) w') = Some "processing" ∧
    status_log (drop (length (trace w)) (trace w')) =
      [(task_key (task_id_of d), "processing")].
Proof.
  intros Hf Hr Hq Hl Hty Hfin Hcan Hdur Hpos Hlive.
  pose proof (valid_type_nonempty d ty Hty) as Hd.
  assert (Haw : awaited (PROCESSING_TIMEOUT settings) (processor_of ty (JDict d)) =
                (Z.of_N (duration (processor_of ty (JDict d))), Raises e)).
  { unfold awaited. rewrite Hfin.
    assert ((0 <? PROCESSING_TIMEOUT settings) = true) as -> by lia.
    assert ((Z.of_N (duration (processor_of ty (JDict d))) <=?
             PROCESSING_TIMEOUT settings) = true) as -> by lia.
    reflexivity. }
  assert (Htime : is_TimeoutError e = false)
    by (unfold is_CancelledError, is_TimeoutError in *; destruct (exn_cls e);
        first [discriminate | reflexivity]).
  assert (Hexc : is_Exception e = false)
    by (unfold is_CancelledError, is_Exception in *; destruct (exn_cls e);
        first [discriminate | reflexivity]).
  pose proof (iteration_claims_task settings step_detection_process ocr_process
                content_generation_process voice_synthesis_process
                image_analysis_process w worker_id q m s z d
                ltac:(unfold healthy; now rewrite Hf) Hq Hl Hd) as Hit.
  cbv zeta in Hit. rewrite (after_command_healthy w Hf) in Hit.
  set (w0 := with_zsets (fun zs => <[queue_key q := z]> zs) w) in *.
  assert (Hf0 : faults w0 = []) by exact Hf.
  destruct (process_task_escapes w0 worker_id d ty e Hf0 Hty
              ltac:(rewrite Haw; reflexivity) Htime Hexc) as (w1 & E1 & Ep).
  rewrite Haw in Ep. cbn [fst] in Ep.
  rewrite Ep, Hcan in Hit.
  destruct (set_task_status_store w0 (task_id_of d) PROCESSING None Hf0)
    as (w1' & E1' & Hf1 & Hc1 & Hh1 & Hx1).
  assert (w1' = w1) as -> by congruence.
  destruct (set_task_status_ok w0 (task_id_of d) PROCESSING None Hf0)
    as (w1' & E1'' & _ & _ & Hz1 & _ & Ht1 & _).
  assert (w1' = w1) as -> by congruence.
  eexists. split; [exact Hit |]. split; [| split; [| split]].
  - cbn [_worker]. rewrite Hr. unfold bind. now rewrite Hit.
  - unfold queue_of, zset_at. cbn [zsets advance with_clock]. rewrite Hz1.
    unfold w0. cbn [zsets with_zsets]. now rewrite lookup_insert_eq.
  - rewrite (record_of_advance w1 (task_id_of d) _ (clock w0) _ Hh1 Hx1 Hc1).
    assert ((Z.of_N (duration (processor_of ty (JDict d))) <? 3600) = true) as -> by lia.
    apply (hash_get_status_mapping PROCESSING None).
  - cbn [trace advance with_clock]. rewrite Ht1.
    change (trace w0) with (trace w).
    rewrite drop_app_length. reflexivity.
Qed.

(** X6. The wait of 5 time units is taken for one kind of queue entry
    only: on a healthy connection, a turn that takes a decodable entry
    off the queue backs off exactly when the payload is truthy and is not
    a dict. Whatever the payload, the entry is gone from the queue. *)
Theorem backoff_only_for_non_dict_payload (w : world) (worker_id q : string)
    (m : string) (s : Z) (z : zset) (v : json) :
  healthy w = true → queue_of q w = (m, s) :: z → loads m = Some v →
  ∃ res w' evs,
    iteration worker_id q w = (res, w') ∧
    trace w' = trace w ++ evs ∧ queue_of q w' = z ∧
    (EvSleep 5 ∈ evs ↔ truthy v = true ∧ ∀ d, v ≠ JDict d).
Proof.
  intros Hh Hq Hl.
  pose proof (dequeue_task_head_any w q m s z v Hh Hq Hl) as Edq.
  set (w0 := with_zsets (fun zs => <[queue_key q := z]> zs) (after_command w)) in *.
  assert (Hq0 : ∀ w', zsets w' = zsets w0 → queue_of q w' = z).
  { intros w' Hz. unfold queue_of, zset_at. rewrite Hz. unfold w0.
    cbn [zsets with_zsets]. now rewrite lookup_insert_eq. }
  assert (Ht0 : trace w0 = trace w) by reflexivity.
  destruct (truthy v) eqn:Htr.
  - assert (Hcases : (∃ d, v = JDict d ∧ d ≠ []) ∨ (∀ d, v ≠ JDict d)).
    { destruct v as [| | | | |d]; try (right; intros ? ?; discriminate).
      left. exists d. split; [reflexivity |]. intros ->. discriminate Htr. }
    destruct Hcases as [(d & -> & Hd) | Hnd].
    + pose proof (iteration_claims_task settings step_detection_process ocr_process
                    content_generation_process voice_synthesis_process
                    image_analysis_process w worker_id q m s z d Hh Hq Hl Hd) as Hit.
      cbv zeta in Hit. fold w0 in Hit.
      destruct (process_task_total settings step_detection_process ocr_process
                  content_generation_process voice_synthesis_process
                  image_analysis_process w0 worker_id d)
        as (res & w' & evs & Ep & (Ht & Hz & _) & Hquiet & Hres).
      rewrite Ep in Hit.
      assert (Hiff : EvSleep 5 ∈ evs ↔ true = true ∧ ∀ d0, JDict d ≠ JDict d0).
      { split.
        - intros Hin. exfalso. exact (quiet_no_sleep evs 5 Hquiet Hin).
        - intros [_ Hc]. exfalso. exact (Hc d eq_refl). }
      destruct res as [[] | e].
      * exists (Ok Continue), w', evs. rewrite Ht, Ht0. auto.
      * destruct Hres as (Hexc & _). rewrite Hexc in Hit.
        destruct (is_CancelledError e).
        -- exists (Ok Break), w', evs. rewrite Ht, Ht0. auto.
        -- exists (Raise e), w', evs. rewrite Ht, Ht0. auto.
    + set (e := Exn AttributeError
                  ("'" +:+ type_name v +:+ "' object has no attribute 'get'")).
      assert (Ep : process_task worker_id v w0 = (Raise e, w0)).
      { unfold _process_task, py_get, py_get_default.
        destruct v as [| | | | |d]; try reflexivity. exfalso. exact (Hnd d eq_refl). }
      eexists (Ok Continue), _,
        [EvLogError ("Worker " +:+ worker_id +:+ " error: " +:+ exn_str e); EvSleep 5].
      split; [| split; [| split]].
      * unfold worker_iteration, try_except.
        rewrite (bind_ok _ _ _ _ _ Edq). rewrite Htr.
        unfold bind at 1. rewrite Ep. reflexivity.
      * cbn [trace emit with_clock]. rewrite Ht0, <- app_assoc. reflexivity.
      * apply Hq0. reflexivity.
      * split; [intros _; auto |]. intros _. apply list_elem_of_In. right. left.
        reflexivity.
  - exists (Ok Continue), (emit (EvSleep 1) (with_clock (clock w0 + 1) w0)), [EvSleep 1].
    split; [| split; [| split]].
    + unfold worker_iteration, try_except.
      rewrite (bind_ok _ _ _ _ _ Edq). rewrite Htr. reflexivity.
    + cbn [trace emit with_clock]. now rewrite Ht0.
    + apply Hq0. reflexivity.
    + split.
      * intros Hin. apply list_elem_of_In in Hin. destruct Hin as [H | []].
        discriminate H.
      * intros [H _]. discriminate H.
Qed.

Lemma status_log_app (evs1 evs2 : list event) :
  status_log (evs1 ++ evs2) = status_log evs1 ++ status_log evs2.
Proof. unfold status_log. apply omap_app. Qed.








(** X22. A claimed task whose processor returns within the deadline
    is recorded as COMPLETED: the record holds, inside [result], what
    the processor returned, the time the call took and the id of the
    worker, and no error. The worker goes on. *)
Theorem success_marks_completed (w : world) (worker_id q : string) (m : string)
    (s : Z) (z : zset) (d : pydict) (ty : TaskType) (v : json) :
  faults w = [] → queue_of q w = (m, s) :: z → loads m = Some (JDict d) →
  task_type_of_value (task_type_of d) = Some ty →
  finish (processor_of ty (JDict d)) = Returns v → json_wf v = true →
  0 < PROCESSING_TIMEOUT settings →
  Z.of_N (duration (processor_of ty (JDict d))) ≤ PROCESSING_TIMEOUT settings →
  ∃ w' rec,
    iteration worker_id q w = (Ok Continue, w') ∧
    queue_of q w' = z ∧
    clock w' = clock w + Z.of_N (duration (processor_of ty (JDict d))) ∧
    get_task_result (task_id_of d) w' = (Ok (Some rec), w') ∧
    dict_get "status" rec = Some (JStr "completed") ∧
    recorded_result rec = Some v ∧
    recorded_processing_time rec =
      Some (JInt (Z.of_N (duration (processor_of ty (JDict d))))) ∧
    outcome_field "worker_id" rec = Some (JStr worker_id) ∧
    recorded_error rec = None.
Proof.
  intros Hf Hq Hl Hty Hfin Wv Hpos Hdur.
  assert (Haw : awaited (PROCESSING_TIMEOUT settings) (processor_of ty (JDict d)) =
                (Z.of_N (duration (processor_of ty (JDict d))), Returns v)).
  { unfold awaited. rewrite Hfin.
    assert ((0 <? PROCESSING_TIMEOUT settings) = true) as -> by lia.
    assert ((Z.of_N (duration (processor_of ty (JDict d))) <=?
             PROCESSING_TIMEOUT settings) = true) as -> by lia.
    reflexivity. }
  destruct (iteration_records settings step_detection_process ocr_process
              content_generation_process voice_synthesis_process
              image_analysis_process w worker_id q m s z d ty COMPLETED
              ("result", v)
              [("processing_time", JInt (Z.of_N (duration (processor_of ty (JDict d)))));
               ("worker_id", JStr worker_id)] [] Hf Hq Hl Hty)
    as (w' & rec & E & _ & _ & Hq' & Hc & _ & Eg & Es & _ & Er).
  { rewrite Haw. reflexivity. }
  { rewrite json_wf_dict. cbn [map fst snd forallb json_wf].
    rewrite Wv. reflexivity. }
  rewrite Haw in Hc. cbn [fst] in Hc.
  exists w', rec. split; [exact E |]. split; [exact Hq' |]. split; [exact Hc |].
  split; [exact Eg |]. split; [exact Es |].
  unfold recorded_result, recorded_processing_time, recorded_error, outcome_field.
  rewrite Er. repeat split.
Qed.

(** X23. A claimed task whose type is not a [TaskType] is recorded as
    FAILED at once, with the message of the [ValueError] that
    [TaskType(...)] raises; no processor is called and no time passes.
    The check that a handler is registered can never fail: there is one
    for every task type. *)
Theorem unknown_type_marks_failed (w : world) (worker_id q : string) (m : string)
    (s : Z) (z : zset) (d : pydict) :
  faults w = [] → queue_of q w = (m, s) :: z → loads m = Some (JDict d) → d ≠ [] →
  task_type_of_value (task_type_of d) = None →
  ∃ w' rec,
    iteration worker_id q w = (Ok Continue, w') ∧
    queue_of q w' = z ∧ clock w' = clock w ∧
    get_task_result (task_id_of d) w' = (Ok (Some rec), w') ∧
    dict_get "status" rec = Some (JStr "failed") ∧
    recorded_error rec =
      Some (JStr (py_repr (task_type_of d) +:+ " is not a valid TaskType")) ∧
    (∀ ty, handlers_get step_detection_process ocr_process content_generation_process
             voice_synthesis_process image_analysis_process ty ≠ None).
Proof.
  intros Hf Hq Hl Hd Hty.
  pose proof (iteration_claims_task settings step_detection_process ocr_process
                content_generation_process voice_synthesis_process
                image_analysis_process w worker_id q m s z d
                ltac:(unfold healthy; now rewrite Hf) Hq Hl Hd) as Hit.
  cbv zeta in Hit. rewrite (after_command_healthy w Hf) in Hit.
  set (w0 := with_zsets (fun zs => <[queue_key q := z]> zs) w) in *.
  assert (Hf0 : faults w0 = []) by exact Hf.
  set (tid := task_id_of d).
  set (msg := py_repr (task_type_of d) +:+ " is not a valid TaskType").
  destruct (set_task_status_ok w0 tid PROCESSING None Hf0)
    as (w1 & E1 & Hf1 & Hc1 & Hz1 & _ & _ & _ & _).
  set (w2 := emit (EvLogError ("Task " +:+ py_str tid +:+ " failed: " +:+ msg)) w1).
  assert (Hf2 : faults w2 = []) by exact Hf1.
  destruct (set_task_status_ok w2 tid FAILED (Some [("error", JStr msg)]) Hf2)
    as (w3 & E3 & Hf3 & Hc3 & Hz3 & _ & _ & Hrec3 & _).
  assert (Ep : process_task worker_id (JDict d) w0 = (Ok tt, w3)).
  { unfold _process_task, py_get, py_get_default. rewrite !bind_ret.
    fold (task_id_of d) (task_type_of d). fold tid.
    erewrite try_except_caught; cycle 1.
    - rewrite (bind_ok _ _ _ _ _ E1). unfold TaskType_of. rewrite Hty.
      apply bind_raise. reflexivity.
    - reflexivity.
    - unfold bind at 1. unfold log_error, modify. fold w2. exact E3. }
  rewrite Ep in Hit.
  destruct (record_readback w3 tid FAILED ("error", JStr msg) []
              (clock w2) (record_of tid w2) Hf3 Hrec3 eq_refl)
    as (rec & Eg & Es & _ & Er).
  exists w3, rec. split; [exact Hit |]. split; [| split; [| split; [exact Eg |]]].
  - unfold queue_of, zset_at. rewrite Hz3.
    change (zsets w2) with (zsets w1). rewrite Hz1. unfold w0.
    cbn [zsets with_zsets]. now rewrite lookup_insert_eq.
  - rewrite Hc3. change (clock w2) with (clock w1). rewrite Hc1. reflexivity.
  - split; [exact Es |]. split.
    + unfold recorded_error, outcome_field. rewrite Er. reflexivity.
    + intros ty. rewrite handlers_get_total. discriminate.
Qed.

End WorkerLoop.

(** ** M. Submission: what is checked, and what a failed enqueue leaves *)

(** Whatever the connection does and whatever the priority is,
    [enqueue_task] returns normally; it sleeps nowhere and leaves the
    records alone. *)
Lemma enqueue_task_total (w : world) (q : string) (d priority : json) :
  ∃ b w' evs,
    enqueue_task q d priority w = (Ok b, w') ∧
    trace w' = trace w ++ evs ∧ clock w' = clock w ∧ hashes w' = hashes w ∧
    expiry w' = expiry w ∧ running w' = running w ∧ status_log evs = [].
Proof.
  unfold enqueue_task, try_except, except_Exception.
  destruct priority as [|b|p|s|l|d']; unfold py_neg;
    try (unfold bind at 1; unfold raise at 1; cbn [is_Exception exn_cls exn_str];
         unfold bind, log_error, modify, ret;
         eexists false, _, [_]; split; [reflexivity |]; repeat split; reflexivity).
  - rewrite bind_ret. unfold ZADD, redis_command. unfold bind at 1.
    destruct (faults w) as [|[msg|] fs].
    + eexists true, _, []. split; [reflexivity |].
      cbn [trace clock hashes expiry running with_zsets with_faults].
      rewrite app_nil_r. repeat split; reflexivity.
    + cbn [is_Exception exn_cls exn_str]. unfold bind, log_error, modify, ret.
      eexists false, _, [_]. split; [reflexivity |]. repeat split; reflexivity.
    + eexists true, _, []. split; [reflexivity |].
      cbn [trace clock hashes expiry running with_zsets with_faults].
      rewrite app_nil_r. repeat split; reflexivity.
  - rewrite bind_ret. unfold ZADD, redis_command. unfold bind at 1.
    destruct (faults w) as [|[msg|] fs].
    + eexists true, _, []. split; [reflexivity |].
      cbn [trace clock hashes expiry running with_zsets with_faults].
      rewrite app_nil_r. repeat split; reflexivity.
    + cbn [is_Exception exn_cls exn_str]. unfold bind, log_error, modify, ret.
      eexists false, _, [_]. split; [reflexivity |]. repeat split; reflexivity.
    + eexists true, _, []. split; [reflexivity |].
      cbn [trace clock hashes expiry running with_zsets with_faults].
      rewrite app_nil_r. repeat split; reflexivity.
Qed.

(** [submit_task] on a task that passes its checks. *)
Lemma submit_task_valid (w : world) (d : pydict) :
  ¬ invalid_submission d →
  ∃ w',
    submit_task (JDict d) w = (Ok (task_id_of d), w') ∨
    submit_task (JDict d) w = (Raise (Exn RuntimeError "Failed to enqueue task"), w').
Proof.
  intros Hv. unfold invalid_submission in Hv.
  destruct (truthy (task_type_of d)) eqn:Ht; [| tauto].
  destruct (truthy (task_id_of d)) eqn:Hi; [| tauto].
  destruct (task_type_of_value (task_type_of d)) as [ty|] eqn:Hty; [| tauto].
  unfold submit_task, py_get, py_get_default. rewrite !bind_ret.
  fold (task_id_of d) (task_type_of d) (priority_of d).
  rewrite Ht, Hi, Hty. cbn [negb orb].
  destruct (set_task_status_total w (task_id_of d) PENDING None) as (w1 & evs1 & E1 & _).
  rewrite (bind_ok _ _ _ _ _ E1).
  destruct (enqueue_task_total w1 (py_str (task_type_of d)) (JDict d) (priority_of d))
    as (b & w2 & evs2 & E2 & _).
  rewrite (bind_ok _ _ _ _ _ E2).
  exists w2. destruct b; [left | right]; reflexivity.
Qed.

(** X8. [submit_task] refuses a task with a [ValueError], before it
    writes anything, exactly when the task has no type, no id, or a type
    that is not a [TaskType]; the priority plays no part in it. *)
Theorem submit_task_value_error_iff (w : world) (d : pydict) :
  (invalid_submission d →
   ∃ msg, submit_task (JDict d) w = (Raise (Exn ValueError msg), w)) ∧
  (∀ msg w', submit_task (JDict d) w = (Raise (Exn ValueError msg), w') →
             invalid_submission d).
Proof.
  split; [apply submit_task_rejects_bad_type |].
  intros msg w' E.
  assert (Hdec : invalid_submission d ∨ ¬ invalid_submission d).
  { unfold invalid_submission.
    destruct (truthy (task_type_of d)); [| tauto].
    destruct (truthy (task_id_of d)); [| tauto].
    destruct (task_type_of_value (task_type_of d)); [| tauto].
    right. intros [H | [H | H]]; discriminate H. }
  destruct Hdec as [H | H]; [exact H |].
  destruct (submit_task_valid w d H) as (w2 & [E2 | E2]); rewrite E2 in E; discriminate E.
Qed.

(** X9. A task that passes the checks but whose priority is not a
    number ([-priority] raises) ends in a [RuntimeError]: nothing is
    enqueued, yet the record written before the enqueue stays and says
    [pending]. *)
Theorem submit_task_enqueue_failure (w : world) (d : pydict) (ty : TaskType) :
  faults w = [] →
  task_type_of_value (task_type_of d) = Some ty →
  truthy (task_id_of d) = true → negatable (priority_of d) = false →
  ∃ w',
    submit_task (JDict d) w =
      (Raise (Exn RuntimeError "Failed to enqueue task"), w') ∧
    zsets w' = zsets w ∧
    hash_get "status" (record_of (task_id_of d) w') = Some "pending" ∧
    status_log (drop (length (trace w)) (trace w')) =
      [(task_key (task_id_of d), "pending")].
Proof.
  intros Hf Hty Hid Hp.
  pose proof (task_type_of_value_str _ _ Hty) as Hstr.
  unfold submit_task, py_get, py_get_default. rewrite !bind_ret.
  fold (task_id_of d) (task_type_of d) (priority_of d).
  rewrite Hid, Hty.
  assert (truthy (task_type_of d) = true) as ->
    by (rewrite Hstr; destruct ty; reflexivity).
  cbn [negb orb].
  destruct (set_task_status_ok w (task_id_of d) PENDING None Hf)
    as (w1 & E1 & Hf1 & Hc1 & Hz1 & Hr1 & Ht1 & Hrec1 & _).
  rewrite (bind_ok _ _ _ _ _ E1).
  assert (E2 : ∃ msg,
             enqueue_task (py_str (task_type_of d)) (JDict d) (priority_of d) w1 =
             (Ok false, emit (EvLogError ("Failed to enqueue task: " +:+ msg)) w1)).
  { unfold enqueue_task, try_except, except_Exception, py_neg.
    destruct (priority_of d); try discriminate Hp; eexists; reflexivity. }
  destruct E2 as (msg & E2). rewrite (bind_ok _ _ _ _ _ E2).
  eexists. split; [reflexivity |]. split; [exact Hz1 |]. split.
  - change (record_of (task_id_of d) (emit (EvLogError ("Failed to enqueue task: " +:+ msg)) w1))
      with (record_of (task_id_of d) w1).
    rewrite Hrec1. apply (hash_get_status_mapping PENDING None).
  - cbn [trace emit]. rewrite Ht1, <- app_assoc, drop_app_length. reflexivity.
Qed.

(** X24. A submission can succeed without leaving a record. When the
    connection fails at the status write and is back for the enqueue,
    [submit_task] returns the id and the task is pending on its queue,
    but a query for that id finds nothing until a worker claims the
    task. *)
Theorem submit_without_record (w : world) (d : pydict) (ty : TaskType) (p : Z)
    (msg : string) :
  faults w = [Some msg] → record_of (task_id_of d) w = [] →
  task_type_of_value (task_type_of d) = Some ty →
  truthy (task_id_of d) = true → priority_of d = JInt p →
  ∃ w',
    submit_task (JDict d) w = (Ok (task_id_of d), w') ∧
    pending (task_type_value ty) (JDict d) p w' ∧
    get_task_status (task_id_of d) w' = (Ok None, w') ∧
    trace w' = trace w ++ [EvLogError ("Failed to set task status: " +:+ msg)].
Proof.
  intros Hf Hrec Hty Hid Hp.
  pose proof (task_type_of_value_str _ _ Hty) as Hstr.
  unfold submit_task, py_get, py_get_default. rewrite !bind_ret.
  fold (task_id_of d) (task_type_of d) (priority_of d).
  rewrite Hid, Hty, Hp.
  assert (truthy (task_type_of d) = true) as ->
    by (rewrite Hstr; destruct ty; reflexivity).
  cbn [negb orb].
  set (w1 := emit (EvLogError ("Failed to set task status: " +:+ msg)) (with_faults [] w)).
  assert (E1 : set_task_status (task_id_of d) PENDING None w = (Ok tt, w1)).
  { unfold set_task_status, try_except, HSET, redis_command. unfold bind at 1.
    unfold now. unfold bind at 1. rewrite Hf. reflexivity. }
  assert (Hf1 : faults w1 = []) by reflexivity.
  rewrite (bind_ok _ _ _ _ _ E1).
  rewrite (bind_ok _ _ _ _ _ (enqueue_task_ok w1 _ _ _ Hf1)).
  rewrite Hstr. cbn [py_str].
  eexists. split; [reflexivity |]. split; [| split; [| reflexivity]].
  - unfold pending. unfold queue_of at 1. rewrite zset_at_insert.
    apply zadd_elem. auto.
  - match goal with
    | |- get_task_status _ ?w' = _ =>
        assert (Hf' : faults w' = []) by reflexivity;
        assert (Hr' : record_of (task_id_of d) w' = []) by exact Hrec;
        rewrite (get_task_status_absent w' (task_id_of d)
                   ltac:(unfold healthy; now rewrite Hf') Hr');
        now rewrite (after_command_healthy _ Hf')
    end.
Qed.

(** ** N. The pool of workers and the statistics *)

Lemma spawn_workers_spec (settings : Settings) (ty : TaskType)
    (workers : list worker_task) :
  spawn_workers settings ty workers =
  workers ++ map (worker_of ty) (seq 0 (MAX_WORKERS settings)).
Proof.
  unfold spawn_workers. generalize (seq 0 (MAX_WORKERS settings)) as l.
  intros l. revert workers.
  induction l as [|i l IH]; intros workers; cbn [fold_left map].
  - now rewrite app_nil_r.
  - rewrite IH, <- app_assoc. reflexivity.
Qed.

Lemma dumps_int_inj (a b : Z) : dumps_int a = dumps_int b → a = b.
Proof.
  intros H.
  pose proof (scan_number_dumps_int a "" eq_refl) as Ha.
  pose proof (scan_number_dumps_int b "" eq_refl) as Hb.
  rewrite H in Ha. congruence.
Qed.

Lemma append_inj_l (p a b : string) : p +:+ a = p +:+ b → a = b.
Proof.
  induction p as [|c p IH]; rewrite ?append_nil_l, ?append_cons; [auto |].
  intros [= H]. auto.
Qed.

Lemma worker_ids_NoDup (ty : TaskType) (n : nat) :
  NoDup (map task_worker_id (map (worker_of ty) (seq 0 n))).
Proof.
  rewrite map_map. apply NoDup_fmap_2; [| apply NoDup_seq].
  intros i j H. cbn [worker_of task_worker_id] in H.
  apply append_inj_l, append_inj_l, dumps_int_inj in H. lia.
Qed.

Lemma worker_id_first_char (ty : TaskType) (i : nat) :
  first_char (task_worker_id (worker_of ty i)) = first_char (task_type_value ty).
Proof. destruct ty; reflexivity. Qed.

Lemma first_char_type_inj (a b : TaskType) :
  first_char (task_type_value a) = first_char (task_type_value b) → a = b.
Proof. destruct a, b; first [reflexivity | discriminate]. Qed.

Lemma serving_worker_of (ty ty' : TaskType) (l : list nat) :
  serving ty (map (worker_of ty') l) = if TaskType_eqb ty' ty then map (worker_of ty') l else [].
Proof.
  unfold serving, TaskType_eqb.
  induction l as [|i l IH]; cbn [map List.filter worker_of task_queue_name].
  - now destruct (_ =? _)%string.
  - rewrite IH. destruct (task_type_value ty' =? task_type_value ty)%string; reflexivity.
Qed.

Lemma serving_app (ty : TaskType) (a b : list worker_task) :
  serving ty (a ++ b) = serving ty a ++ serving ty b.
Proof. unfold serving. apply List.filter_app. Qed.

(** X10. [start_workers] sets [running] and adds, to the workers there
    are, [MAX_WORKERS] workers for each of the five task types: each
    polls the queue named after its type, none is done, and their ids
    are pairwise distinct. Nothing makes a second call a no-op. *)
Theorem start_workers_pool (settings : Settings) (workers : list worker_task)
    (w : world) :
  ∃ started,
    start_workers settings workers w = (Ok (workers ++ started), with_running true w) ∧
    length started = (5 * MAX_WORKERS settings)%nat ∧
    NoDup (map task_worker_id started) ∧
    (∀ ty, serving ty started = map (worker_of ty) (seq 0 (MAX_WORKERS settings))) ∧
    (∀ t, t ∈ started →
          task_done t = false ∧
          (∃ ty, task_queue_name t = task_type_value ty) ∧
          first_char (task_worker_id t) = first_char (task_queue_name t)).
Proof.
  set (n := MAX_WORKERS settings).
  set (block := fun ty => map (worker_of ty) (seq 0 n)).
  exists (block STEP_DETECTION ++ block OCR_EXTRACTION ++ block CONTENT_GENERATION ++
          block VOICE_SYNTHESIS ++ block IMAGE_ANALYSIS).
  assert (Hin : ∀ t,
             t ∈ block STEP_DETECTION ++ block OCR_EXTRACTION ++
                 block CONTENT_GENERATION ++ block VOICE_SYNTHESIS ++
                 block IMAGE_ANALYSIS →
             ∃ ty i, t = worker_of ty i).
  { intros t Ht. rewrite !elem_of_app in Ht. unfold block in Ht.
    destruct Ht as [Ht | [Ht | [Ht | [Ht | Ht]]]];
      apply list_elem_of_fmap in Ht as (i & -> & _); eauto. }
  split; [| split; [| split; [| split]]].
  - unfold start_workers, bind, modify, ret. cbn [all_task_types fold_left].
    rewrite !spawn_workers_spec, <- !app_assoc. reflexivity.
  - unfold block. rewrite !length_app, !length_map, !length_seq. lia.
  - rewrite !map_app.
    assert (Hfc : ∀ ty s, s ∈ map task_worker_id (block ty) →
                          first_char s = first_char (task_type_value ty)).
    { intros ty s Hs. apply list_elem_of_fmap in Hs as (t & -> & Ht).
      apply list_elem_of_fmap in Ht as (i & -> & _). apply worker_id_first_char. }
    repeat (apply NoDup_app; split; [apply worker_ids_NoDup | split]);
      try apply worker_ids_NoDup.
    all: intros s Hs Hs'; apply Hfc in Hs; rewrite ?elem_of_app in Hs';
      repeat match type of Hs' with _ ∨ _ => destruct Hs' as [Hs' | Hs'] end;
      apply Hfc in Hs'; rewrite Hs in Hs'; discriminate Hs'.
  - intros ty. rewrite !serving_app. unfold block. rewrite !serving_worker_of.
    destruct ty; cbn; rewrite ?app_nil_r; reflexivity.
  - intros t Ht. destruct (Hin t Ht) as (ty & i & ->).
    split; [reflexivity |]. split; [exists ty; reflexivity |].
    apply worker_id_first_char.
Qed.

(** [get_queue_size], whatever the connection does. *)
Lemma get_queue_size_cases (w : world) (q : string) :
  ∃ n w',
    get_queue_size q w = (Ok n, w') ∧
    zsets w' = zsets w ∧ hashes w' = hashes w ∧ expiry w' = expiry w ∧
    clock w' = clock w ∧
    (n ≤ zcard (queue_of q w))%nat ∧
    (faults w = [] → n = zcard (queue_of q w) ∧ w' = w).
Proof.
  unfold get_queue_size, try_except, ZCARD, redis_command.
  fold (queue_key q). fold (queue_of q w).
  destruct (faults w) as [|[msg|] fs] eqn:Hf.
  - eexists _, _. split; [reflexivity |]. repeat split; auto.
  - cbn. eexists _, _. split; [reflexivity |].
    cbn [zsets hashes expiry clock emit with_faults].
    repeat split; try reflexivity; [lia | discriminate | discriminate].
  - eexists _, _. split; [reflexivity |].
    cbn [zsets hashes expiry clock with_faults].
    repeat split; try reflexivity; discriminate.
Qed.

Lemma sum_pending_set (k : string) (v : type_stats) (stats : list (string * type_stats)) :
  k ∉ map fst stats →
  sum_pending (stats_set k v stats) = sum_pending stats + Z.of_nat (stat_pending_tasks v).
Proof.
  induction stats as [|[k' v'] stats IH]; intros Hk; cbn [stats_set sum_pending snd].
  - lia.
  - rewrite fmap_cons, not_elem_of_cons in Hk. destruct Hk as [Hne Hk].
    destruct (String.eqb_spec k k') as [-> | _]; [contradiction |].
    cbn [sum_pending snd]. rewrite (IH Hk). lia.
Qed.

Lemma stats_set_keys (k : string) (v : type_stats) (stats : list (string * type_stats))
    (k' : string) :
  k' ∈ map fst (stats_set k v stats) → k' = k ∨ k' ∈ map fst stats.
Proof.
  induction stats as [|[k0 v0] stats IH]; cbn [stats_set].
  - intros H. cbn in H. apply list_elem_of_singleton in H. auto.
  - destruct (String.eqb_spec k k0) as [-> | _]; rewrite !fmap_cons, !elem_of_cons;
      cbn [fst]; [tauto |].
    intros [H | H]; [tauto |]. destruct (IH H); tauto.
Qed.

Section Stats.

Variable settings : Settings.

Lemma queue_stats_loop_spec (types : list TaskType) :
  ∀ (stats : list (string * type_stats)) (w : world),
    NoDup (map task_type_value types) →
    (∀ ty, ty ∈ types → task_type_value ty ∉ map fst stats) →
    ∃ stats' w',
      queue_stats_loop settings types stats w = (Ok stats', w') ∧
      zsets w' = zsets w ∧ hashes w' = hashes w ∧ expiry w' = expiry w ∧
      clock w' = clock w ∧
      sum_pending stats ≤ sum_pending stats' ∧
      sum_pending stats' ≤
        sum_pending stats +
        foldr (fun ty acc => Z.of_nat (zcard (queue_of (task_type_value ty) w)) + acc) 0
          types ∧
      (faults w = [] →
       sum_pending stats' =
         sum_pending stats +
         foldr (fun ty acc => Z.of_nat (zcard (queue_of (task_type_value ty) w)) + acc) 0
           types).
Proof.
  induction types as [|ty types IH]; intros stats w Hnd Hfresh.
  - exists stats, w. cbn [queue_stats_loop foldr]. split; [reflexivity |].
    repeat split; try reflexivity; intros; lia.
  - rewrite fmap_cons in Hnd. apply NoDup_cons in Hnd as [Hty Hnd].
    cbn [queue_stats_loop foldr].
    destruct (get_queue_size_cases w (task_type_value ty))
      as (n & w1 & E1 & Hz1 & Hh1 & Hx1 & Hc1 & Hle & Hok).
    rewrite (bind_ok _ _ _ _ _ E1).
    set (v := {| stat_pending_tasks := n; stat_workers := MAX_WORKERS settings |}).
    destruct (IH (stats_set (task_type_value ty) v stats) w1 Hnd)
      as (stats' & w' & E & Hz & Hh & Hx & Hc & Hlo & Hhi & Heq).
    { intros ty' Hin' Hk. apply stats_set_keys in Hk as [Hk | Hk].
      - apply Hty. rewrite <- Hk. apply list_elem_of_fmap. eauto.
      - apply (Hfresh ty'); [right; exact Hin' | exact Hk]. }
    assert (Hq : ∀ ty', queue_of (task_type_value ty') w1 = queue_of (task_type_value ty') w)
      by (intros ty'; unfold queue_of, zset_at; now rewrite Hz1).
    assert (Hsum : foldr (fun ty acc =>
                            Z.of_nat (zcard (queue_of (task_type_value ty) w1)) + acc) 0 types =
                   foldr (fun ty acc =>
                            Z.of_nat (zcard (queue_of (task_type_value ty) w)) + acc) 0 types).
    { clear -Hq. induction types as [|t l IHl]; cbn [foldr]; [reflexivity |].
      now rewrite IHl, Hq. }
    rewrite Hsum in Hhi, Heq.
    rewrite (sum_pending_set _ v stats) in Hlo, Hhi, Heq
      by (apply Hfresh; left).
    cbn [stat_pending_tasks v] in Hlo, Hhi, Heq.
    exists stats', w'. split; [exact E |].
    rewrite Hz, Hh, Hx, Hc. repeat split; try assumption; try lia.
    intros Hf. destruct (Hok Hf) as [-> ->]. rewrite (Heq Hf). lia.
Qed.

(** X11. [GET /queue/status] never fails, whatever the connection does,
    and changes nothing in the store. It reports the same number as
    total and as pending, zero for every other status, and the workers
    that are not done. The number is the sum of the sizes of the five
    queues when the connection is healthy; a queue whose size cannot be
    read counts as empty, so the number is never above that sum. *)
Theorem queue_status_route (workers : list worker_task) (w : world) :
  ∃ body w',
    get_queue_status settings workers w = (Ok (Http200 body), w') ∧
    zsets w' = zsets w ∧ hashes w' = hashes w ∧ expiry w' = expiry w ∧
    pending_tasks body = total_tasks body ∧
    processing_tasks body = 0 ∧ completed_tasks body = 0 ∧ failed_tasks body = 0 ∧
    workers_active body =
      Z.of_nat (length (List.filter (fun t => negb (task_done t)) workers)) ∧
    0 ≤ total_tasks body ≤ pending_total w ∧
    (faults w = [] → total_tasks body = pending_total w).
Proof.
  destruct (queue_stats_loop_spec all_task_types [] w) as
    (stats & w' & E & Hz & Hh & Hx & _ & Hlo & Hhi & Heq).
  { repeat constructor; cbn; rewrite ?elem_of_cons, ?elem_of_nil; intuition discriminate. }
  { intros ty _ H. cbn in H. apply elem_of_nil in H. exact H. }
  cbn [sum_pending] in Hlo, Hhi, Heq. fold (pending_total w) in Hhi, Heq.
  eexists _, w'. split.
  - assert (Es : get_queue_stats settings workers w =
                 (Ok {| per_type := stats;
                        total_workers := length workers;
                        active_workers :=
                          length (List.filter (fun t => negb (task_done t)) workers) |},
                  w'))
      by (unfold get_queue_stats; rewrite (bind_ok _ _ _ _ _ E); reflexivity).
    unfold get_queue_status. apply try_except_ok.
    rewrite (bind_ok _ _ _ _ _ Es). reflexivity.
  - cbn [total_tasks pending_tasks processing_tasks completed_tasks failed_tasks
         workers_active per_type active_workers].
    repeat split; try assumption; try reflexivity; lia.
Qed.

End Stats.

(** ** O. The batch route *)

Lemma batch_task_fields (uuid4 : nat → string) (i : nat) (d : pydict) :
  task_id_of (batch_task uuid4 i d) = JStr (uuid4 i) ∧
  task_type_of (batch_task uuid4 i d) = task_type_of d ∧
  priority_of (batch_task uuid4 i d) = priority_of d.
Proof.
  unfold task_id_of, task_type_of, priority_of, batch_task.
  rewrite !dict_get_dict_set. repeat split.
Qed.

Lemma zadd_member (m m' : string) (score : Z) (z : zset) :
  m' ∈ map fst z → m' ∈ map fst (zadd m score z).
Proof.
  intros H. apply list_elem_of_fmap in H as ([m0 s0] & -> & Hin). cbn [fst].
  destruct (String.eqb_spec m0 m) as [-> | Hne].
  - apply list_elem_of_fmap. exists (m, score). split; [reflexivity |].
    apply zadd_elem. auto.
  - apply list_elem_of_fmap. exists (m0, s0). split; [reflexivity |].
    apply zadd_elem. right. auto.
Qed.

Lemma zadd_member_new (m : string) (score : Z) (z : zset) :
  m ∈ map fst (zadd m score z).
Proof.
  apply list_elem_of_fmap. exists (m, score). split; [reflexivity |].
  apply zadd_elem. auto.
Qed.

(** What one accepted submission keeps and adds. *)
Lemma submit_task_frame (w : world) (d : pydict) (ty : TaskType) (p : Z) :
  faults w = [] →
  task_type_of_value (task_type_of d) = Some ty →
  truthy (task_id_of d) = true → priority_of d = JInt p →
  ∃ w',
    submit_task (JDict d) w = (Ok (task_id_of d), w') ∧
    faults w' = [] ∧
    trace w' =
      trace w ++
      [EvHset (task_key (task_id_of d)) (status_mapping PENDING None (clock w))] ∧
    queued d w' ∧
    hash_get "status" (record_of (task_id_of d) w') = Some "pending" ∧
    (∀ d', queued d' w → queued d' w') ∧
    (∀ id, hash_get "status" (record_of id w) = Some "pending" →
           hash_get "status" (record_of id w') = Some "pending").
Proof.
  intros Hf Hty Hid Hp.
  pose proof (task_type_of_value_str _ _ Hty) as Hstr.
  unfold submit_task, py_get, py_get_default. rewrite !bind_ret.
  fold (task_id_of d) (task_type_of d) (priority_of d).
  rewrite Hid, Hty, Hp.
  assert (truthy (task_type_of d) = true) as ->
    by (rewrite Hstr; destruct ty; reflexivity).
  cbn [negb orb].
  destruct (set_task_status_ok w (task_id_of d) PENDING None Hf)
    as (w1 & E1 & Hf1 & Hc1 & Hz1 & Hr1 & Ht1 & Hrec1 & Hother).
  rewrite (bind_ok _ _ _ _ _ E1).
  rewrite (bind_ok _ _ _ _ _ (enqueue_task_ok w1 _ _ _ Hf1)).
  set (q := py_str (task_type_of d)).
  set (w' := with_zsets _ w1).
  assert (Hq : ∀ q', queue_of q' w' =
                     if String.eqb q q' then zadd (dumps (JDict d)) (- p) (queue_of q w)
                     else queue_of q' w).
  { intros q'. unfold w'. destruct (String.eqb_spec q q') as [<- | Hne].
    - unfold queue_of at 1. rewrite zset_at_insert.
      unfold queue_of, zset_at. now rewrite Hz1.
    - unfold queue_of at 1. rewrite zset_at_insert_ne
        by (intros H; apply queue_key_inj in H; contradiction).
      unfold queue_of, zset_at. now rewrite Hz1. }
  assert (Hrec : ∀ id, record_of id w' = record_of id w1) by reflexivity.
  exists w'. split; [reflexivity |]. split; [exact Hf1 |]. split; [exact Ht1 |].
  split; [| split; [| split]].
  - unfold queued. fold q. rewrite Hq, String.eqb_refl. apply zadd_member_new.
  - rewrite Hrec, Hrec1. apply (hash_get_status_mapping PENDING None).
  - intros d' Hd'. unfold queued in *. rewrite Hq.
    destruct (String.eqb_spec q (py_str (task_type_of d'))) as [Heq | _]; [| exact Hd'].
    apply zadd_member. rewrite Heq. exact Hd'.
  - intros id Hid'. rewrite Hrec.
    destruct (String.eqb_spec (task_key id) (task_key (task_id_of d))) as [Heq | Hne].
    + assert (record_of id w1 = record_of (task_id_of d) w1) as ->
        by (unfold record_of; now rewrite Heq).
      rewrite Hrec1. apply (hash_get_status_mapping PENDING None).
    + rewrite (Hother id Hne). exact Hid'.
Qed.

(** The loop of the batch route over tasks that are all accepted. *)
Lemma submit_batch_loop_ok (uuid4 : nat → string) (tasks : list pydict) :
  (∀ i, uuid4 i ≠ "") →
  ∀ (i : nat) (task_ids : list string) (w : world),
    faults w = [] → Forall acceptable tasks →
    ∃ w' evs,
      submit_batch_loop uuid4 i tasks task_ids w =
        (Ok (task_ids ++ map uuid4 (seq i (length tasks))), w') ∧
      faults w' = [] ∧
      trace w' = trace w ++ evs ∧
      status_log evs =
        map (fun j => (task_key (JStr (uuid4 j)), "pending")) (seq i (length tasks)) ∧
      (∀ k d, tasks !! k = Some d →
              queued (batch_task uuid4 (i + k) d) w' ∧
              hash_get "status" (record_of (JStr (uuid4 (i + k)%nat)) w') = Some "pending") ∧
      (∀ d', queued d' w → queued d' w') ∧
      (∀ id, hash_get "status" (record_of id w) = Some "pending" →
             hash_get "status" (record_of id w') = Some "pending").
Proof.
  intros Hid. induction tasks as [|d tasks IH]; intros i task_ids w Hf Hall.
  - exists w, []. cbn [submit_batch_loop length seq map]. rewrite !app_nil_r.
    split; [reflexivity |]. split; [exact Hf |]. split; [reflexivity |].
    split; [reflexivity |]. split; [| auto].
    intros k d H. rewrite lookup_nil in H. discriminate H.
  - apply Forall_cons in Hall as [((ty & Hty) & (p & Hp)) Hall].
    destruct (batch_task_fields uuid4 i d) as (Fid & Fty & Fp).
    destruct (submit_task_frame w (batch_task uuid4 i d) ty p Hf)
      as (w1 & E1 & Hf1 & Ht1 & Hq1 & Hs1 & Hkq1 & Hks1).
    { now rewrite Fty. }
    { rewrite Fid. cbn [truthy]. destruct (String.eqb_spec (uuid4 i) ""); [| reflexivity].
      exfalso. eapply Hid; eassumption. }
    { now rewrite Fp. }
    rewrite Fid in E1, Ht1, Hs1.
    cbn [submit_batch_loop]. fold (batch_task uuid4 i d).
    rewrite (bind_ok _ _ _ _ _ E1).
    destruct (IH (S i) (task_ids ++ [uuid4 i]) w1 Hf1 Hall)
      as (w' & evs & E & Hf' & Ht & Hs & Hnew & Hkq & Hks).
    exists w', ([EvHset (task_key (JStr (uuid4 i))) (status_mapping PENDING None (clock w))]
                ++ evs).
    split; [| split; [exact Hf' | split; [| split; [| split; [| split]]]]].
    + rewrite E, <- app_assoc. reflexivity.
    + rewrite Ht, Ht1, <- app_assoc. reflexivity.
    + rewrite status_log_app, Hs. reflexivity.
    + intros [|k] d0 Hk.
      * injection Hk as <-. rewrite Nat.add_0_r. split; [apply Hkq, Hq1 | apply Hks, Hs1].
      * cbn in Hk. replace (i + S k)%nat with (S i + k)%nat by lia. apply Hnew, Hk.
    + intros d' Hd'. apply Hkq, Hkq1, Hd'.
    + intros id Hid'. apply Hks, Hks1, Hid'.
Qed.

(** X12. A batch whose tasks are all accepted, on a healthy connection:
    the route answers with the ids drawn, in order; every task is in the
    queue of its type under its new id, which replaces any id the client
    sent, and has a record saying [pending]. *)
Theorem batch_all_submitted (uuid4 : nat → string) (tasks : list pydict) (w : world) :
  (∀ i, uuid4 i ≠ "") → faults w = [] → Forall acceptable tasks →
  ∃ w',
    submit_batch_tasks uuid4 tasks w =
      (Ok (Http200
             (JDict [("submitted_tasks", JInt (Z.of_nat (length tasks)));
                     ("task_ids", JList (map JStr (map uuid4 (seq 0 (length tasks)))));
                     ("status", JStr "batch_submitted")])), w') ∧
    ∀ k d, tasks !! k = Some d →
           task_id_of (batch_task uuid4 k d) = JStr (uuid4 k) ∧
           queued (batch_task uuid4 k d) w' ∧
           hash_get "status" (record_of (JStr (uuid4 k)) w') = Some "pending".
Proof.
  intros Hid Hf Hall.
  destruct (submit_batch_loop_ok uuid4 tasks Hid 0%nat [] w Hf Hall)
    as (w' & evs & E & _ & _ & _ & Hnew & _).
  exists w'. split.
  - unfold submit_batch_tasks. apply try_except_ok.
    rewrite (bind_ok _ _ _ _ _ E). cbn [app].
    rewrite length_map, length_seq. reflexivity.
  - intros k d Hk. split; [apply batch_task_fields |]. exact (Hnew k d Hk).
Qed.

(** X13. A batch is not atomic. When the tasks before some task are
    accepted and that task is of no known type, the route answers 500
    and names no id, yet every task before it stays queued with a record
    saying [pending]; no task after it is looked at: the status writes
    of the request are those of the tasks before it. *)
Theorem batch_stops_without_rollback (uuid4 : nat → string)
    (good : list pydict) (bad : pydict) (rest : list pydict) (w : world) :
  (∀ i, uuid4 i ≠ "") → faults w = [] → Forall acceptable good →
  task_type_of_value (task_type_of bad) = None →
  ∃ w' detail evs,
    submit_batch_tasks uuid4 (good ++ bad :: rest) w =
      (Ok (HTTPException 500 detail), w') ∧
    trace w' = trace w ++ evs ∧
    status_log evs =
      map (fun j => (task_key (JStr (uuid4 j)), "pending")) (seq 0 (length good)) ∧
    ∀ k d, good !! k = Some d →
           queued (batch_task uuid4 k d) w' ∧
           hash_get "status" (record_of (JStr (uuid4 k)) w') = Some "pending".
Proof.
  intros Hid Hf Hall Hbad.
  assert (Hloop : ∀ (l : list pydict) (i : nat) (ids : list string) (w0 : world),
             faults w0 = [] → Forall acceptable l →
             ∃ w1 evs msg,
               submit_batch_loop uuid4 i (l ++ bad :: rest) ids w0 =
                 (Raise (Exn ValueError msg), w1) ∧
               trace w1 = trace w0 ++ evs ∧
               status_log evs =
                 map (fun j => (task_key (JStr (uuid4 j)), "pending")) (seq i (length l)) ∧
               (∀ k d, l !! k = Some d →
                       queued (batch_task uuid4 (i + k) d) w1 ∧
                       hash_get "status" (record_of (JStr (uuid4 (i + k)%nat)) w1) =
                         Some "pending") ∧
               (∀ d', queued d' w0 → queued d' w1) ∧
               (∀ id, hash_get "status" (record_of id w0) = Some "pending" →
                      hash_get "status" (record_of id w1) = Some "pending")).
  { induction l as [|d l IH]; intros i ids w0 Hf0 Hl.
    - destruct (batch_task_fields uuid4 i bad) as (_ & Fty & _).
      destruct (submit_task_rejects_bad_type w0 (batch_task uuid4 i bad)) as (msg & E).
      { right. right. now rewrite Fty. }
      exists w0, [], msg. cbn [app submit_batch_loop length seq map].
      fold (batch_task uuid4 i bad). rewrite (bind_raise _ _ _ _ _ E), app_nil_r.
      split; [reflexivity |]. split; [reflexivity |]. split; [reflexivity |].
      split; [| auto].
      intros k d H. rewrite lookup_nil in H. discriminate H.
    - apply Forall_cons in Hl as [((ty & Hty) & (p & Hp)) Hl].
      destruct (batch_task_fields uuid4 i d) as (Fid & Fty & Fp).
      destruct (submit_task_frame w0 (batch_task uuid4 i d) ty p Hf0)
        as (w1 & E1 & Hf1 & Ht1 & Hq1 & Hs1 & Hkq1 & Hks1).
      { now rewrite Fty. }
      { rewrite Fid. cbn [truthy]. destruct (String.eqb_spec (uuid4 i) ""); [| reflexivity].
        exfalso. eapply Hid; eassumption. }
      { now rewrite Fp. }
      rewrite Fid in E1, Ht1, Hs1.
      cbn [app submit_batch_loop]. fold (batch_task uuid4 i d).
      rewrite (bind_ok _ _ _ _ _ E1).
      destruct (IH (S i) (ids ++ [uuid4 i]) w1 Hf1 Hl)
        as (w2 & evs & msg & E & Ht & Hs & Hnew & Hkq & Hks).
      exists w2,
        ([EvHset (task_key (JStr (uuid4 i))) (status_mapping PENDING None (clock w0))]
         ++ evs), msg.
      split; [exact E |]. split; [rewrite Ht, Ht1, <- app_assoc; reflexivity |].
      split; [rewrite status_log_app, Hs; reflexivity |].
      split; [| split].
      + intros [|k] d0 Hk.
        * injection Hk as <-. rewrite Nat.add_0_r.
          split; [apply Hkq, Hq1 | apply Hks, Hs1].
        * cbn in Hk. replace (i + S k)%nat with (S i + k)%nat by lia. apply Hnew, Hk.
      + intros d' Hd'. apply Hkq, Hkq1, Hd'.
      + intros id Hid'. apply Hks, Hks1, Hid'. }
  destruct (Hloop good 0%nat [] w Hf Hall) as (w1 & evs & msg & E & Ht & Hs & Hnew & _).
  eexists _, msg, (evs ++ [EvLogError ("Error submitting batch tasks: " +:+ msg)]).
  split; [| split; [| split]].
  - unfold submit_batch_tasks.
    erewrite try_except_caught;
      [| rewrite (bind_raise _ _ _ _ _ E); reflexivity | reflexivity].
    reflexivity.
  - cbn [trace emit]. rewrite Ht, <- app_assoc. reflexivity.
  - rewrite status_log_app, Hs. cbn. now rewrite app_nil_r.
  - intros k d Hk. exact (Hnew k d Hk).
Qed.

(** ** P. What the services keep: the fields of a record, the queues *)

Lemma hash_get_absent (f : string) (h : hash) : f ∉ map fst h → hash_get f h = None.
Proof.
  induction h as [|[f' v] h IH]; intros Hf; cbn [hash_get]; [reflexivity |].
  rewrite fmap_cons, not_elem_of_cons in Hf. destruct Hf as [Hne Hf].
  destruct (String.eqb_spec f f'); [contradiction | auto].
Qed.

Lemma hset_field_keys (f v : string) (h : hash) (k : string) :
  k ∈ map fst (hset_field f v h) → k = f ∨ k ∈ map fst h.
Proof.
  induction h as [|[f' v'] h IH]; cbn [hset_field].
  - intros H. cbn in H. apply list_elem_of_singleton in H. auto.
  - destruct (String.eqb_spec f f') as [-> | _]; rewrite !fmap_cons, !elem_of_cons;
      cbn [fst]; [tauto |].
    intros [H | H]; [tauto |]. destruct (IH H); tauto.
Qed.

Lemma hset_mapping_keys (mapping h : hash) (k : string) :
  k ∈ map fst (hset_mapping mapping h) → k ∈ map fst mapping ∨ k ∈ map fst h.
Proof.
  unfold hset_mapping. revert h.
  induction mapping as [|[f v] mapping IH]; intros h; cbn [fold_left].
  - auto.
  - intros H. apply IH in H as [H | H].
    + left. rewrite fmap_cons. right. exact H.
    + apply hset_field_keys in H as [-> | H]; [| auto].
      left. rewrite fmap_cons. left.
Qed.

Lemma status_mapping_keys (status : ProcessingStatus) (result : option pydict) (t : Z)
    (k : string) :
  k ∈ map fst (status_mapping status result t) → k ∈ status_fields.
Proof.
  unfold status_mapping, status_fields. destruct result as [[|x r]|]; cbn;
    rewrite !elem_of_cons; tauto.
Qed.

(** X14. A record holds the fields [status], [updated_at] and [result]
    and no other, write after write, and a query returns no other key:
    the error of a failed task and the processing time of a completed
    one are found inside [result], never as keys [error] or
    [processing_time] of the record itself. *)
Theorem status_record_fields (w : world) (task_id : json) (status : ProcessingStatus)
    (result : option pydict) :
  faults w = [] → fields_ok (record_of task_id w) →
  ∃ w',
    set_task_status task_id status result w = (Ok tt, w') ∧
    fields_ok (record_of task_id w') ∧
    ∀ rec w'',
      get_task_status task_id w' = (Ok (Some rec), w'') →
      (∀ f, f ∉ status_fields → dict_get f rec = None) ∧
      dict_get "error" rec = None ∧ dict_get "processing_time" rec = None.
Proof.
  intros Hf Hok.
  destruct (set_task_status_ok w task_id status result Hf)
    as (w' & E & Hf' & _ & _ & _ & _ & Hrec & _).
  assert (Hok' : fields_ok (record_of task_id w')).
  { intros f Hin. rewrite Hrec in Hin. apply hset_mapping_keys in Hin as [Hin | Hin].
    - eapply status_mapping_keys, Hin.
    - apply Hok, Hin. }
  exists w'. split; [exact E |]. split; [exact Hok' |].
  intros rec w'' Eg.
  assert (Hkeys : ∀ f, f ∉ status_fields → dict_get f rec = None).
  { intros f Hnf.
    assert (Hh : hash_get f (record_of task_id w') = None)
      by (apply hash_get_absent; intros Hin; apply Hnf, Hok', Hin).
    assert (Hne : (f =? "result")%string = false).
    { destruct (String.eqb_spec f "result") as [-> | _]; [| reflexivity].
      exfalso. apply Hnf. unfold status_fields. rewrite !elem_of_cons. tauto. }
    revert Eg. unfold get_task_status, try_except, HGETALL, redis_command.
    unfold bind at 1. rewrite Hf'. fold (task_key task_id) (record_of task_id w').
    set (h := record_of task_id w') in *.
    destruct h as [|fv h'] eqn:Eh.
    { cbn. discriminate. }
    rewrite <- Eh in *. 
    destruct (hash_get "result" h) as [r|].
    - unfold json_loads. destruct (loads r) as [v|].
      + rewrite Eh. cbn [bind ret]. unfold bind, ret.
        rewrite <- Eh.
        destruct (dict_set "result" v (map (fun fv0 : string * string => (fv0.1, JStr fv0.2)) h))
          as [|x rec'] eqn:Ed; [discriminate |].
        intros [= <- _]. rewrite <- Ed, dict_get_dict_set, Hne, dict_get_fields, Hh.
        reflexivity.
      + rewrite Eh. unfold bind at 1. unfold raise at 1.
        cbn [except_Exception is_Exception exn_cls]. unfold bind, log_error, modify, ret.
        discriminate.
    - rewrite Eh. unfold bind, ret. rewrite <- Eh.
      destruct (map (fun fv0 : string * string => (fv0.1, JStr fv0.2)) h)
        as [|x rec'] eqn:Ed; [discriminate |].
      intros [= <- _]. rewrite <- Ed, dict_get_fields, Hh. reflexivity. }
  split; [exact Hkeys |].
  split; apply Hkeys; unfold status_fields; rewrite !elem_of_cons, elem_of_nil;
    intros [H | [H | [H | []]]]; discriminate H.
Qed.

Lemma queue_of_zsets (q : string) (w w' : world) :
  zsets w' = zsets w → queue_of q w' = queue_of q w.
Proof. intros H. unfold queue_of, zset_at. now rewrite H. Qed.

Lemma queue_of_insert (q q' : string) (z : zset) (w : world) :
  queue_of q' (with_zsets (fun zs => <[queue_key q := z]> zs) w) =
  if String.eqb q q' then z else queue_of q' w.
Proof.
  destruct (String.eqb_spec q q') as [<- | Hne].
  - unfold queue_of. apply zset_at_insert.
  - unfold queue_of. apply zset_at_insert_ne.
    intros H. apply queue_key_inj in H. contradiction.
Qed.

(** [enqueue_task] with a priority that can be negated, command by
    command. *)
Lemma enqueue_task_numeric (w : world) (q : string) (d priority : json) (score : Z) :
  py_neg priority = ret score →
  enqueue_task q d priority w =
  match faults w with
  | Some msg :: fs =>
      (Ok false, emit (EvLogError ("Failed to enqueue task: " +:+ msg)) (with_faults fs w))
  | None :: fs =>
      (Ok true,
       with_zsets (fun zs => <[queue_key q := zadd (dumps d) score (queue_of q w)]> zs)
         (with_faults fs w))
  | [] =>
      (Ok true,
       with_zsets (fun zs => <[queue_key q := zadd (dumps d) score (queue_of q w)]> zs) w)
  end.
Proof.
  intros H. unfold enqueue_task, try_except, except_Exception, bind. rewrite H.
  unfold ret, ZADD, redis_command. fold (queue_key q).
  destruct (faults w) as [|[msg|] fs]; reflexivity.
Qed.

(** The queue of [q'] after a call of [enqueue_task], whatever the
    connection does and whatever the priority is. *)
Lemma enqueue_task_queue (w : world) (q q' : string) (d priority : json) :
  queue_of q' (enqueue_task q d priority w).2 = queue_of q' w ∨
  ∃ score, q' = q ∧
    queue_of q' (enqueue_task q d priority w).2 = zadd (dumps d) score (queue_of q w).
Proof.
  assert (Hn : (∃ score, py_neg priority = ret score) ∨
               enqueue_task q d priority w =
               (Ok false,
                emit (EvLogError
                        ("Failed to enqueue task: " +:+
                         "bad operand type for unary -: '" +:+ type_name priority +:+ "'"))
                  w)).
  { destruct priority; try (right; reflexivity); left; eexists; reflexivity. }
  destruct Hn as [(score & Hs) | ->]; [| left; reflexivity].
  rewrite (enqueue_task_numeric w q d priority score Hs).
  destruct (faults w) as [|[msg|] fs]; cbn [snd]; try (left; reflexivity).
  - rewrite queue_of_insert. destruct (String.eqb_spec q q') as [<- | _]; eauto.
  - change (with_zsets ?f (with_faults fs w)) with (with_faults fs (with_zsets f w)).
    change (queue_of q' (with_faults fs ?x)) with (queue_of q' x).
    rewrite queue_of_insert. destruct (String.eqb_spec q q') as [<- | _]; eauto.
Qed.

(** X15. [enqueue_task] never drops or re-scores a task that is pending
    with another payload, on the same queue or on another one, whatever
    the connection does: only an identical payload is replaced. *)
Theorem enqueue_keeps_other_tasks (w : world) (q q' : string) (a d priority : json)
    (pa : Z) :
  json_wf a = true → json_wf d = true → a ≠ d →
  pending q' a pa w → pending q' a pa (enqueue_task q d priority w).2.
Proof.
  intros Wa Wd Hne Hp. unfold pending in *.
  destruct (enqueue_task_queue w q q' d priority) as [-> | (score & -> & ->)];
    [exact Hp |].
  apply zadd_elem. right. split; [exact Hp |].
  cbn [fst]. intros H. apply Hne. exact (dumps_inj a d Wa Wd H).
Qed.

(** [dequeue_task], command by command. *)
Lemma dequeue_task_cases (w : world) (q : string) :
  dequeue_task q w =
  match faults w with
  | Some msg :: fs =>
      (Ok None, emit (EvLogError ("Failed to dequeue task: " +:+ msg)) (with_faults fs w))
  | None :: fs => popped q (with_faults fs w)
  | [] => popped q w
  end.
Proof.
  unfold dequeue_task, try_except, except_Exception, bind, ZPOPMIN, redis_command, popped.
  fold (queue_key q).
  destruct (faults w) as [|[msg|] fs]; [| reflexivity |].
  - fold (queue_of q w). destruct (queue_of q w) as [|[m s] z]; [reflexivity |].
    cbn [zpopmin]. unfold json_loads. destruct (loads m); reflexivity.
  - fold (queue_of q (with_faults fs w)).
    destruct (queue_of q (with_faults fs w)) as [|[m s] z]; [reflexivity |].
    cbn [zpopmin]. unfold json_loads. destruct (loads m); reflexivity.
Qed.

Lemma popped_queue (w : world) (q q' : string) :
  (∃ r, (popped q w).1 = Ok r) ∧
  (queue_of q' (popped q w).2 = queue_of q' w ∨
   (q' = q ∧ queue_of q' (popped q w).2 = tail (queue_of q w))).
Proof.
  unfold popped. destruct (queue_of q w) as [|[m s] z] eqn:Hq.
  - split; [eauto | left; reflexivity].
  - assert (Hg : ∀ w0 : world,
               zsets w0 = zsets (with_zsets (fun zs => <[queue_key q := z]> zs) w) →
               queue_of q' w0 = queue_of q' w ∨ q' = q ∧ queue_of q' w0 = z).
    { intros w0 H0. rewrite (queue_of_zsets q' _ _ H0), queue_of_insert.
      destruct (String.eqb_spec q q') as [<- | _]; auto. }
    destruct (loads m); (split; [eauto | apply Hg; reflexivity]).
Qed.

Lemma dequeue_task_queue (w : world) (q q' : string) :
  (∃ r, (dequeue_task q w).1 = Ok r) ∧
  (queue_of q' (dequeue_task q w).2 = queue_of q' w ∨
   (q' = q ∧ queue_of q' (dequeue_task q w).2 = tail (queue_of q w))).
Proof.
  rewrite dequeue_task_cases. destruct (faults w) as [|[msg|] fs].
  - apply popped_queue.
  - split; [eauto | left; reflexivity].
  - apply (popped_queue (with_faults fs w)).
Qed.

Section Kept.

Variable settings : Settings.
Variable step_detection_process : json → run.
Variable ocr_process : json → run.
Variable content_generation_process : json → run.
Variable voice_synthesis_process : json → run.
Variable image_analysis_process : json → run.

Local Abbreviation process_task :=
  (_process_task settings step_detection_process ocr_process
     content_generation_process voice_synthesis_process image_analysis_process).
Local Abbreviation iteration :=
  (worker_iteration settings step_detection_process ocr_process
     content_generation_process voice_synthesis_process image_analysis_process).

Lemma process_task_zsets (w : world) (worker_id : string) (v : json) :
  zsets (process_task worker_id v w).2 = zsets w.
Proof.
  destruct v as [| | | | |d]; try reflexivity.
  destruct (process_task_total settings step_detection_process ocr_process
              content_generation_process voice_synthesis_process
              image_analysis_process w worker_id d)
    as (res & w' & evs & E & (_ & Hz & _) & _).
  rewrite E. exact Hz.
Qed.

Lemma iteration_zsets (w : world) (worker_id q : string) :
  zsets (iteration worker_id q w).2 = zsets (dequeue_task q w).2.
Proof.
  unfold worker_iteration, try_except. unfold bind at 1.
  destruct (dequeue_task_queue w q q) as [(r & Hr) _].
  destruct (dequeue_task q w) as [r' w1] eqn:E. cbn [fst snd] in *. subst r'.
  destruct r as [v|]; [| reflexivity].
  destruct (truthy v); [| reflexivity].
  unfold bind at 1. pose proof (process_task_zsets w1 worker_id v) as Hz.
  destruct (process_task worker_id v w1) as [[[] | e] w2]; cbn [snd] in Hz;
    [exact Hz |].
  destruct (is_CancelledError e); [exact Hz |].
  unfold except_Exception. destruct (is_Exception e); exact Hz.
Qed.

(** X16. The queues stay well formed whatever the services do to them
    and whatever the connection does: after a submission of a
    well-formed task and after a turn of a worker, every queue is still
    in rank order, holds no member twice, and every member is the text
    of a JSON document that decodes to what was enqueued. *)
Theorem queues_stay_well_formed (w : world) (q' : string) :
  queue_ok (queue_of q' w) = true →
  (∀ d, json_wf (JDict d) = true →
        queue_ok (queue_of q' (submit_task (JDict d) w).2) = true) ∧
  (∀ worker_id q, queue_ok (queue_of q' (iteration worker_id q w).2) = true).
Proof.
  intros Hok. split.
  - intros d Wd. unfold submit_task, py_get, py_get_default. rewrite !bind_ret.
    destruct (negb (truthy _) || negb (truthy _)); [exact Hok |].
    destruct (task_type_of_value _); [| exact Hok].
    match goal with
    | |- context [set_task_status ?id PENDING None] =>
        destruct (set_task_status_total w id PENDING None)
          as (w1 & evs1 & E1 & (_ & _ & Hz1 & _) & _)
    end.
    rewrite (bind_ok _ _ _ _ _ E1).
    match goal with
    | |- context [enqueue_task ?q ?v ?p] =>
        pose proof (enqueue_task_queue w1 q q' v p) as Hq;
        destruct (enqueue_task_total w1 q v p) as (b & w2 & evs2 & E2 & _)
    end.
    rewrite E2 in Hq. cbn [snd] in Hq. rewrite (bind_ok _ _ _ _ _ E2).
    assert (Hok2 : queue_ok (queue_of q' w2) = true).
    { destruct Hq as [-> | (score & -> & ->)].
      - now rewrite (queue_of_zsets q' _ _ Hz1).
      - apply queue_ok_zadd; [exact Wd |]. now rewrite (queue_of_zsets _ _ _ Hz1). }
    destruct b; exact Hok2.
  - intros worker_id q.
    rewrite (queue_of_zsets q' _ _ (iteration_zsets w worker_id q)).
    destruct (dequeue_task_queue w q q') as [_ [-> | (-> & ->)]]; [exact Hok |].
    destruct (queue_of q w) as [|e z] eqn:Hq; [reflexivity |].
    exact (queue_ok_tail e z Hok).
Qed.

End Kept.

(** ** Q. The text of a queue member *)

Lemma string_forall_app (P : ascii → bool) (a b : string) :
  string_forall P (a +:+ b) = string_forall P a && string_forall P b.
Proof.
  induction a as [|c a IH]; rewrite ?append_nil_l, ?append_cons; cbn [string_forall].
  - reflexivity.
  - now rewrite IH, andb_assoc.
Qed.

Lemma escape_char_printable (c : ascii) : string_forall printable (escape_char c) = true.
Proof. destruct c as [[] [] [] [] [] [] [] []]; reflexivity. Qed.

Lemma escape_string_printable (s : string) :
  string_forall printable (escape_string s) = true.
Proof.
  induction s as [|c s IH]; cbn [escape_string]; [reflexivity |].
  now rewrite string_forall_app, escape_char_printable, IH.
Qed.

Lemma dumps_str_printable (s : string) : string_forall printable (dumps_str s) = true.
Proof.
  unfold dumps_str. cbn [string_forall].
  rewrite string_forall_app, escape_string_printable. reflexivity.
Qed.

Lemma string_of_uint_printable (u : Decimal.uint) :
  string_forall printable (NilEmpty.string_of_uint u) = true.
Proof. induction u; cbn [NilEmpty.string_of_uint string_forall]; auto. Qed.

Lemma dumps_int_printable (z : Z) : string_forall printable (dumps_int z) = true.
Proof.
  unfold dumps_int, NilZero.string_of_int, NilZero.string_of_uint.
  destruct (Z.to_int z) as [u | u].
  - destruct u; try reflexivity; apply (string_of_uint_printable (_ u)).
  - cbn [string_forall]. destruct u; try reflexivity;
      apply (string_of_uint_printable (_ u)).
Qed.

Lemma dumps_more_printable (l : list json) :
  Forall (fun v => string_forall printable (dumps v) = true) l →
  string_forall printable (dumps_more l) = true.
Proof.
  induction 1 as [|y l Hy _ IHl]; [reflexivity |].
  cbn [dumps_more]. rewrite !string_forall_app, Hy, IHl. reflexivity.
Qed.

Lemma dumps_more_members_printable (d : pydict) :
  Forall (fun kv => string_forall printable (dumps kv.2) = true) d →
  string_forall printable (dumps_more_members d) = true.
Proof.
  induction 1 as [|[k y] d Hy _ IHd]; [reflexivity |].
  cbn [dumps_more_members]. cbn [snd] in Hy.
  rewrite !string_forall_app, dumps_str_printable, Hy, IHd. reflexivity.
Qed.

(** X17. The text [json.dumps] writes for a payload consists of
    printable ASCII characters only, whatever the strings of the payload
    hold: every member of a queue is plain ASCII on one line, and the
    order of the members byte by byte is their order character by
    character. *)
Theorem queue_member_printable (v : json) : string_forall printable (dumps v) = true.
Proof.
  induction v as [| [] | z | s | l IH | d IH] using json_ind; try reflexivity.
  - apply dumps_int_printable.
  - apply dumps_str_printable.
  - destruct l as [|x l]; [reflexivity |].
    rewrite dumps_list_cons. cbn [string_forall].
    apply Forall_cons in IH as [Hx IH].
    rewrite string_forall_app, Hx, (dumps_more_printable l IH). reflexivity.
  - destruct d as [|[k x] d]; [reflexivity |].
    rewrite dumps_dict_cons. cbn [string_forall].
    apply Forall_cons in IH as [Hx IH]. cbn [snd] in Hx.
    rewrite !string_forall_app, dumps_str_printable, Hx,
      (dumps_more_members_printable d IH). reflexivity.
Qed.

(** ** R. The cache *)

Lemma dumps_cons (v : json) : ∃ c s, dumps v = String c s.
Proof.
  destruct (dumps_start v "") as (c & s & H & _).
  rewrite append_nil_r in H. eauto.
Qed.

(** [cache_set] of a text with a positive time to live, on a healthy
    connection, and the [cache_get] that follows [d] time units later. *)
Lemma cache_set_get_text (w : world) (kv : strings) (key : string) (value : json)
    (c : ascii) (s : string) (ttl d : Z) :
  faults w = [] → 0 < ttl → 0 ≤ d →
  redis_encode (match value with
                | JDict _ | JList _ => JStr (dumps value)
                | _ => value
                end) = inl (String c s) →
  ∃ w',
    cache_set key value ttl kv w = (Ok (<[key := String c s]> kv), w') ∧
    faults w' = [] ∧ trace w' = trace w ∧
    cache_get key (<[key := String c s]> kv) (advance d w') =
      (Ok (if d <? ttl
           then Some (match loads (String c s) with
                      | Some v => v
                      | None => JStr (String c s)
                      end)
           else None),
       advance d w').
Proof.
  intros Hf Httl Hd Henc.
  set (w' := with_expiry (fun ex => <[key := clock w + ttl]> ex)
               (with_hashes (fun hs => delete key hs)
                  (with_zsets (fun zs => delete key zs) w))).
  exists w'. split; [| split; [exact Hf | split; [reflexivity |]]].
  - unfold cache_set, try_except, SETEX, redis_command. unfold bind at 1.
    rewrite Hf, Henc.
    assert ((0 <? ttl) = true) as -> by lia. reflexivity.
  - unfold cache_get, try_except, GET, redis_command. unfold bind at 1. unfold bind at 1.
    assert (Hfa : faults (advance d w') = []) by exact Hf. rewrite Hfa.
    assert (Hex : expired key (advance d w') = negb (d <? ttl)).
    { unfold expired, advance, w'. cbn [expiry clock with_clock with_expiry].
      rewrite lookup_insert_eq. cbn [with_hashes with_zsets clock].
      destruct (d <? ttl) eqn:E; cbn [negb]; lia. }
    rewrite Hex. destruct (d <? ttl); cbn [negb]; [| reflexivity].
    assert (Hz : zset_at key (advance d w') = []).
    { unfold zset_at, advance, w'. cbn [zsets with_clock with_expiry with_hashes with_zsets].
      now rewrite lookup_delete_eq. }
    assert (Hh : hashes (advance d w') !! key = None).
    { unfold advance, w'. cbn [hashes with_clock with_expiry with_hashes].
      now rewrite lookup_delete_eq. }
    rewrite Hz, Hh. cbn [default]. rewrite lookup_insert_eq.
    cbn [ret]. destruct (loads (String c s)); reflexivity.
Qed.

(** X18. The cache gives back what was put in it, for as long as it
    lives: after [cache_set] of a well-formed list, dict or integer with
    a positive [ttl], on a healthy connection, [cache_get] returns that
    value for [ttl] time units and [None] from then on. *)
Theorem cache_roundtrip (w : world) (kv : strings) (key : string) (value : json)
    (ttl d : Z) :
  faults w = [] → 0 < ttl → 0 ≤ d →
  cached_as_json value = true → json_wf value = true →
  ∃ kv' w',
    cache_set key value ttl kv w = (Ok kv', w') ∧
    cache_get key kv' (advance d w') =
      (Ok (if d <? ttl then Some value else None), advance d w').
Proof.
  intros Hf Httl Hd Hj Wv.
  destruct (dumps_cons value) as (c & s & Hs).
  destruct (cache_set_get_text w kv key value c s ttl d Hf Httl Hd)
    as (w' & Es & _ & _ & Eg).
  { rewrite <- Hs. destruct value; try discriminate Hj; reflexivity. }
  exists (<[key := String c s]> kv), w'. split; [exact Es |].
  rewrite Eg, <- Hs, (loads_dumps value Wv). reflexivity.
Qed.

Lemma escape_string_length (s : string) :
  (String.length s ≤ String.length (escape_string s))%nat.
Proof.
  induction s as [|c s IH]; cbn [escape_string String.length]; [lia |].
  rewrite append_length.
  assert (1 ≤ String.length (escape_char c))%nat
    by (destruct c as [[] [] [] [] [] [] [] []]; vm_compute; lia).
  lia.
Qed.

Lemma dumps_not_itself (v : json) : v ≠ JStr (dumps v).
Proof.
  destruct v as [| | |s| |]; try discriminate.
  intros [= H]. apply (f_equal String.length) in H.
  cbn [dumps] in H. unfold dumps_str in H. cbn [String.length] in H.
  rewrite append_length in H. cbn [String.length] in H.
  pose proof (escape_string_length s). lia.
Qed.

(** X19. A string does not come back from the cache as it went in when
    it is the text of a JSON document: [cache_get] decodes it. What was
    cached as the text [json.dumps] writes for a value is read back as
    the value itself, which is never that string. *)
Theorem cached_text_is_decoded (w : world) (kv : strings) (key : string) (v : json)
    (ttl : Z) :
  faults w = [] → 0 < ttl → json_wf v = true →
  ∃ kv' w',
    cache_set key (JStr (dumps v)) ttl kv w = (Ok kv', w') ∧
    cache_get key kv' w' = (Ok (Some v), w') ∧
    v ≠ JStr (dumps v).
Proof.
  intros Hf Httl Wv.
  destruct (dumps_cons v) as (c & s & Hs).
  destruct (cache_set_get_text w kv key (JStr (dumps v)) c s ttl 0 Hf Httl (Z.le_refl 0))
    as (w' & Es & Hf' & _ & Eg).
  { cbn [redis_encode]. now rewrite Hs. }
  exists (<[key := String c s]> kv), w'. split; [exact Es |].
  split; [| apply dumps_not_itself].
  assert (Hadv : advance 0 w' = w').
  { unfold advance. rewrite Z.add_0_r. destruct w'; reflexivity. }
  rewrite Hadv in Eg. rewrite Eg, <- Hs, (loads_dumps v Wv).
  assert ((0 <? ttl) = true) as -> by lia. reflexivity.
Qed.

(** X20. [cache_set] stores nothing and raises nothing when the value
    is [None] or a [bool], which the client refuses to send, or when the
    time to live is zero or less, which Redis refuses: the strings and
    the store are as they were, and one line is logged. *)
Theorem cache_set_refused (w : world) (kv : strings) (key : string) (value : json)
    (ttl : Z) :
  faults w = [] →
  ttl ≤ 0 ∨ value = JNull ∨ (∃ b, value = JBool b) →
  ∃ msg,
    cache_set key value ttl kv w =
      (Ok kv, emit (EvLogError ("Failed to set cache: " +:+ msg)) w).
Proof.
  intros Hf H.
  unfold cache_set, try_except, SETEX, redis_command. unfold bind at 1. rewrite Hf.
  destruct H as [Httl | [-> | (b & ->)]]; [| eexists; reflexivity | eexists; reflexivity].
  assert ((0 <? ttl) = false) as -> by lia.
  destruct (redis_encode _); eexists; reflexivity.
Qed.

(** ** S. The typed routes *)

Lemma task_type_of_value_value (ty : TaskType) :
  task_type_of_value (JStr (task_type_value ty)) = Some ty.
Proof. destruct ty; reflexivity. Qed.

(** The shape the five routes share: a task built with the id drawn,
    the type and the priority of the request, then submitted. *)
Lemma typed_route_shape (w : world) (uuid : string) (ty : TaskType) (p : Z)
    (task_data : pydict) (label : string) :
  faults w = [] → uuid ≠ "" →
  task_id_of task_data = JStr uuid →
  task_type_of task_data = JStr (task_type_value ty) →
  priority_of task_data = JInt p →
  ∃ w',
    try_except
      (submit_task (JDict task_data);;
       ret (Http200 (JDict [("task_id", JStr uuid); ("status", JStr "submitted")])))
      (except_Exception (fun e =>
         log_error (label +:+ exn_str e);;
         ret (HTTPException 500 (exn_str e)))) w =
      (Ok (Http200 (JDict [("task_id", JStr uuid); ("status", JStr "submitted")])), w') ∧
    pending (task_type_value ty) (JDict task_data) p w' ∧
    hash_get "status" (record_of (JStr uuid) w') = Some "pending".
Proof.
  intros Hf Hu Hid Hty Hp.
  destruct (submit_task_ok w task_data ty p Hf) as (w' & E & _ & _ & _ & _ & Hrec & Hq).
  - rewrite Hty. apply task_type_of_value_value.
  - rewrite Hid. cbn [truthy]. destruct (String.eqb_spec uuid ""); [contradiction | reflexivity].
  - exact Hp.
  - exists w'. split; [| split].
    + apply try_except_ok. rewrite (bind_ok _ _ _ _ _ E). reflexivity.
    + unfold pending. rewrite Hq. apply zadd_elem. auto.
    + rewrite Hid in Hrec. rewrite Hrec. apply (hash_get_status_mapping PENDING None).
Qed.

(** X21. Each of the five typed routes, on a healthy connection,
    answers with the id drawn and [submitted], leaves under that id a
    record saying [pending], and has the task pending with the priority
    of the request on the queue of the request's own [task_type] field,
    whichever route was called; the [task_id] the client sent is not
    used. *)
Theorem typed_route_submits (request : task_request) (uuid : string) (w : world) :
  faults w = [] → uuid ≠ "" →
  ∃ w' task_data,
    post_task request uuid w =
      (Ok (Http200 (JDict [("task_id", JStr uuid); ("status", JStr "submitted")])), w') ∧
    task_id_of task_data = JStr uuid ∧
    pending (task_type_value (BaseTask.task_type (request_base request)))
      (JDict task_data) (BaseTask.priority (request_base request)) w' ∧
    hash_get "status" (record_of (JStr uuid) w') = Some "pending".
Proof.
  intros Hf Hu.
  destruct request as [r | r | r | r | r]; cbn [post_task request_base];
    [unfold submit_step_detection_task | unfold submit_ocr_task
    | unfold submit_content_generation_task | unfold submit_voice_synthesis_task
    | unfold submit_image_analysis_task];
    cbv zeta;
    match goal with
    | |- context [submit_task (JDict ?d)] =>
        match goal with
        | |- context [log_error (?label +:+ _)] =>
            destruct (typed_route_shape w uuid _ _ d label Hf Hu eq_refl eq_refl eq_refl)
              as (w' & E & Hp & Hs);
            exists w', d; split; [exact E |]; split; [reflexivity |];
            split; [exact Hp | exact Hs]
        end
    end.
Qed.

(** ** T. Sample runs of the further properties *)

Lemma status_write_keeps_result_witness :
  faults world_task_completed = [] ∧
  (@None pydict = None ∨ @None pydict = Some []) ∧
  hash_get "result" (record_of (JStr "t-1") world_task_completed) =
    Some (dumps completed_outcome) ∧
  loads (dumps completed_outcome) = Some completed_outcome ∧
  ∃ w' rec,
    set_task_status (JStr "t-1") PENDING None world_task_completed = (Ok tt, w') ∧
    get_task_status (JStr "t-1") w' = (Ok (Some rec), w') ∧
    dict_get "status" rec = Some (JStr (status_value PENDING)) ∧
    dict_get "result" rec = Some completed_outcome.
Proof.
  assert (H1 : faults world_task_completed = []) by (vm_compute; reflexivity).
  assert (H2 : @None pydict = None ∨ @None pydict = Some []) by (left; reflexivity).
  assert (H3 : hash_get "result" (record_of (JStr "t-1") world_task_completed) =
               Some (dumps completed_outcome)) by (vm_compute; reflexivity).
  assert (H4 : loads (dumps completed_outcome) = Some completed_outcome)
    by (vm_compute; reflexivity).
  split; [exact H1 |]. split; [exact H2 |]. split; [exact H3 |]. split; [exact H4 |].
  exact (status_write_keeps_result world_task_completed (JStr "t-1") PENDING None
           (dumps completed_outcome) completed_outcome H1 H2 H3 H4).
Defined.

Lemma idle_worker_polls_every_second_witness :
  faults initial_world = [] ∧ running initial_world = true ∧
  queue_of "ocr_extraction" initial_world = [] ∧
  ∃ w',
    ocr_loop quick_ocr 3 initial_world = (Ok tt, w') ∧
    clock w' = clock initial_world + Z.of_nat 3 ∧
    trace w' = trace initial_world ++ replicate 3 (EvSleep 1) ∧
    zsets w' = zsets initial_world ∧ hashes w' = hashes initial_world ∧
    expiry w' = expiry initial_world.
Proof.
  assert (H1 : faults initial_world = []) by reflexivity.
  assert (H2 : running initial_world = true) by reflexivity.
  assert (H3 : queue_of "ocr_extraction" initial_world = []) by reflexivity.
  split; [exact H1 |]. split; [exact H2 |]. split; [exact H3 |].
  exact (idle_worker_polls_every_second default_settings (returns_after 1 JNull) quick_ocr
           (returns_after 1 JNull) (returns_after 1 JNull) (returns_after 1 JNull)
           3 initial_world "ocr_extraction_0" "ocr_extraction" H1 H2 H3).
Defined.

Lemma cancelled_task_left_processing_witness :
  faults world_one_task = [] ∧ running world_one_task = true ∧
  queue_of "ocr_extraction" world_one_task = [(dumps (ocr_task "t-1" 5), - 5)] ∧
  loads (dumps (ocr_task "t-1" 5)) = Some (JDict (ocr_fields "t-1" 5)) ∧
  task_type_of_value (task_type_of (ocr_fields "t-1" 5)) = Some OCR_EXTRACTION ∧
  finish (ocr_handler_of cancelled_ocr OCR_EXTRACTION (JDict (ocr_fields "t-1" 5))) =
    Raises (Exn CancelledError "") ∧
  is_CancelledError (Exn CancelledError "") = true ∧
  Z.of_N (duration (ocr_handler_of cancelled_ocr OCR_EXTRACTION
                      (JDict (ocr_fields "t-1" 5)))) ≤
    PROCESSING_TIMEOUT default_settings ∧
  0 < PROCESSING_TIMEOUT default_settings ∧
  Z.of_N (duration (ocr_handler_of cancelled_ocr OCR_EXTRACTION
                      (JDict (ocr_fields "t-1" 5)))) < 3600 ∧
  ∃ w',
    ocr_worker cancelled_ocr world_one_task = (Ok Break, w') ∧
    ocr_loop cancelled_ocr 1 world_one_task = (Ok tt, w') ∧
    queue_of "ocr_extraction" w' = [] ∧
    hash_get "status" (record_of (task_id_of (ocr_fields "t-1" 5)) w') =
      Some "processing" ∧
    status_log (drop (length (trace world_one_task)) (trace w')) =
      [(task_key (task_id_of (ocr_fields "t-1" 5)), "processing")].
Proof.
  assert (H1 : faults world_one_task = []) by reflexivity.
  assert (H2 : running world_one_task = true) by reflexivity.
  assert (H3 : queue_of "ocr_extraction" world_one_task =
               [(dumps (ocr_task "t-1" 5), - 5)]) by (vm_compute; reflexivity).
  assert (H4 : loads (dumps (ocr_task "t-1" 5)) = Some (JDict (ocr_fields "t-1" 5)))
    by (vm_compute; reflexivity).
  assert (H5 : task_type_of_value (task_type_of (ocr_fields "t-1" 5)) =
               Some OCR_EXTRACTION) by reflexivity.
  assert (H6 : finish (ocr_handler_of cancelled_ocr OCR_EXTRACTION
                         (JDict (ocr_fields "t-1" 5))) =
               Raises (Exn CancelledError "")) by reflexivity.
  assert (H7 : is_CancelledError (Exn CancelledError "") = true) by reflexivity.
  assert (H8 : Z.of_N (duration (ocr_handler_of cancelled_ocr OCR_EXTRACTION
                                   (JDict (ocr_fields "t-1" 5)))) ≤
               PROCESSING_TIMEOUT default_settings) by (vm_compute; discriminate).
  assert (H9 : 0 < PROCESSING_TIMEOUT default_settings) by reflexivity.
  assert (H10 : Z.of_N (duration (ocr_handler_of cancelled_ocr OCR_EXTRACTION
                                    (JDict (ocr_fields "t-1" 5)))) < 3600)
    by reflexivity.
  split; [exact H1 |]. split; [exact H2 |]. split; [exact H3 |]. split; [exact H4 |].
  split; [exact H5 |]. split; [exact H6 |]. split; [exact H7 |]. split; [exact H8 |].
  split; [exact H9 |]. split; [exact H10 |].
  exact (cancelled_task_left_processing default_settings (returns_after 1 JNull)
           cancelled_ocr
           (returns_after 1 JNull) (returns_after 1 JNull) (returns_after 1 JNull)
           world_one_task "ocr_extraction_0" "ocr_extraction"
           (dumps (ocr_task "t-1" 5)) (- 5) [] (ocr_fields "t-1" 5) OCR_EXTRACTION
           (Exn CancelledError "") 0 H1 H2 H3 H4 H5 H6 H7 H8 H9 H10).
Defined.

Lemma backoff_only_for_non_dict_payload_witness :
  healthy world_list_entry = true ∧
  queue_of "ocr_extraction" world_list_entry = [("[1]", - 1)] ∧
  loads "[1]" = Some (JList [JInt 1]) ∧
  ∃ res w' evs,
    ocr_worker quick_ocr world_list_entry = (res, w') ∧
    trace w' = trace world_list_entry ++ evs ∧
    queue_of "ocr_extraction" w' = [] ∧
    (EvSleep 5 ∈ evs ↔ truthy (JList [JInt 1]) = true ∧ ∀ d, JList [JInt 1] ≠ JDict d).
Proof.
  assert (H1 : healthy world_list_entry = true) by reflexivity.
  assert (H2 : queue_of "ocr_extraction" world_list_entry = [("[1]", - 1)])
    by (vm_compute; reflexivity).
  assert (H3 : loads "[1]" = Some (JList [JInt 1])) by (vm_compute; reflexivity).
  split; [exact H1 |]. split; [exact H2 |]. split; [exact H3 |].
  exact (backoff_only_for_non_dict_payload default_settings (returns_after 1 JNull)
           quick_ocr
           (returns_after 1 JNull) (returns_after 1 JNull) (returns_after 1 JNull)
           world_list_entry "ocr_extraction_0" "ocr_extraction" "[1]" (- 1) []
           (JList [JInt 1]) H1 H2 H3).
Defined.


(** The three tasks of the scenario, worked off: the statuses written. *)
Example drained_9_5_1 :
  status_log (trace (ocr_loop quick_ocr 3 world_three_submitted).2) =
  [("task:first", "pending"); ("task:second", "pending"); ("task:third", "pending");
   ("task:second", "processing"); ("task:second", "completed");
   ("task:first", "processing"); ("task:first", "completed");
   ("task:third", "processing"); ("task:third", "completed")].
Proof. vm_compute. reflexivity. Qed.

Lemma submit_task_enqueue_failure_witness :
  faults initial_world = [] ∧
  task_type_of_value (task_type_of task_priority_high) = Some OCR_EXTRACTION ∧
  truthy (task_id_of task_priority_high) = true ∧
  negatable (priority_of task_priority_high) = false ∧
  ∃ w',
    submit_task (JDict task_priority_high) initial_world =
      (Raise (Exn RuntimeError "Failed to enqueue task"), w') ∧
    zsets w' = zsets initial_world ∧
    hash_get "status" (record_of (task_id_of task_priority_high) w') = Some "pending" ∧
    status_log (drop (length (trace initial_world)) (trace w')) =
      [(task_key (task_id_of task_priority_high), "pending")].
Proof.
  assert (H1 : faults initial_world = []) by reflexivity.
  assert (H2 : task_type_of_value (task_type_of task_priority_high) =
               Some OCR_EXTRACTION) by reflexivity.
  assert (H3 : truthy (task_id_of task_priority_high) = true) by reflexivity.
  assert (H4 : negatable (priority_of task_priority_high) = false) by reflexivity.
  split; [exact H1 |]. split; [exact H2 |]. split; [exact H3 |]. split; [exact H4 |].
  exact (submit_task_enqueue_failure initial_world task_priority_high OCR_EXTRACTION
           H1 H2 H3 H4).
Defined.

Lemma sample_uuid4_nonempty : ∀ i, sample_uuid4 i ≠ "".
Proof. intros i H. discriminate H. Defined.

Lemma batch_acceptable : Forall acceptable [batch_ocr; batch_voice].
Proof.
  apply List.Forall_cons; [| apply List.Forall_cons; [| apply List.Forall_nil]].
  - split; [exists OCR_EXTRACTION | exists 5]; reflexivity.
  - split; [exists VOICE_SYNTHESIS | exists 1]; reflexivity.
Defined.

Lemma batch_all_submitted_witness :
  (∀ i, sample_uuid4 i ≠ "") ∧ faults initial_world = [] ∧
  Forall acceptable [batch_ocr; batch_voice] ∧
  ∃ w',
    submit_batch_tasks sample_uuid4 [batch_ocr; batch_voice] initial_world =
      (Ok (Http200
             (JDict [("submitted_tasks",
                      JInt (Z.of_nat (length [batch_ocr; batch_voice])));
                     ("task_ids",
                      JList (map JStr (map sample_uuid4
                                         (seq 0 (length [batch_ocr; batch_voice])))));
                     ("status", JStr "batch_submitted")])), w') ∧
    ∀ k d, [batch_ocr; batch_voice] !! k = Some d →
           task_id_of (batch_task sample_uuid4 k d) = JStr (sample_uuid4 k) ∧
           queued (batch_task sample_uuid4 k d) w' ∧
           hash_get "status" (record_of (JStr (sample_uuid4 k)) w') = Some "pending".
Proof.
  assert (H2 : faults initial_world = []) by reflexivity.
  split; [exact sample_uuid4_nonempty |]. split; [exact H2 |].
  split; [exact batch_acceptable |].
  exact (batch_all_submitted sample_uuid4 [batch_ocr; batch_voice] initial_world
           sample_uuid4_nonempty H2 batch_acceptable).
Defined.

Lemma batch_stops_without_rollback_witness :
  (∀ i, sample_uuid4 i ≠ "") ∧ faults initial_world = [] ∧
  Forall acceptable [batch_ocr; batch_voice] ∧
  task_type_of_value (task_type_of batch_translation) = None ∧
  ∃ w' detail evs,
    submit_batch_tasks sample_uuid4
      ([batch_ocr; batch_voice] ++ batch_translation :: [batch_ocr]) initial_world =
      (Ok (HTTPException 500 detail), w') ∧
    trace w' = trace initial_world ++ evs ∧
    status_log evs =
      map (fun j => (task_key (JStr (sample_uuid4 j)), "pending"))
        (seq 0 (length [batch_ocr; batch_voice])) ∧
    ∀ k d, [batch_ocr; batch_voice] !! k = Some d →
           queued (batch_task sample_uuid4 k d) w' ∧
           hash_get "status" (record_of (JStr (sample_uuid4 k)) w') = Some "pending".
Proof.
  assert (H2 : faults initial_world = []) by reflexivity.
  assert (H4 : task_type_of_value (task_type_of batch_translation) = None)
    by reflexivity.
  split; [exact sample_uuid4_nonempty |]. split; [exact H2 |].
  split; [exact batch_acceptable |]. split; [exact H4 |].
  exact (batch_stops_without_rollback sample_uuid4 [batch_ocr; batch_voice]
           batch_translation [batch_ocr] initial_world
           sample_uuid4_nonempty H2 batch_acceptable H4).
Defined.

(** The batch of the sample run: the answer, and the sizes of the two
    queues after it. *)
Example batch_with_unknown_type :
  ((let* response :=
      submit_batch_tasks sample_uuid4
        [batch_ocr; batch_voice; batch_translation; batch_ocr] in
    let* ocr := get_queue_size "ocr_extraction" in
    let* voice := get_queue_size "voice_synthesis" in
    ret (response, ocr, voice)) initial_world).1 =
  Ok (HTTPException 500 "Invalid task type: translation", 1%nat, 1%nat).
Proof. vm_compute. reflexivity. Qed.

Lemma status_record_fields_witness :
  faults initial_world = [] ∧ fields_ok (record_of (JStr "t-1") initial_world) ∧
  ∃ w',
    set_task_status (JStr "t-1") FAILED (Some [("error", JStr "Task timed out")])
      initial_world = (Ok tt, w') ∧
    fields_ok (record_of (JStr "t-1") w') ∧
    ∀ rec w'',
      get_task_status (JStr "t-1") w' = (Ok (Some rec), w'') →
      (∀ f, f ∉ status_fields → dict_get f rec = None) ∧
      dict_get "error" rec = None ∧ dict_get "processing_time" rec = None.
Proof.
  assert (H1 : faults initial_world = []) by reflexivity.
  assert (H2 : fields_ok (record_of (JStr "t-1") initial_world)).
  { intros f H. vm_compute in H. apply elem_of_nil in H. destruct H. }
  split; [exact H1 |]. split; [exact H2 |].
  exact (status_record_fields initial_world (JStr "t-1") FAILED
           (Some [("error", JStr "Task timed out")]) H1 H2).
Defined.

Lemma enqueue_keeps_other_tasks_witness :
  json_wf (ocr_task "first" 5) = true ∧ json_wf (ocr_task "fourth" 5) = true ∧
  ocr_task "first" 5 ≠ ocr_task "fourth" 5 ∧
  pending "ocr_extraction" (ocr_task "first" 5) 5 world_5_9_1 ∧
  pending "ocr_extraction" (ocr_task "first" 5) 5
    (enqueue_task "ocr_extraction" (ocr_task "fourth" 5) (JInt 5) world_5_9_1).2.
Proof.
  assert (H1 : json_wf (ocr_task "first" 5) = true) by reflexivity.
  assert (H2 : json_wf (ocr_task "fourth" 5) = true) by reflexivity.
  assert (H3 : ocr_task "first" 5 ≠ ocr_task "fourth" 5) by discriminate.
  assert (H4 : pending "ocr_extraction" (ocr_task "first" 5) 5 world_5_9_1).
  { unfold pending.
    assert (E : queue_of "ocr_extraction" world_5_9_1 =
                [(dumps (ocr_task "second" 9), - 9); (dumps (ocr_task "first" 5), - 5);
                 (dumps (ocr_task "third" 1), - 1)]) by (vm_compute; reflexivity).
    rewrite E. apply list_elem_of_In. right. left. reflexivity. }
  split; [exact H1 |]. split; [exact H2 |]. split; [exact H3 |]. split; [exact H4 |].
  exact (enqueue_keeps_other_tasks world_5_9_1 "ocr_extraction" "ocr_extraction"
           (ocr_task "first" 5) (ocr_task "fourth" 5) (JInt 5) 5 H1 H2 H3 H4).
Defined.

Lemma queues_stay_well_formed_witness :
  queue_ok (queue_of "ocr_extraction" world_5_9_1) = true ∧
  (∀ d, json_wf (JDict d) = true →
        queue_ok (queue_of "ocr_extraction" (submit_task (JDict d) world_5_9_1).2) = true) ∧
  (∀ worker_id q,
     queue_ok (queue_of "ocr_extraction"
                 (worker_iteration default_settings (returns_after 1 JNull) quick_ocr
                    (returns_after 1 JNull) (returns_after 1 JNull)
                    (returns_after 1 JNull) worker_id q world_5_9_1).2) = true).
Proof.
  assert (H1 : queue_ok (queue_of "ocr_extraction" world_5_9_1) = true)
    by (vm_compute; reflexivity).
  split; [exact H1 |].
  exact (queues_stay_well_formed default_settings (returns_after 1 JNull) quick_ocr
           (returns_after 1 JNull) (returns_after 1 JNull) (returns_after 1 JNull)
           world_5_9_1 "ocr_extraction" H1).
Defined.

Lemma cache_roundtrip_witness :
  faults initial_world = [] ∧ 0 < 60 ∧ 0 ≤ 59 ∧
  cached_as_json (JDict [("text", JStr "StepFlow")]) = true ∧
  json_wf (JDict [("text", JStr "StepFlow")]) = true ∧
  ∃ kv' w',
    cache_set "ocr:page" (JDict [("text", JStr "StepFlow")]) 60 ∅ initial_world =
      (Ok kv', w') ∧
    cache_get "ocr:page" kv' (advance 59 w') =
      (Ok (if 59 <? 60 then Some (JDict [("text", JStr "StepFlow")]) else None),
       advance 59 w').
Proof.
  assert (H1 : faults initial_world = []) by reflexivity.
  assert (H2 : 0 < 60) by lia.
  assert (H3 : 0 ≤ 59) by lia.
  assert (H4 : cached_as_json (JDict [("text", JStr "StepFlow")]) = true) by reflexivity.
  assert (H5 : json_wf (JDict [("text", JStr "StepFlow")]) = true) by reflexivity.
  split; [exact H1 |]. split; [exact H2 |]. split; [exact H3 |]. split; [exact H4 |].
  split; [exact H5 |].
  exact (cache_roundtrip initial_world ∅ "ocr:page" (JDict [("text", JStr "StepFlow")])
           60 59 H1 H2 H3 H4 H5).
Defined.

Lemma cached_text_is_decoded_witness :
  faults initial_world = [] ∧ 0 < 60 ∧ json_wf (JInt 123) = true ∧
  ∃ kv' w',
    cache_set "answer" (JStr (dumps (JInt 123))) 60 ∅ initial_world = (Ok kv', w') ∧
    cache_get "answer" kv' w' = (Ok (Some (JInt 123)), w') ∧
    JInt 123 ≠ JStr (dumps (JInt 123)).
Proof.
  assert (H1 : faults initial_world = []) by reflexivity.
  assert (H2 : 0 < 60) by lia.
  assert (H3 : json_wf (JInt 123) = true) by reflexivity.
  split; [exact H1 |]. split; [exact H2 |]. split; [exact H3 |].
  exact (cached_text_is_decoded initial_world ∅ "answer" (JInt 123) 60 H1 H2 H3).
Defined.

(** The string [123] comes back from the cache as the number. *)
Example cached_digits_come_back_as_number :
  ∃ kv w,
    cache_set "answer" (JStr "123") 60 ∅ initial_world = (Ok kv, w) ∧
    (cache_get "answer" kv w).1 = Ok (Some (JInt 123)).
Proof. eexists _, _. split; [reflexivity |]. vm_compute. reflexivity. Qed.

Lemma cache_set_refused_witness :
  faults initial_world = [] ∧
  (0 ≤ 0 ∨ JStr "StepFlow" = JNull ∨ (∃ b, JStr "StepFlow" = JBool b)) ∧
  ∃ msg,
    cache_set "ocr:page" (JStr "StepFlow") 0 ∅ initial_world =
      (Ok ∅, emit (EvLogError ("Failed to set cache: " +:+ msg)) initial_world).
Proof.
  assert (H1 : faults initial_world = []) by reflexivity.
  assert (H2 : 0 ≤ 0 ∨ JStr "StepFlow" = JNull ∨ (∃ b, JStr "StepFlow" = JBool b))
    by (left; lia).
  split; [exact H1 |]. split; [exact H2 |].
  exact (cache_set_refused initial_world ∅ "ocr:page" (JStr "StepFlow") 0 H1 H2).
Defined.

Lemma typed_route_submits_witness :
  faults initial_world = [] ∧ "0f8fad5b" ≠ "" ∧
  ∃ w' task_data,
    post_task sample_ocr_request "0f8fad5b" initial_world =
      (Ok (Http200 (JDict [("task_id", JStr "0f8fad5b"); ("status", JStr "submitted")])),
       w') ∧
    task_id_of task_data = JStr "0f8fad5b" ∧
    pending (task_type_value (BaseTask.task_type (request_base sample_ocr_request)))
      (JDict task_data) (BaseTask.priority (request_base sample_ocr_request)) w' ∧
    hash_get "status" (record_of (JStr "0f8fad5b") w') = Some "pending".
Proof.
  assert (H1 : faults initial_world = []) by reflexivity.
  assert (H2 : "0f8fad5b" ≠ "") by discriminate.
  split; [exact H1 |]. split; [exact H2 |].
  exact (typed_route_submits sample_ocr_request "0f8fad5b" initial_world H1 H2).
Defined.

Lemma success_marks_completed_witness :
  faults world_one_task = [] ∧
  queue_of "ocr_extraction" world_one_task = [(dumps (ocr_task "t-1" 5), - 5)] ∧
  loads (dumps (ocr_task "t-1" 5)) = Some (JDict (ocr_fields "t-1" 5)) ∧
  task_type_of_value (task_type_of (ocr_fields "t-1" 5)) = Some OCR_EXTRACTION ∧
  finish (ocr_handler_of quick_ocr OCR_EXTRACTION (JDict (ocr_fields "t-1" 5))) =
    Returns (JDict [("text", JStr "StepFlow")]) ∧
  json_wf (JDict [("text", JStr "StepFlow")]) = true ∧
  0 < PROCESSING_TIMEOUT default_settings ∧
  Z.of_N (duration (ocr_handler_of quick_ocr OCR_EXTRACTION
                      (JDict (ocr_fields "t-1" 5)))) ≤
    PROCESSING_TIMEOUT default_settings ∧
  ∃ w' rec,
    ocr_worker quick_ocr world_one_task = (Ok Continue, w') ∧
    queue_of "ocr_extraction" w' = [] ∧
    clock w' =
      clock world_one_task +
      Z.of_N (duration (ocr_handler_of quick_ocr OCR_EXTRACTION
                          (JDict (ocr_fields "t-1" 5)))) ∧
    get_task_result (task_id_of (ocr_fields "t-1" 5)) w' = (Ok (Some rec), w') ∧
    dict_get "status" rec = Some (JStr "completed") ∧
    recorded_result rec = Some (JDict [("text", JStr "StepFlow")]) ∧
    recorded_processing_time rec =
      Some (JInt (Z.of_N (duration (ocr_handler_of quick_ocr OCR_EXTRACTION
                                      (JDict (ocr_fields "t-1" 5)))))) ∧
    outcome_field "worker_id" rec = Some (JStr "ocr_extraction_0") ∧
    recorded_error rec = None.
Proof.
  assert (H1 : faults world_one_task = []) by reflexivity.
  assert (H2 : queue_of "ocr_extraction" world_one_task =
               [(dumps (ocr_task "t-1" 5), - 5)]) by (vm_compute; reflexivity).
  assert (H3 : loads (dumps (ocr_task "t-1" 5)) = Some (JDict (ocr_fields "t-1" 5)))
    by (vm_compute; reflexivity).
  assert (H4 : task_type_of_value (task_type_of (ocr_fields "t-1" 5)) =
               Some OCR_EXTRACTION) by reflexivity.
  assert (H5 : finish (ocr_handler_of quick_ocr OCR_EXTRACTION
                         (JDict (ocr_fields "t-1" 5))) =
               Returns (JDict [("text", JStr "StepFlow")])) by reflexivity.
  assert (H6 : json_wf (JDict [("text", JStr "StepFlow")]) = true) by reflexivity.
  assert (H7 : 0 < PROCESSING_TIMEOUT default_settings) by reflexivity.
  assert (H8 : Z.of_N (duration (ocr_handler_of quick_ocr OCR_EXTRACTION
                                   (JDict (ocr_fields "t-1" 5)))) ≤
               PROCESSING_TIMEOUT default_settings) by (vm_compute; discriminate).
  split; [exact H1 |]. split; [exact H2 |]. split; [exact H3 |]. split; [exact H4 |].
  split; [exact H5 |]. split; [exact H6 |]. split; [exact H7 |]. split; [exact H8 |].
  exact (success_marks_completed default_settings (returns_after 1 JNull) quick_ocr
           (returns_after 1 JNull) (returns_after 1 JNull) (returns_after 1 JNull)
           world_one_task "ocr_extraction_0" "ocr_extraction"
           (dumps (ocr_task "t-1" 5)) (- 5) [] (ocr_fields "t-1" 5) OCR_EXTRACTION
           (JDict [("text", JStr "StepFlow")]) H1 H2 H3 H4 H5 H6 H7 H8).
Defined.

Lemma unknown_type_marks_failed_witness :
  faults world_unknown_type = [] ∧
  queue_of "ocr_extraction" world_unknown_type =
    [(dumps (JDict translation_fields), - 1)] ∧
  loads (dumps (JDict translation_fields)) = Some (JDict translation_fields) ∧
  translation_fields ≠ [] ∧
  task_type_of_value (task_type_of translation_fields) = None ∧
  ∃ w' rec,
    ocr_worker quick_ocr world_unknown_type = (Ok Continue, w') ∧
    queue_of "ocr_extraction" w' = [] ∧ clock w' = clock world_unknown_type ∧
    get_task_result (task_id_of translation_fields) w' = (Ok (Some rec), w') ∧
    dict_get "status" rec = Some (JStr "failed") ∧
    recorded_error rec =
      Some (JStr (py_repr (task_type_of translation_fields) +:+
                  " is not a valid TaskType")) ∧
    (∀ ty, handlers_get (returns_after 1 JNull) quick_ocr (returns_after 1 JNull)
             (returns_after 1 JNull) (returns_after 1 JNull) ty ≠ None).
Proof.
  assert (H1 : faults world_unknown_type = []) by reflexivity.
  assert (H2 : queue_of "ocr_extraction" world_unknown_type =
               [(dumps (JDict translation_fields), - 1)]) by (vm_compute; reflexivity).
  assert (H3 : loads (dumps (JDict translation_fields)) = Some (JDict translation_fields))
    by (vm_compute; reflexivity).
  assert (H4 : translation_fields ≠ []) by discriminate.
  assert (H5 : task_type_of_value (task_type_of translation_fields) = None)
    by reflexivity.
  split; [exact H1 |]. split; [exact H2 |]. split; [exact H3 |]. split; [exact H4 |].
  split; [exact H5 |].
  exact (unknown_type_marks_failed default_settings (returns_after 1 JNull) quick_ocr
           (returns_after 1 JNull) (returns_after 1 JNull) (returns_after 1 JNull)
           world_unknown_type "ocr_extraction_0" "ocr_extraction"
           (dumps (JDict translation_fields)) (- 1) [] translation_fields
           H1 H2 H3 H4 H5).
Defined.

(** The record of the task of unknown type, as a query shows it. *)
Example unknown_type_record :
  ∃ rec,
    ((ocr_worker quick_ocr;; get_task_result (JStr "t-3")) world_unknown_type).1 =
      Ok (Some rec) ∧
    dict_get "status" rec = Some (JStr "failed") ∧
    recorded_error rec = Some (JStr "'translation' is not a valid TaskType").
Proof.
  eexists. split; [vm_compute; reflexivity |]. split; vm_compute; reflexivity.
Qed.

Lemma submit_without_record_witness :
  faults world_one_fault = [Some "Connection reset by peer"] ∧
  record_of (task_id_of (ocr_fields "t-1" 5)) world_one_fault = [] ∧
  task_type_of_value (task_type_of (ocr_fields "t-1" 5)) = Some OCR_EXTRACTION ∧
  truthy (task_id_of (ocr_fields "t-1" 5)) = true ∧
  priority_of (ocr_fields "t-1" 5) = JInt 5 ∧
  ∃ w',
    submit_task (JDict (ocr_fields "t-1" 5)) world_one_fault =
      (Ok (task_id_of (ocr_fields "t-1" 5)), w') ∧
    pending (task_type_value OCR_EXTRACTION) (JDict (ocr_fields "t-1" 5)) 5 w' ∧
    get_task_status (task_id_of (ocr_fields "t-1" 5)) w' = (Ok None, w') ∧
    trace w' =
      trace world_one_fault ++
      [EvLogError ("Failed to set task status: " +:+ "Connection reset by peer")].
Proof.
  assert (H1 : faults world_one_fault = [Some "Connection reset by peer"])
    by reflexivity.
  assert (H2 : record_of (task_id_of (ocr_fields "t-1" 5)) world_one_fault = [])
    by reflexivity.
  assert (H3 : task_type_of_value (task_type_of (ocr_fields "t-1" 5)) =
               Some OCR_EXTRACTION) by reflexivity.
  assert (H4 : truthy (task_id_of (ocr_fields "t-1" 5)) = true) by reflexivity.
  assert (H5 : priority_of (ocr_fields "t-1" 5) = JInt 5) by reflexivity.
  split; [exact H1 |]. split; [exact H2 |]. split; [exact H3 |]. split; [exact H4 |].
  split; [exact H5 |].
  exact (submit_without_record world_one_fault (ocr_fields "t-1" 5) OCR_EXTRACTION 5
           "Connection reset by peer" H1 H2 H3 H4 H5).
Defined.
